(** * Multi-agent fraud investigation workflow: a shallow embedding

    The development follows [backend/agents]: the base agent's response
    parser ([base_agent.py]), the three agents ([risk_analyst.py],
    [fraud_investigator.py], [compliance_agent.py]) and the LangGraph
    workflow that composes them ([orchestrator.py]).

    Python values are embedded as the inductive [value]; a dictionary is a
    [gmap string value].  A call that can raise returns an [outcome].  What
    the Python runtime and the libraries supply (the JSON decoder, number
    formatting, [repr]) is collected in the record [PyRuntime] and every
    definition is parameterised by it.  The reply of the reasoning
    capability ([BedrockAgent.invoke]) at each of the three calls of one
    run is an input of the run. *)

From Stdlib Require Import Floats ZArith String Ascii List Lia Bool.
From stdpp Require Import base option list gmap strings pretty.

Set Warnings "-inexact-float,-register-all".
Open Scope string_scope.

(** ** Python values and exceptions *)

Inductive value : Type :=
| VNone
| VBool (b : bool)
| VInt (z : Z)
| VFloat (f : float)
| VStr (s : string)
| VList (l : list value)
| VDict (d : gmap string value).

Abbreviation dict := (gmap string value).

Inductive exn : Type :=
| TypeError (msg : string)
| AttributeError (msg : string)
| ValueError (msg : string)
| OverflowError (msg : string)
| KeyError (msg : string)
| GraphRecursionError (msg : string)
| CapabilityError (msg : string).

(** [str(e)] *)
Definition str_exn (e : exn) : string :=
  match e with
  | TypeError m | AttributeError m | ValueError m | OverflowError m
  | KeyError m | GraphRecursionError m | CapabilityError m => m
  end.

Inductive outcome (A : Type) : Type :=
| Ok (a : A)
| Raise (e : exn).
Arguments Ok {A} a.
Arguments Raise {A} e.

Definition bind {A B : Type} (r : outcome A) (k : A -> outcome B) : outcome B :=
  match r with
  | Ok a => k a
  | Raise e => Raise e
  end.

Notation "x <- r ;; k" := (bind r (fun x => k))
  (at level 100, r at next level, right associativity).

Definition returns {A : Type} (r : outcome A) : Prop := exists a, r = Ok a.

(** Outcome of [json.loads] on a string: the decoded value, or a
    [json.JSONDecodeError] with its message. *)
Inductive decoded : Type :=
| Decoded (v : value)
| JSONDecodeError (msg : string).

(** What the Python runtime supplies. *)
Record PyRuntime : Type := {
  (** [json.loads(s)] *)
  json_loads : string -> decoded;
  (** [format(x, spec)] for a float [x] and the presentation types used
      here ([".0%"], [".2f"], [",.2f"], [".3f"]) *)
  format_float : string -> float -> string;
  (** [float(n)] for an int [n]; raises [OverflowError] when too large *)
  float_of_int : Z -> outcome float;
  (** [repr(v)], used by [str] on floats and containers *)
  py_repr : value -> string
}.

(** ** Operations on values *)

(** Truth value of an object ([if v:], [a and b], [a or b]). *)
Definition truthy (v : value) : bool :=
  match v with
  | VNone => false
  | VBool b => b
  | VInt z => negb (z =? 0)%Z
  | VFloat f => negb (f =? 0)%float
  | VStr s => negb (String.eqb s "")
  | VList l => match l with [] => false | _ => true end
  | VDict d => match map_to_list d with [] => false | _ => true end
  end.

(** [v == s] for a string literal [s]. *)
Definition is_str (s : string) (v : value) : bool :=
  match v with
  | VStr t => String.eqb t s
  | _ => false
  end.

(** [d.get(k, dflt)] *)
Definition get (d : dict) (k : string) (dflt : value) : value :=
  default dflt (d !! k).

(** [d[k]] *)
Definition index (d : dict) (k : string) : outcome value :=
  match d !! k with
  | Some v => Ok v
  | None => Raise (KeyError k)
  end.

(** [v > 0.4] and [v <= 0.4]: a float is compared as a float, an int or
    a bool by its exact value, anything else is not ordered with a
    float. *)
Definition gt_0_4 (v : value) : outcome bool :=
  match v with
  | VFloat f => Ok (0.4 <? f)%float
  | VInt z => Ok (0 <? z)%Z
  | VBool b => Ok b
  | VNone | VStr _ | VList _ | VDict _ =>
      Raise (TypeError "'>' not supported between these instances")
  end.

Definition le_0_4 (v : value) : outcome bool :=
  match v with
  | VFloat f => Ok (f <=? 0.4)%float
  | VInt z => Ok (z <=? 0)%Z
  | VBool b => Ok (negb b)
  | VNone | VStr _ | VList _ | VDict _ =>
      Raise (TypeError "'<=' not supported between these instances")
  end.

(** [d.setdefault(k, v)], as a statement: the dictionary afterwards. *)
Definition setdefault (k : string) (v : value) (d : dict) : dict :=
  match d !! k with
  | Some _ => d
  | None => <[k := v]> d
  end.

(** [len(v)] *)
Definition py_len (v : value) : outcome nat :=
  match v with
  | VList l => Ok (length l)
  | VStr s => Ok (String.length s)
  | VDict d => Ok (size d)
  | VNone | VBool _ | VInt _ | VFloat _ =>
      Raise (TypeError "object has no len()")
  end.

(** ** Strings *)

(** [sub in s] *)
Fixpoint contains (sub s : string) : bool :=
  String.prefix sub s ||
  match s with
  | EmptyString => false
  | String _ s' => contains sub s'
  end.

(** [s.split(sep)] for a non-empty separator: the pieces between the
    non-overlapping occurrences of [sep], found from the left.  [skip]
    counts the characters of a separator still to be passed over. *)
Fixpoint split_from (sep : string) (skip : nat) (s : string) : list string :=
  match s with
  | EmptyString => [EmptyString]
  | String c s' =>
      match skip with
      | S k => split_from sep k s'
      | O =>
          if String.prefix sep s
          then EmptyString :: split_from sep (String.length sep - 1) s'
          else match split_from sep 0 s' with
               | p :: ps => String c p :: ps
               | [] => [String c EmptyString]
               end
      end
  end.

Definition split (sep s : string) : list string := split_from sep 0 s.

(** Whitespace as [str.strip] sees it, among the characters below 256. *)
Definition is_space (c : ascii) : bool :=
  let n := nat_of_ascii c in
  (((9 <=? n) && (n <=? 13)) || ((28 <=? n) && (n <=? 32))
   || (n =? 133) || (n =? 160))%nat.

Fixpoint lstrip (s : string) : string :=
  match s with
  | EmptyString => EmptyString
  | String c s' => if is_space c then lstrip s' else s
  end.

Fixpoint rstrip (s : string) : string :=
  match s with
  | EmptyString => EmptyString
  | String c s' =>
      match rstrip s' with
      | EmptyString => if is_space c then EmptyString else String c EmptyString
      | r => String c r
      end
  end.

(** [s.strip()] *)
Definition strip (s : string) : string := rstrip (lstrip s).

(** No backquote occurs in [s]. *)
Fixpoint backtick_free (s : string) : bool :=
  match s with
  | EmptyString => true
  | String c s' => negb (Ascii.eqb c "`") && backtick_free s'
  end.

(** [sep.join(l)] *)
Definition join (sep : string) (l : list string) : string := String.concat sep l.

(** [l[i]] on a list of pieces known to have that index. *)
Definition piece (i : nat) (l : list string) : string := nth i l EmptyString.

(** ** Transactions *)

(** A transaction as the workflow receives it.  Every field the prompts
    index directly is present; [velocity] is read with [.get] everywhere
    and may be missing.  An amount is a Python number, held as the float
    of the same value. *)
Record Transaction : Type := {
  transaction_id : string;
  timestamp : string;
  from_account : string;
  to_account : string;
  amount : float;
  merchant_category : string;
  device_id : string;
  location : string;
  hour : Z;
  velocity : option Z
}.

(** [x in l] for a list of string literals, and for a list of ints. *)
Definition str_in (x : string) (l : list string) : bool :=
  existsb (String.eqb x) l.

Definition int_in (x : Z) (l : list Z) : bool :=
  existsb (Z.eqb x) l.

(** [l.append(x)], as the list afterwards. *)
Definition list_append {A : Type} (l : list A) (x : A) : list A :=
  (l ++ [x])%list.

(** [min(a, b)]: the first of the smallest. *)
Definition py_min (a b : float) : float :=
  if (b <? a)%float then b else a.

(** The characters of a string, each as a string. *)
Fixpoint chars (s : string) : list string :=
  match s with
  | EmptyString => []
  | String c s' => String c EmptyString :: chars s'
  end.

(** The strings of a list of values, when every item is a string. *)
Fixpoint strings_of (l : list value) : option (list string) :=
  match l with
  | [] => Some []
  | VStr s :: l' => (fun ss => s :: ss) <$> strings_of l'
  | _ :: _ => None
  end.

(** [v[:2]] *)
Definition slice2 (v : value) : outcome value :=
  match v with
  | VList l => Ok (VList (take 2 l))
  | VStr s => Ok (VStr (String.substring 0 2 s))
  | VNone | VBool _ | VInt _ | VFloat _ | VDict _ =>
      Raise (TypeError "object is not subscriptable")
  end.

(** [sep.join(v)] for a list or a string [v]. *)
Definition join_value (sep : string) (v : value) : outcome string :=
  match v with
  | VList l =>
      match strings_of l with
      | Some ss => Ok (join sep ss)
      | None => Raise (TypeError "sequence item: expected str instance")
      end
  | VStr s => Ok (join sep (chars s))
  | VNone | VBool _ | VInt _ | VFloat _ | VDict _ =>
      Raise (TypeError "can only join an iterable")
  end.

(** Whether [sep.join(v)] returns: also a dictionary can be joined (its
    keys are strings). *)
Definition joinable (v : value) : outcome unit :=
  match v with
  | VDict _ => Ok tt
  | _ => _ <- join_value "" v ;; Ok tt
  end.

(** [x in c] for a string [x]: membership in a list, substring of a
    string, key of a dictionary; other objects are not containers. *)
Definition py_in (x : string) (c : value) : outcome bool :=
  match c with
  | VList l => Ok (existsb (is_str x) l)
  | VStr s => Ok (contains x s)
  | VDict d => Ok (bool_decide (is_Some (d !! x)))
  | VNone | VBool _ | VInt _ | VFloat _ =>
      Raise (TypeError "argument is not iterable")
  end.

(** ** base_agent.py *)

Definition fence_json : string := "```json".
Definition fence : string := "```".

Section Agents.

Variable rt : PyRuntime.

(** [str(v)], which is what an f-string field [{v}] renders. *)
Definition py_str (v : value) : string :=
  match v with
  | VStr s => s
  | VNone => "None"
  | VBool true => "True"
  | VBool false => "False"
  | VInt z => pretty z
  | VFloat _ | VList _ | VDict _ => py_repr rt v
  end.

(** [f"{v:spec}"] with a float presentation type. *)
Definition format_value (spec : string) (v : value) : outcome string :=
  match v with
  | VFloat f => Ok (format_float rt spec f)
  | VInt z => f <- float_of_int rt z ;; Ok (format_float rt spec f)
  | VBool b => Ok (format_float rt spec (if b then 1 else 0)%float)
  | VStr _ => Raise (ValueError "Unknown format code for object of type 'str'")
  | VNone | VList _ | VDict _ =>
      Raise (TypeError "unsupported format string passed to __format__")
  end.

(** The text the markdown handling of [_parse_json_response] hands to the
    second [json.loads]. *)
Definition json_candidate (response : string) : string :=
  if contains fence_json response
  then strip (piece 0 (split fence (piece 1 (split fence_json response))))
  else if contains fence response
  then strip (piece 0 (split fence (piece 1 (split fence response))))
  else strip response.

(** [{"raw_response": response, "parse_error": str(e)}] *)
Definition degraded (response e : string) : dict :=
  <["raw_response" := VStr response]> (<["parse_error" := VStr e]> ∅).

(** [BedrockAgent._parse_json_response] *)
Definition _parse_json_response (response : string) : value :=
  match json_loads rt response with
  | Decoded v => v
  | JSONDecodeError _ =>
      match json_loads rt (json_candidate response) with
      | Decoded v => v
      | JSONDecodeError e => VDict (degraded response e)
      end
  end.

(** ** risk_analyst.py *)

(** One entry of [score_breakdown["factors"]]. *)
Record factor : Type := {
  name : string;
  contribution : float;
  reason : string
}.

(** The [score_breakdown] dictionary; a key that is not always set is an
    option. *)
Record score_breakdown : Type := {
  factors : list factor;
  base_score : option float;
  total_score : float;
  method : option string
}.

Definition factor_value (f : factor) : value :=
  VDict (<["name" := VStr (name f)]>
         (<["contribution" := VFloat (contribution f)]>
          (<["reason" := VStr (reason f)]> ∅))).

Definition opt_insert (k : string) (o : option value) (d : dict) : dict :=
  match o with
  | Some v => <[k := v]> d
  | None => d
  end.

Definition breakdown_value (b : score_breakdown) : value :=
  VDict (opt_insert "method" (VStr <$> method b)
         (opt_insert "base_score" (VFloat <$> base_score b)
          (<["total_score" := VFloat (total_score b)]>
           (<["factors" := VList (factor_value <$> factors b)]> ∅)))).

(** [score += w; breakdown["factors"].append({...})] *)
Definition add_factor (acc : float * list factor) (f : factor)
  : float * list factor :=
  ((fst acc + contribution f)%float, list_append (snd acc) f).

Definition unusual_hours : list Z := [0; 1; 2; 3; 4; 23]%Z.
Definition suspicious_locations : list string :=
  ["Unknown"; "Foreign"; "VPN"; "Proxy"].
Definition high_risk_merchants : list string :=
  ["Gift Cards"; "Crypto"; "Wire Transfer"; "Electronics"; "Jewelry"].

(** [RiskAnalystAgent._calculate_heuristic_risk] *)
Definition _calculate_heuristic_risk (tx : Transaction)
  : float * score_breakdown :=
  let acc := (0.0%float, []) in
  (* Amount-based risk *)
  let acc :=
    if (amount tx <? 1.0)%float then
      add_factor acc
        {| name := "Micro-transaction"; contribution := 0.3;
           reason := "Amount $" +:+ format_float rt ".2f" (amount tx)
                     +:+ " suggests card testing pattern" |}
    else if (5000 <? amount tx)%float then
      add_factor acc
        {| name := "Large transaction"; contribution := 0.2;
           reason := "High value $" +:+ format_float rt ",.2f" (amount tx)
                     +:+ " exceeds typical threshold" |}
    else acc in
  (* Time-based risk *)
  let acc :=
    if int_in (hour tx) unusual_hours then
      add_factor acc
        {| name := "Unusual hours"; contribution := 0.2;
           reason := "Transaction at " +:+ pretty (hour tx)
                     +:+ ":00 - high-risk time window" |}
    else acc in
  (* Location-based risk *)
  let acc :=
    if str_in (location tx) suspicious_locations then
      add_factor acc
        {| name := "Suspicious location"; contribution := 0.25;
           reason := "Location '" +:+ location tx
                     +:+ "' indicates potential fraud" |}
    else acc in
  (* Merchant category risk *)
  let acc :=
    if str_in (merchant_category tx) high_risk_merchants then
      add_factor acc
        {| name := "High-risk merchant"; contribution := 0.15;
           reason := "'" +:+ merchant_category tx
                     +:+ "' category commonly used for fraud" |}
    else acc in
  (* Velocity risk *)
  let v := default 1%Z (velocity tx) in
  let acc :=
    if (5 <? v)%Z then
      add_factor acc
        {| name := "High velocity"; contribution := 0.1;
           reason := pretty v +:+ " transactions/hour exceeds normal rate" |}
    else acc in
  let final_score := py_min (fst acc) 1.0 in
  (final_score,
   {| factors := snd acc; base_score := Some 0.0%float;
      total_score := final_score; method := None |}).

(** The score of the heuristic, and the breakdown [analyze_risk] stores
    when no learned scorer is used. *)
Definition heuristic_score (tx : Transaction) : float :=
  fst (_calculate_heuristic_risk tx).

(** Whether the heuristic score is above the branch threshold. *)
Definition escalates (tx : Transaction) : bool :=
  (0.4 <? heuristic_score tx)%float.

Definition heuristic_breakdown (tx : Transaction) : score_breakdown :=
  let b := snd (_calculate_heuristic_risk tx) in
  {| factors := factors b; base_score := base_score b;
     total_score := total_score b; method := Some "Heuristic" |}.

(** [RiskAnalystAgent._identify_patterns] *)
Definition _identify_patterns (tx : Transaction) (risk_score : float)
  : list string :=
  let patterns := [] in
  let patterns :=
    if (0.7 <? risk_score)%float
    then list_append patterns ("High GNN risk score") else patterns in
  let patterns :=
    if (amount tx <? 1.0)%float
    then list_append patterns ("Card testing (micro-transaction)")
    else if (5000 <? amount tx)%float
    then list_append patterns ("Large value transaction") else patterns in
  let patterns :=
    if int_in (hour tx) unusual_hours
    then list_append patterns ("Unusual transaction time") else patterns in
  let patterns :=
    if str_in (merchant_category tx) ["Gift Cards"; "Crypto"; "Wire Transfer"]
    then list_append patterns ("High-risk merchant: " +:+ merchant_category tx)
    else patterns in
  let patterns :=
    if str_in (location tx) suspicious_locations
    then list_append patterns ("Suspicious location: " +:+ location tx)
    else patterns in
  let v := default 1%Z (velocity tx) in
  let patterns :=
    if (5 <? v)%Z
    then list_append patterns ("High velocity: " +:+ pretty v +:+ " tx/hour")
    else patterns in
  patterns.

(** [RiskAnalystAgent._score_to_level] *)
Definition _score_to_level (score : float) : string :=
  if (0.8 <=? score)%float then "Critical"
  else if (0.6 <=? score)%float then "High"
  else if (0.4 <=? score)%float then "Medium"
  else "Low".

(** [sorted(factors, key=lambda x: x["contribution"], reverse=True)]: a
    stable sort, entries of equal contribution keep their order. *)
Fixpoint insert_desc (x : factor) (l : list factor) : list factor :=
  match l with
  | [] => [x]
  | y :: l' =>
      if (contribution x <? contribution y)%float
      then y :: insert_desc x l'
      else x :: l
  end.

Definition sorted_desc (l : list factor) : list factor :=
  foldr insert_desc [] l.

(** [RiskAnalystAgent._generate_explanation] *)
Definition _generate_explanation (risk_score : float)
    (breakdown : score_breakdown) (patterns : list string) : string :=
  let level := _score_to_level risk_score in
  let fs := factors breakdown in
  let head := level +:+ " risk (" +:+ format_float rt ".0%" risk_score
              +:+ "). " in
  match fs, patterns with
  | [], [] => head +:+ "No significant risk factors detected."
  | _, _ =>
      let top_factors := take 3 (sorted_desc fs) in
      let reasons := reason <$> top_factors in
      if str_in level ["Low"] then
        head +:+ "Transaction appears normal with no major red flags."
      else if String.eqb level "Medium" then
        head +:+ join "; " (take 2 reasons)
        +:+ ". Escalating for investigation."
      else
        head +:+ join "; " reasons +:+ ". Immediate review required."
  end.

Definition risk_analyst_name : string := "Risk Analyst".

(** [RiskAnalystAgent.analyze_risk].  [gnn] is what the learned scorer
    does when a model and graph data are both given ([None] when either
    is missing); [reply] is what [self.invoke(prompt)] does.  The prompt
    is built from fields every [Transaction] has and from the score and
    patterns computed here, so building it cannot raise. *)
Definition analyze_risk (tx : Transaction) (gnn : option (outcome float))
    (reply : outcome string) : outcome dict :=
  let '(risk_score, breakdown) :=
    match gnn with
    | Some (Ok s) =>
        (s, {| factors :=
                 [ {| name := "Graph Neural Network"; contribution := s;
                      reason := "ML model analyzed transaction patterns and relationships" |} ];
               base_score := None; total_score := s;
               method := Some "GNN" |})
    | Some (Raise _) =>
        let '(s, b) := _calculate_heuristic_risk tx in
        (s, {| factors := factors b; base_score := base_score b;
               total_score := total_score b;
               method := Some "Heuristic (GNN fallback)" |})
    | None =>
        let '(s, b) := _calculate_heuristic_risk tx in
        (s, {| factors := factors b; base_score := base_score b;
               total_score := total_score b;
               method := Some "Heuristic" |})
    end in
  let patterns := _identify_patterns tx risk_score in
  response <- reply ;;
  match _parse_json_response response with
  | VDict result =>
      let result := <["risk_score" := VFloat risk_score]> result in
      let result := <["patterns" := VList (VStr <$> patterns)]> result in
      let result := <["score_breakdown" := breakdown_value breakdown]> result in
      let result :=
        setdefault "risk_level" (VStr (_score_to_level risk_score)) result in
      let result := setdefault "risk_factors" (VList []) result in
      let result := setdefault "monitoring_actions" (VList []) result in
      let result := setdefault "prevention_strategies" (VList []) result in
      let result := <["agent" := VStr risk_analyst_name]> result in
      let result :=
        <["explanation" :=
            VStr (_generate_explanation risk_score breakdown patterns)]>
          result in
      Ok result
  | _ =>
      (* result["risk_score"] = ... on a value that is not a dict *)
      Raise (TypeError "object does not support item assignment")
  end.

(** ** fraud_investigator.py *)

Definition fraud_investigator_name : string := "Fraud Investigator".

(** The fields of the investigation prompt whose formatting can raise,
    [{risk_score:.2f}] and [', '.join(patterns) if patterns else 'None'];
    the others are [str] of fields every [Transaction] has. *)
Definition investigation_prompt_fields (risk_score patterns : value)
  : outcome unit :=
  _ <- format_value ".2f" risk_score ;;
  if truthy patterns then joinable patterns else Ok tt.

(** [FraudInvestigatorAgent.investigate_transaction]; [reply] is what
    [self.invoke(prompt)] does. *)
Definition investigate_transaction (tx : Transaction)
    (risk_score patterns : value) (reply : outcome string) : outcome dict :=
  _ <- investigation_prompt_fields risk_score patterns ;;
  response <- reply ;;
  match _parse_json_response response with
  | VDict result =>
      let result := setdefault "fraud_likelihood" (VStr "Unknown") result in
      let result := setdefault "recommendation" (VStr "REVIEW") result in
      let result := setdefault "fraud_indicators" (VList []) result in
      let result := setdefault "explanation" (VStr response) result in
      let result := setdefault "confidence" (VFloat 0.5) result in
      let result := setdefault "suggested_actions" (VList []) result in
      let result := <["agent" := VStr fraud_investigator_name]> result in
      Ok result
  | _ =>
      (* result.setdefault(...) on a value that is not a dict *)
      Raise (AttributeError "object has no attribute 'setdefault'")
  end.

(** What [investigate_transaction] returns on a response that is not
    JSON: the degraded payload with every required field defaulted. *)
Definition parse_failure_finding (response e : string) : dict :=
  <["agent" := VStr fraud_investigator_name]>
  (<["suggested_actions" := VList []]>
   (<["confidence" := VFloat 0.5]>
    (<["explanation" := VStr response]>
     (<["fraud_indicators" := VList []]>
      (<["recommendation" := VStr "REVIEW"]>
       (<["fraud_likelihood" := VStr "Unknown"]>
        (degraded response e))))))).

(** ** compliance_agent.py *)

Definition compliance_officer_name : string := "Compliance Officer".

Definition ctr_action : string :=
  "File Currency Transaction Report (CTR) - amount exceeds $10,000".

(** [ComplianceAgent._generate_compliance_summary] *)
Definition _generate_compliance_summary (result : dict) (tx : Transaction)
    (investigation_result : dict) : outcome string :=
  let money := format_float rt ",.2f" (amount tx) in
  let parts := [] in
  (* CTR status *)
  let parts :=
    if truthy (get result "ctr_required" VNone)
    then list_append parts
           ("CTR required: $" +:+ money +:+ " exceeds $10,000 threshold.")
    else parts in
  (* SAR status *)
  let parts :=
    if truthy (get result "sar_required" VNone) then
      let fraud_likelihood :=
        get investigation_result "fraud_likelihood" (VStr "Unknown") in
      list_append parts
        ("SAR filing initiated: " +:+ py_str fraud_likelihood
         +:+ " fraud likelihood on $" +:+ money +:+ " transaction.")
    else if (5000 <? amount tx)%float then
      list_append parts
        ("SAR not required: Transaction $" +:+ money
         +:+ " reviewed, no suspicious indicators confirmed.")
    else parts in
  (* AML/KYC status *)
  aml_count <- py_len (get result "aml_violations" (VList [])) ;;
  kyc_count <- py_len (get result "kyc_flags" (VList [])) ;;
  let parts :=
    if (0 <? aml_count)%nat
    then list_append parts
           (pretty aml_count +:+ " AML violation(s) flagged for review.")
    else parts in
  let parts :=
    if (0 <? kyc_count)%nat
    then list_append parts
           (pretty kyc_count +:+ " KYC flag(s) require verification.")
    else parts in
  let parts :=
    match parts with
    | [] => ["All compliance checks passed. No regulatory filings required."]
    | _ => parts
    end in
  Ok (join " " parts).

(** The CTR rule of [check_compliance]: [amount > 10000]. *)
Definition apply_ctr_rule (tx : Transaction) (result : dict) : outcome dict :=
  if (10000 <? amount tx)%float then
    let result := <["ctr_required" := VBool true]> result in
    listed <- py_in "ctr_required" (get result "regulatory_actions" (VList [])) ;;
    if negb listed then
      (* result.setdefault("regulatory_actions", []).append(...) *)
      match result !! "regulatory_actions" with
      | None => Ok (<["regulatory_actions" := VList [VStr ctr_action]]> result)
      | Some (VList l) =>
          Ok (<["regulatory_actions" := VList (list_append l (VStr ctr_action))]>
                result)
      | Some _ => Raise (AttributeError "object has no attribute 'append'")
      end
    else Ok result
  else Ok result.

(** The SAR rule of [check_compliance]: [amount > 5000] and a Medium or
    High fraud likelihood. *)
Definition sar_rule_fires (tx : Transaction) (investigation_result : dict)
  : bool :=
  let fraud_likelihood :=
    get investigation_result "fraud_likelihood" (VStr "Low") in
  (5000 <? amount tx)%float
  && existsb (fun s => is_str s fraud_likelihood) ["Medium"; "High"].

Definition apply_sar_rule (tx : Transaction) (investigation_result : dict)
    (result : dict) : dict :=
  if sar_rule_fires tx investigation_result then
    let fraud_likelihood :=
      get investigation_result "fraud_likelihood" (VStr "Low") in
    let result := <["sar_required" := VBool true]> result in
    setdefault "sar_reason"
      (VStr ("Suspicious transaction over $5,000 with "
             +:+ py_str fraud_likelihood +:+ " fraud likelihood"))
      result
  else result.

(** [ComplianceAgent.check_compliance]; [reply] is what
    [self.invoke(prompt)] does.  The prompt is built with [str] of
    transaction fields and of [.get] lookups, so building it cannot
    raise. *)
Definition check_compliance (tx : Transaction) (investigation_result : dict)
    (reply : outcome string) : outcome dict :=
  response <- reply ;;
  match _parse_json_response response with
  | VDict result =>
      (* Apply automatic rules *)
      result <- apply_ctr_rule tx result ;;
      let result := apply_sar_rule tx investigation_result result in
      (* Ensure required fields *)
      let result := setdefault "sar_required" (VBool false) result in
      let result := setdefault "ctr_required" (VBool false) result in
      let result := setdefault "sar_reason" (VStr "") result in
      let result := setdefault "aml_violations" (VList []) result in
      let result := setdefault "kyc_flags" (VList []) result in
      let result := setdefault "regulatory_actions" (VList []) result in
      let result := setdefault "compliance_notes" (VStr "") result in
      let result := setdefault "risk_rating" (VStr "Low") result in
      let result := <["agent" := VStr compliance_officer_name]> result in
      summary <- _generate_compliance_summary result tx investigation_result ;;
      Ok (<["compliance_summary" := VStr summary]> result)
  | _ =>
      (* item assignment or .setdefault on a value that is not a dict *)
      if (10000 <? amount tx)%float || sar_rule_fires tx investigation_result
      then Raise (TypeError "object does not support item assignment")
      else Raise (AttributeError "object has no attribute 'setdefault'")
  end.

(** ** orchestrator.py *)

(** [InvestigationState]; [decision_reason] is not a key of the initial
    state. *)
Record InvestigationState : Type := {
  st_transaction : Transaction;
  st_transaction_id : string;
  st_timestamp : string;
  st_steps : list string;
  st_risk_analysis : option dict;
  st_fraud_investigation : option dict;
  st_compliance_check : option dict;
  st_final_decision : value;
  st_decision_reason : option string;
  st_status : string;
  st_error : option string
}.

(** The dictionary [investigate_async] returns (the workflow run). *)
Record WorkflowRun : Type := {
  run_transaction_id : string;
  run_timestamp : string;
  steps : list string;
  risk_analysis : option dict;
  fraud_investigation : option dict;
  compliance_check : option dict;
  final_decision : value;
  decision_reason : string;
  status : string
}.

(** A call of [_emit_step(event_type, data)], named by its event type;
    the registered [on_step] callback receives them in this order. *)
Inductive event : Type :=
| investigation_start (txid : string)
| agent_thinking (agent message : string)
| agent_result (agent : string) (result : dict)
| investigation_complete (run : WorkflowRun).

(** One key of the partial state a node returns; LangGraph writes each
    returned key over the state's. *)
Inductive assignment : Type :=
| set_risk_analysis (d : dict)
| set_fraud_investigation (d : dict)
| set_compliance_check (d : dict)
| set_steps (l : list string)
| set_final_decision (v : value)
| set_decision_reason (s : string)
| set_status (s : string)
| set_error (s : string).

Definition assign (st : InvestigationState) (a : assignment)
  : InvestigationState :=
  let '{| st_transaction := tx; st_transaction_id := i; st_timestamp := ts;
          st_steps := sp; st_risk_analysis := ra;
          st_fraud_investigation := fi; st_compliance_check := cc;
          st_final_decision := fd; st_decision_reason := dr;
          st_status := stt; st_error := er |} := st in
  match a with
  | set_risk_analysis d =>
      Build_InvestigationState tx i ts sp (Some d) fi cc fd dr stt er
  | set_fraud_investigation d =>
      Build_InvestigationState tx i ts sp ra (Some d) cc fd dr stt er
  | set_compliance_check d =>
      Build_InvestigationState tx i ts sp ra fi (Some d) fd dr stt er
  | set_steps l =>
      Build_InvestigationState tx i ts l ra fi cc fd dr stt er
  | set_final_decision v =>
      Build_InvestigationState tx i ts sp ra fi cc v dr stt er
  | set_decision_reason s =>
      Build_InvestigationState tx i ts sp ra fi cc fd (Some s) stt er
  | set_status s =>
      Build_InvestigationState tx i ts sp ra fi cc fd dr s er
  | set_error s =>
      Build_InvestigationState tx i ts sp ra fi cc fd dr stt (Some s)
  end.

Definition merge (st : InvestigationState) (update : list assignment)
  : InvestigationState :=
  foldl assign st update.

(** Truth value of [state.get(key)] for a key holding a dict or [None]. *)
Definition present (o : option dict) : bool :=
  match o with
  | Some d => truthy (VDict d)
  | None => false
  end.

(** [FraudInvestigationOrchestrator._should_investigate], on the value
    of [state.get("risk_analysis")]. *)
Definition _should_investigate (risk_analysis : option dict)
  : outcome string :=
  match risk_analysis with
  | Some d =>
      if truthy (VDict d) then
        above <- gt_0_4 (get d "risk_score" (VInt 0)) ;;
        Ok (if above then "investigate" else "approve")
      else Ok "approve"
  | None => Ok "approve"
  end.

(** [FraudInvestigationOrchestrator._get_routing_reason] *)
Definition _get_routing_reason (risk_analysis : dict) (route : string)
  : outcome string :=
  let risk_score := get risk_analysis "risk_score" (VInt 0) in
  let risk_level := get risk_analysis "risk_level" (VStr "Unknown") in
  pct <- format_value ".0%" risk_score ;;
  if String.eqb route "approve" then
    Ok ("Risk score " +:+ pct +:+ " is below 40% threshold. "
        +:+ py_str risk_level
        +:+ " risk level - no further investigation needed. "
        +:+ "Transaction approved by Risk Analyst.")
  else
    Ok ("Risk score " +:+ pct +:+ " exceeds 40% threshold. "
        +:+ py_str risk_level +:+ " risk level detected. "
        +:+ "Escalating to Fraud Investigator for detailed analysis.").

(** The [try] block of [_risk_analysis_node]: the assessment with its
    routing entries, and the step message. *)
Definition risk_analysis_try (st : InvestigationState)
    (reply : outcome string) : outcome (dict * string) :=
  risk_analysis <- analyze_risk (st_transaction st) None reply ;;
  route <- _should_investigate (Some risk_analysis) ;;
  routing_reason <- _get_routing_reason risk_analysis route ;;
  let risk_analysis :=
    <["routing_reason" := VStr routing_reason]> risk_analysis in
  let risk_analysis :=
    <["escalated" := VBool (String.eqb route "investigate")]> risk_analysis in
  level <- index risk_analysis "risk_level" ;;
  score <- index risk_analysis "risk_score" ;;
  score3 <- format_value ".3f" score ;;
  Ok (risk_analysis,
      "Risk Analyst: " +:+ py_str level +:+ " risk (score: " +:+ score3
      +:+ ")").

(** [FraudInvestigationOrchestrator._risk_analysis_node]: the events it
    emits and the partial state it returns. *)
Definition _risk_analysis_node (st : InvestigationState)
    (reply : outcome string) : list event * list assignment :=
  let thinking :=
    agent_thinking "Risk Analyst" "Analyzing transaction risk..." in
  match risk_analysis_try st reply with
  | Ok (risk_analysis, step_msg) =>
      ([thinking; agent_result "Risk Analyst" risk_analysis],
       [set_risk_analysis risk_analysis;
        set_steps (list_append (st_steps st) step_msg)])
  | Raise e =>
      ([thinking], [set_error (str_exn e); set_status "error"])
  end.

(** The finding the investigation node records when its [try] block
    raises. *)
Definition investigation_error_finding (e : exn) : dict :=
  <["recommendation" := VStr "REVIEW"]>
  (<["fraud_likelihood" := VStr "Unknown"]>
   (<["explanation" := VStr ("Investigation error: " +:+ str_exn e)]> ∅)).

Definition fraud_investigation_try (st : InvestigationState)
    (reply : outcome string) : outcome (dict * string) :=
  let risk_analysis := default ∅ (st_risk_analysis st) in
  fraud_investigation <-
    investigate_transaction (st_transaction st)
      (get risk_analysis "risk_score" (VFloat 0.5))
      (get risk_analysis "patterns" (VList []))
      reply ;;
  recommendation <- index fraud_investigation "recommendation" ;;
  likelihood <- index fraud_investigation "fraud_likelihood" ;;
  Ok (fraud_investigation,
      "Fraud Investigator: " +:+ py_str recommendation +:+ " ("
      +:+ py_str likelihood +:+ " likelihood)").

(** [FraudInvestigationOrchestrator._fraud_investigation_node] *)
Definition _fraud_investigation_node (st : InvestigationState)
    (reply : outcome string) : list event * list assignment :=
  let thinking :=
    agent_thinking "Fraud Investigator" "Investigating suspicious activity..." in
  match fraud_investigation_try st reply with
  | Ok (fraud_investigation, step_msg) =>
      ([thinking; agent_result "Fraud Investigator" fraud_investigation],
       [set_fraud_investigation fraud_investigation;
        set_steps (list_append (st_steps st) step_msg)])
  | Raise e =>
      ([thinking],
       [set_fraud_investigation (investigation_error_finding e);
        set_steps
          (list_append (st_steps st)
             ("Fraud Investigator: Error - " +:+ str_exn e))])
  end.

(** The finding the compliance node uses when the state has none. *)
Definition default_finding : dict :=
  <["recommendation" := VStr "REVIEW"]>
  (<["fraud_likelihood" := VStr "Unknown"]> ∅).

(** The outcome the compliance node records when its [try] block
    raises. *)
Definition compliance_error_outcome (e : exn) : dict :=
  <["sar_required" := VBool false]>
  (<["compliance_notes" := VStr ("Compliance check error: " +:+ str_exn e)]>
   ∅).

Definition compliance_check_try (st : InvestigationState)
    (reply : outcome string) : outcome (dict * string) :=
  let fraud_investigation :=
    if present (st_fraud_investigation st)
    then default ∅ (st_fraud_investigation st)
    else default_finding in
  compliance_check <-
    check_compliance (st_transaction st) fraud_investigation reply ;;
  sar <- index compliance_check "sar_required" ;;
  Ok (compliance_check,
      "Compliance Officer: SAR "
      +:+ (if truthy sar then "required" else "not required")).

(** [FraudInvestigationOrchestrator._compliance_check_node] *)
Definition _compliance_check_node (st : InvestigationState)
    (reply : outcome string) : list event * list assignment :=
  let thinking :=
    agent_thinking "Compliance Officer" "Checking regulatory requirements..." in
  match compliance_check_try st reply with
  | Ok (compliance_check, step_msg) =>
      ([thinking; agent_result "Compliance Officer" compliance_check],
       [set_compliance_check compliance_check;
        set_steps (list_append (st_steps st) step_msg)])
  | Raise e =>
      ([thinking],
       [set_compliance_check (compliance_error_outcome e);
        set_steps
          (list_append (st_steps st)
             ("Compliance Officer: Error - " +:+ str_exn e))])
  end.

(** [FraudInvestigationOrchestrator._build_decision_reason] *)
Definition _build_decision_reason (decision : value)
    (risk_analysis fraud_investigation compliance_check : option dict)
  : outcome string :=
  let parts := [] in
  let risk_score :=
    if present risk_analysis
    then get (default ∅ risk_analysis) "risk_score" (VInt 0) else VInt 0 in
  let fraud_likelihood :=
    if present fraud_investigation
    then get (default ∅ fraud_investigation) "fraud_likelihood" (VStr "Unknown")
    else VStr "Unknown" in
  let confidence :=
    if present fraud_investigation
    then get (default ∅ fraud_investigation) "confidence" (VInt 0)
    else VInt 0 in
  parts <-
    (if is_str "APPROVE" decision then
       pct <- format_value ".0%" risk_score ;;
       let parts := list_append parts ("Approved: Risk score " +:+ pct) in
       parts <-
         (if is_str "Low" fraud_likelihood then
            conf <- format_value ".0%" confidence ;;
            Ok (list_append parts
                  ("fraud likelihood low (" +:+ conf +:+ " confidence)"))
          else Ok parts) ;;
       Ok (list_append parts "no indicators require blocking.")
     else if is_str "DECLINE" decision then
       pct <- format_value ".0%" risk_score ;;
       let parts := list_append parts ("Declined: Risk score " +:+ pct) in
       conf <- format_value ".0%" confidence ;;
       let parts :=
         list_append parts
           (py_str fraud_likelihood +:+ " fraud likelihood (" +:+ conf
            +:+ " confidence).") in
       if present fraud_investigation
          && truthy (get (default ∅ fraud_investigation) "fraud_indicators" VNone)
       then
         all <- index (default ∅ fraud_investigation) "fraud_indicators" ;;
         indicators <- slice2 all ;;
         joined <- join_value ", " indicators ;;
         Ok (list_append parts ("Key indicators: " +:+ joined +:+ "."))
       else Ok parts
     else (* REVIEW *)
       pct <- format_value ".0%" risk_score ;;
       let parts :=
         list_append parts ("Manual Review Required: Risk score " +:+ pct) in
       let parts :=
         list_append parts (py_str fraud_likelihood +:+ " fraud likelihood.") in
       Ok (list_append parts "Mixed signals require human judgment.")) ;;
  (* Add compliance note if relevant *)
  let parts :=
    if present compliance_check then
      let cc := default ∅ compliance_check in
      let parts :=
        if truthy (get cc "sar_required" VNone)
        then list_append parts "SAR filing initiated." else parts in
      if truthy (get cc "ctr_required" VNone)
      then list_append parts "CTR required (>$10K)." else parts
    else parts in
  Ok (join " " parts).

(** [FraudInvestigationOrchestrator._finalize_node]; it has no handler of
    its own, so what is raised here leaves the graph. *)
Definition _finalize_node (st : InvestigationState)
  : outcome (list assignment) :=
  let fraud_investigation := st_fraud_investigation st in
  let risk_analysis := st_risk_analysis st in
  let compliance_check := st_compliance_check st in
  decided <-
    (if present fraud_investigation then
       let final_decision :=
         get (default ∅ fraud_investigation) "recommendation" (VStr "REVIEW") in
       decision_reason <-
         _build_decision_reason final_decision risk_analysis
           fraud_investigation compliance_check ;;
       Ok (final_decision, decision_reason)
     else
       below <-
         (if present risk_analysis
          then le_0_4 (get (default ∅ risk_analysis) "risk_score" (VInt 0))
          else Ok false) ;;
       if below then
         let score := get (default ∅ risk_analysis) "risk_score" (VInt 0) in
         pct <- format_value ".0%" score ;;
         Ok (VStr "APPROVE",
             "Approved: Risk score " +:+ pct +:+ " below threshold. "
             +:+ "No suspicious patterns detected. Standard transaction.")
       else
         Ok (VStr "REVIEW",
             "Manual review required due to incomplete analysis.")) ;;
  let '(final_decision, decision_reason) := decided in
  let step_msg := "Final Decision: " +:+ py_str final_decision in
  Ok [set_final_decision final_decision;
      set_decision_reason decision_reason;
      set_status "completed";
      set_steps (list_append (st_steps st) step_msg)].

(** What [invoke] does at the one call each agent makes in a run. *)
Record Replies : Type := {
  risk_reply : outcome string;
  fraud_reply : outcome string;
  compliance_reply : outcome string
}.

(** The nodes of [_build_graph]. *)
Inductive node : Type :=
| N_analyze_risk
| N_investigate_fraud
| N_check_compliance
| N_finalize.

Definition run_node (replies : Replies) (n : node) (st : InvestigationState)
  : list event * outcome (list assignment) :=
  match n with
  | N_analyze_risk =>
      let '(evs, u) := _risk_analysis_node st (risk_reply replies) in
      (evs, Ok u)
  | N_investigate_fraud =>
      let '(evs, u) := _fraud_investigation_node st (fraud_reply replies) in
      (evs, Ok u)
  | N_check_compliance =>
      let '(evs, u) := _compliance_check_node st (compliance_reply replies) in
      (evs, Ok u)
  | N_finalize => ([], _finalize_node st)
  end.

(** The edges of [_build_graph]; [None] is [END]. *)
Definition next_node (n : node) (st : InvestigationState)
  : outcome (option node) :=
  match n with
  | N_analyze_risk =>
      route <- _should_investigate (st_risk_analysis st) ;;
      Ok (Some (if String.eqb route "investigate"
                then N_investigate_fraud else N_finalize))
  | N_investigate_fraud => Ok (Some N_check_compliance)
  | N_check_compliance => Ok (Some N_finalize)
  | N_finalize => Ok None
  end.

(** What running the graph leaves behind: the events emitted, the nodes
    run, each with the state it was given, and the final state (or the
    exception that left the graph). *)
Record Execution : Type := {
  emitted : list event;
  visited : list (node * InvestigationState);
  final : outcome InvestigationState
}.

(** Running the compiled graph from a node; [limit] is LangGraph's
    recursion limit, the number of steps it allows. *)
Fixpoint run_from (replies : Replies) (limit : nat) (n : node)
    (st : InvestigationState) : Execution :=
  match limit with
  | O =>
      {| emitted := []; visited := [];
         final := Raise (GraphRecursionError "Recursion limit reached") |}
  | S limit' =>
      let '(evs, r) := run_node replies n st in
      match r with
      | Raise e =>
          {| emitted := evs; visited := [(n, st)]; final := Raise e |}
      | Ok update =>
          let st' := merge st update in
          match next_node n st' with
          | Raise e =>
              {| emitted := evs; visited := [(n, st)]; final := Raise e |}
          | Ok None =>
              {| emitted := evs; visited := [(n, st)]; final := Ok st' |}
          | Ok (Some n') =>
              let rest := run_from replies limit' n' st' in
              {| emitted := (evs ++ emitted rest)%list;
                 visited := (n, st) :: visited rest;
                 final := final rest |}
          end
      end
  end.

Definition recursion_limit : nat := 25.

(** [self.graph.invoke(initial_state)] *)
Definition graph_invoke (replies : Replies) (st : InvestigationState)
  : Execution :=
  run_from replies recursion_limit N_analyze_risk st.

Definition initial_state (now : string) (tx : Transaction)
  : InvestigationState :=
  {| st_transaction := tx;
     st_transaction_id := transaction_id tx;
     st_timestamp := now;
     st_steps := [];
     st_risk_analysis := None;
     st_fraud_investigation := None;
     st_compliance_check := None;
     st_final_decision := VStr "";
     st_decision_reason := None;
     st_status := "pending";
     st_error := None |}.

Definition run_of_state (final_state : InvestigationState) : WorkflowRun :=
  {| run_transaction_id := st_transaction_id final_state;
     run_timestamp := st_timestamp final_state;
     steps := st_steps final_state;
     risk_analysis := st_risk_analysis final_state;
     fraud_investigation := st_fraud_investigation final_state;
     compliance_check := st_compliance_check final_state;
     final_decision := st_final_decision final_state;
     decision_reason := default "" (st_decision_reason final_state);
     status := st_status final_state |}.

(** What one call of [investigate_async] leaves behind: the events
    emitted, the nodes the graph ran, the run returned (or the exception
    raised), and the investigation log afterwards. *)
Record Investigation : Type := {
  events : list event;
  path : list (node * InvestigationState);
  returned : outcome WorkflowRun;
  investigation_log : list WorkflowRun
}.

(** [FraudInvestigationOrchestrator.investigate_async] ([investigate] runs
    it to completion).  [now] is [datetime.now().isoformat()], [log] the
    investigation log before the call. *)
Definition investigate_async (now : string) (log : list WorkflowRun)
    (tx : Transaction) (replies : Replies) : Investigation :=
  let start := investigation_start (transaction_id tx) in
  let ex := graph_invoke replies (initial_state now tx) in
  match final ex with
  | Ok final_state =>
      let result := run_of_state final_state in
      {| events := (start :: emitted ex ++ [investigation_complete result])%list;
         path := visited ex;
         returned := Ok result;
         investigation_log := list_append log result |}
  | Raise e =>
      {| events := start :: emitted ex;
         path := visited ex;
         returned := Raise e;
         investigation_log := log |}
  end.

End Agents.

(** ** compliance_agent.py: the report *)

Section SarReport.

Variable rt : PyRuntime.

(** [ComplianceAgent.generate_sar_report]; [reply] is what
    [self.invoke(prompt)] does.  The prompt is built with [json.dumps] of
    the transaction and of the investigation, which serializes every
    value of the model. *)
Definition generate_sar_report (tx : Transaction) (investigation : dict)
    (reply : outcome string) : outcome dict :=
  response <- reply ;;
  match _parse_json_response rt response with
  | VDict result =>
      let result := <["agent" := VStr compliance_officer_name]> result in
      let result := <["report_type" := VStr "SAR"]> result in
      let result :=
        <["transaction_id" := VStr (transaction_id tx)]> result in
      Ok result
  | _ =>
      (* result["agent"] = ... on a value that is not a dict *)
      Raise (TypeError "object does not support item assignment")
  end.

End SarReport.

(** ** api/websocket.py

    The connection manager that the WebSocket endpoint keeps beside the
    orchestrator.  Its methods are modelled as run one at a time, each to
    its end. *)

(** A [WebSocket] object; [in] and [remove] compare two of them by
    identity. *)
Definition WebSocket : Type := nat.

(** [ConnectionManager] *)
Record ConnectionManager : Type := {
  active_connections : list WebSocket;
  investigation_subscribers : gmap string (list WebSocket)
}.

(** [ConnectionManager.__init__] *)
Definition new_manager : ConnectionManager :=
  {| active_connections := []; investigation_subscribers := ∅ |}.

(** [websocket in l] *)
Definition ws_in (websocket : WebSocket) (l : list WebSocket) : bool :=
  existsb (Nat.eqb websocket) l.

(** [if websocket in l: l.remove(websocket)]; [remove] takes out the
    first occurrence. *)
Fixpoint remove_if_in (websocket : WebSocket) (l : list WebSocket)
  : list WebSocket :=
  match l with
  | [] => []
  | c :: l' =>
      if Nat.eqb websocket c then l' else c :: remove_if_in websocket l'
  end.

(** [ConnectionManager.connect]; [accept] is what
    [await websocket.accept()] does. *)
Definition connect (m : ConnectionManager) (websocket : WebSocket)
    (accept : outcome unit) : outcome ConnectionManager :=
  _ <- accept ;;
  Ok {| active_connections := list_append (active_connections m) websocket;
        investigation_subscribers := investigation_subscribers m |}.

(** [ConnectionManager.disconnect] *)
Definition disconnect (m : ConnectionManager) (websocket : WebSocket)
  : ConnectionManager :=
  {| active_connections := remove_if_in websocket (active_connections m);
     investigation_subscribers :=
       remove_if_in websocket <$> investigation_subscribers m |}.

(** [ConnectionManager.subscribe_investigation] *)
Definition subscribe_investigation (m : ConnectionManager)
    (websocket : WebSocket) (transaction_id : string) : ConnectionManager :=
  let subscribers := investigation_subscribers m in
  let subscribers :=
    match subscribers !! transaction_id with
    | None => <[transaction_id := []]> subscribers
    | Some _ => subscribers
    end in
  let current := default [] (subscribers !! transaction_id) in
  let subscribers :=
    if ws_in websocket current then subscribers
    else <[transaction_id := list_append current websocket]> subscribers in
  {| active_connections := active_connections m;
     investigation_subscribers := subscribers |}.

(** Whether [await connection.send_json(message)] raises. *)
Definition send_raises (send_json : WebSocket -> outcome unit)
    (connection : WebSocket) : bool :=
  match send_json connection with
  | Ok _ => false
  | Raise _ => true
  end.

(** The loop that sends to [connections] and collects the ones whose
    send raised, then disconnects them: the connections that received the
    message, and the manager afterwards. *)
Definition send_and_clean_up (m : ConnectionManager)
    (connections : list WebSocket) (send_json : WebSocket -> outcome unit)
  : list WebSocket * ConnectionManager :=
  let disconnected := List.filter (send_raises send_json) connections in
  (List.filter (fun c => negb (send_raises send_json c)) connections,
   foldl disconnect m disconnected).

(** [ConnectionManager.broadcast] *)
Definition broadcast (m : ConnectionManager)
    (send_json : WebSocket -> outcome unit)
  : list WebSocket * ConnectionManager :=
  send_and_clean_up m (active_connections m) send_json.

(** [ConnectionManager.send_to_investigation_subscribers] *)
Definition send_to_investigation_subscribers (m : ConnectionManager)
    (transaction_id : string) (send_json : WebSocket -> outcome unit)
  : list WebSocket * ConnectionManager :=
  send_and_clean_up m
    (default [] (investigation_subscribers m !! transaction_id)) send_json.

(** ** A runtime to compute with

    [sample_runtime] is used where a statement is evaluated on concrete
    inputs.  Its formatter renders a binary64 in fixed-point notation
    from its exact value, rounding half to even, as Python does; its
    decoder knows the JSON texts listed in [json_loads_sample], on which
    it returns what [json.loads] returns, and rejects every other text
    (the other texts used below are not JSON). *)

Definition round_half_even (num den : Z) : Z :=
  let q := (num / den)%Z in
  let r := (num mod den)%Z in
  if (2 * r <? den)%Z then q
  else if (den <? 2 * r)%Z then (q + 1)%Z
  else if Z.even q then q else (q + 1)%Z.

(** [|f| * 10^p], rounded to an integer, with the sign of [f]. *)
Definition scaled (p : nat) (f : float) : option (bool * Z) :=
  match Prim2SF f with
  | S754_zero s => Some (s, 0%Z)
  | S754_finite s m e =>
      let tenp := (10 ^ Z.of_nat p)%Z in
      Some (s,
            if (0 <=? e)%Z then (Z.pos m * 2 ^ e * tenp)%Z
            else round_half_even (Z.pos m * tenp) (2 ^ (- e)))
  | S754_infinity _ | S754_nan => None
  end.

Definition zero_pad (width : nat) (s : string) : string :=
  String.concat "" (replicate (width - String.length s) "0") +:+ s.

(** Commas between groups of three digits, counted from the right; the
    digits are given last first. *)
Fixpoint group3 (rev_digits : list ascii) (acc : string) (n : nat) : string :=
  match rev_digits with
  | [] => acc
  | c :: rest =>
      if (n =? 3)%nat
      then group3 rest (String c ("," +:+ acc)) 1
      else group3 rest (String c acc) (S n)
  end.

Definition with_commas (s : string) : string :=
  group3 (rev (list_ascii_of_string s)) "" 0.

Definition fixed (commas : bool) (p : nat) (f : float) : string :=
  match scaled p f with
  | Some (s, n) =>
      let tenp := (10 ^ Z.of_nat p)%Z in
      let whole := pretty (n / tenp)%Z in
      (if s then "-" else "")
      +:+ (if commas then with_commas whole else whole)
      +:+ (match p with
           | O => ""
           | _ => "." +:+ zero_pad p (pretty (n mod tenp)%Z)
           end)
  | None =>
      match Prim2SF f with
      | S754_infinity true => "-inf"
      | S754_infinity false => "inf"
      | _ => "nan"
      end
  end.

Definition format_float_sample (spec : string) (f : float) : string :=
  if String.eqb spec ".0%" then fixed false 0 (f * 100)%float +:+ "%"
  else if String.eqb spec ".2f" then fixed false 2 f
  else if String.eqb spec ",.2f" then fixed true 2 f
  else if String.eqb spec ".3f" then fixed false 3 f
  else "".

Definition float_of_int_sample (z : Z) : outcome float :=
  let f := SF2Prim (binary_normalize prec emax z 0 false) in
  if is_infinity f
  then Raise (OverflowError "int too large to convert to float")
  else Ok f.

(** A JSON string literal: [s] between double quotes. *)
Definition quoted (s : string) : string :=
  String (ascii_of_nat 34) (s +:+ String (ascii_of_nat 34) EmptyString).

(** The JSON text of an object with the given members, written as
    [json.dumps] writes it. *)
Definition json_object (members : list (string * string)) : string :=
  "{" +:+ join ", " ((fun m => quoted (fst m) +:+ ": " +:+ snd m) <$> members)
  +:+ "}".

(** [{"recommendation": "BLOCK"}] *)
Definition json_block : string :=
  json_object [("recommendation", quoted "BLOCK")].

(** [{"ctr_required": true, "sar_required": true}] *)
Definition json_flags : string :=
  json_object [("ctr_required", "true"); ("sar_required", "true")].

(** [{"recommendation": "DECLINE", "confidence": "high"}] *)
Definition json_decline : string :=
  json_object [("recommendation", quoted "DECLINE");
               ("confidence", quoted "high")].

(*JSONTEXTS*)

Definition json_loads_sample (s : string) : decoded :=
  if String.eqb s "{}" then Decoded (VDict ∅)
  else if String.eqb s "[]" then Decoded (VList [])
  else if String.eqb s json_block
  then Decoded (VDict (<["recommendation" := VStr "BLOCK"]> ∅))
  else if String.eqb s json_flags
  then Decoded (VDict (<["ctr_required" := VBool true]>
                       (<["sar_required" := VBool true]> ∅)))
  else if String.eqb s json_decline
  then Decoded (VDict (<["recommendation" := VStr "DECLINE"]>
                       (<["confidence" := VStr "high"]> ∅)))
  else JSONDecodeError "Expecting value: line 1 column 1 (char 0)".

Definition sample_runtime : PyRuntime :=
  {| json_loads := json_loads_sample;
     format_float := format_float_sample;
     float_of_int := float_of_int_sample;
     py_repr := fun _ => "" |}.

(** ** Sample inputs *)

(** Scenario A of the specification: a micro-transaction at night from an
    unknown location to a crypto merchant. *)
Definition tx_a : Transaction :=
  {| transaction_id := "TX-A"; timestamp := "2026-01-11T02:00:00Z";
     from_account := "ACC-300"; to_account := "ACC-400";
     amount := 0.5; merchant_category := "Crypto"; device_id := "DEV-002";
     location := "Unknown"; hour := 2; velocity := Some 1%Z |}.

(** Scenario B: an everyday purchase. *)
Definition tx_b : Transaction :=
  {| transaction_id := "TX-B"; timestamp := "2026-01-11T14:00:00Z";
     from_account := "ACC-100"; to_account := "ACC-200";
     amount := 50; merchant_category := "Groceries"; device_id := "DEV-001";
     location := "Home"; hour := 14; velocity := Some 1%Z |}.

(** Scenario C: an amount above both statutory thresholds. *)
Definition tx_c : Transaction :=
  {| transaction_id := "TX-C"; timestamp := "2026-01-11T14:00:00Z";
     from_account := "ACC-100"; to_account := "ACC-200";
     amount := 12000; merchant_category := "Groceries";
     device_id := "DEV-001"; location := "Home"; hour := 14;
     velocity := Some 1%Z |}.

(** A large amount at an unusual hour and nothing else: 0.2 + 0.2. *)
Definition tx_e : Transaction :=
  {| transaction_id := "TX-E"; timestamp := "2026-01-11T02:00:00Z";
     from_account := "ACC-100"; to_account := "ACC-200";
     amount := 6000; merchant_category := "Groceries"; device_id := "DEV-001";
     location := "Home"; hour := 2; velocity := None |}.

(** The capability answers every call with the same text. *)
Definition all_reply (s : string) : Replies :=
  {| risk_reply := Ok s; fraud_reply := Ok s; compliance_reply := Ok s |}.

(** The capability raises on every call. *)
Definition all_raise : Replies :=
  {| risk_reply := Raise (CapabilityError "Read timeout");
     fraud_reply := Raise (CapabilityError "Read timeout");
     compliance_reply := Raise (CapabilityError "Read timeout") |}.

(** The value of a call that returned, [dflt] if it raised. *)
Definition value_of {A : Type} (dflt : A) (o : outcome A) : A :=
  match o with
  | Ok a => a
  | Raise _ => dflt
  end.

(** The fallback finding as the specification documents it, with [text]
    as its explanation. *)
Definition documented_fallback (text : string) (fi : dict) : Prop :=
  fi !! "fraud_likelihood" = Some (VStr "Unknown")
  /\ fi !! "recommendation" = Some (VStr "REVIEW")
  /\ fi !! "explanation" = Some (VStr text)
  /\ fi !! "confidence" = Some (VFloat 0.5)
  /\ fi !! "fraud_indicators" = Some (VList [])
  /\ fi !! "suggested_actions" = Some (VList []).

(** The capability answers the assessor and the reviewer with an empty
    JSON object and raises at the investigator's call. *)
Definition investigator_down : Replies :=
  {| risk_reply := Ok "{}";
     fraud_reply := Raise (CapabilityError "Read timeout");
     compliance_reply := Ok "{}" |}.

(** The decisions the specification allows. *)
Definition valid_decision (v : value) : Prop :=
  v = VStr "APPROVE" \/ v = VStr "DECLINE" \/ v = VStr "REVIEW".

(** The capability answers the investigator with
    [{"recommendation": "BLOCK"}]. *)
Definition investigator_says_block : Replies :=
  {| risk_reply := Ok "{}";
     fraud_reply := Ok json_block;
     compliance_reply := Ok "{}" |}.

(** The capability answers the investigator with
    [{"recommendation": "DECLINE", "confidence": "high"}]. *)
Definition investigator_says_decline : Replies :=
  {| risk_reply := Ok "{}";
     fraud_reply := Ok json_decline;
     compliance_reply := Ok "{}" |}.

(** A run with nothing in it, the value of a workflow that raised. *)
Definition no_run : WorkflowRun :=
  {| run_transaction_id := ""; run_timestamp := ""; steps := [];
     risk_analysis := None; fraud_investigation := None;
     compliance_check := None; final_decision := VNone;
     decision_reason := ""; status := "" |}.

(** A finding with a High fraud likelihood, as in scenario C. *)
Definition finding_high : dict := <["fraud_likelihood" := VStr "High"]> ∅.

(** The events of one stage: none when the stage is not run; else the
    agent's [agent_thinking], followed by its [agent_result] unless the
    agent failed. *)
Definition stage_events (agent : string) (evs : list event) : Prop :=
  evs = []
  \/ exists message,
       evs = [agent_thinking agent message]
       \/ exists result,
            evs = [agent_thinking agent message; agent_result agent result].

(** The step-log entries of one stage: none, or one that starts with the
    agent's name. *)
Definition stage_steps (agent : string) (entries : list string) : Prop :=
  entries = []
  \/ exists entry,
       entries = [entry] /\ String.prefix (agent +:+ ": ") entry = true.

Definition is_complete (e : event) : bool :=
  match e with
  | investigation_complete _ => true
  | _ => false
  end.

(** A large amount at an unusual hour from an unknown location:
    0.2 + 0.2 + 0.25, above both statutory thresholds. *)
Definition tx_f : Transaction :=
  {| transaction_id := "TX-F"; timestamp := "2026-01-11T02:00:00Z";
     from_account := "ACC-100"; to_account := "ACC-200";
     amount := 12000; merchant_category := "Groceries";
     device_id := "DEV-001"; location := "Unknown"; hour := 2;
     velocity := None |}.

(** The capability answers the assessor and the investigator with an
    empty JSON object and raises at the reviewer's call. *)
Definition reviewer_down : Replies :=
  {| risk_reply := Ok "{}";
     fraud_reply := Ok "{}";
     compliance_reply := Raise (CapabilityError "Read timeout") |}.

(** [{"regulatory_actions": null}] *)
Definition json_null_actions : string :=
  json_object [("regulatory_actions", "null")].

(** [{"fraud_likelihood": "High"}] *)
Definition json_high_likelihood : string :=
  json_object [("fraud_likelihood", quoted "High")].

(** A decoder that also knows these two texts, and the runtime with
    it. *)
Definition json_loads_review (s : string) : decoded :=
  if String.eqb s json_null_actions
  then Decoded (VDict (<["regulatory_actions" := VNone]> ∅))
  else if String.eqb s json_high_likelihood
  then Decoded (VDict (<["fraud_likelihood" := VStr "High"]> ∅))
  else json_loads_sample s.

Definition review_runtime : PyRuntime :=
  {| json_loads := json_loads_review;
     format_float := format_float_sample;
     float_of_int := float_of_int_sample;
     py_repr := fun _ => "" |}.

(** The capability answers the investigator with a High likelihood and
    the reviewer with a null list of regulatory actions. *)
Definition reviewer_hears_null_actions : Replies :=
  {| risk_reply := Ok "{}";
     fraud_reply := Ok json_high_likelihood;
     compliance_reply := Ok json_null_actions |}.

(*SAMPLES*)

(** * Properties *)

(** ** Dictionaries *)

Lemma setdefault_lookup (k : string) (v : value) (d : dict) :
  setdefault k v d !! k = Some (default v (d !! k)).
Proof.
  unfold setdefault. destruct (d !! k) eqn:E; simpl.
  - exact E.
  - apply lookup_insert_eq.
Qed.

Lemma setdefault_lookup_ne (k k' : string) (v : value) (d : dict) :
  k <> k' -> setdefault k v d !! k' = d !! k'.
Proof.
  intros Hne. unfold setdefault. destruct (d !! k); [reflexivity|].
  apply lookup_insert_ne. exact Hne.
Qed.

Lemma truthy_dict (d : dict) (k : string) (v : value) :
  d !! k = Some v -> truthy (VDict d) = true.
Proof.
  intros H. simpl. destruct (map_to_list d) eqn:E; [|reflexivity].
  apply map_to_list_empty_iff in E. subst d.
  rewrite lookup_empty in H. discriminate.
Qed.

Lemma present_some (d : dict) (k : string) (v : value) :
  d !! k = Some v -> present (Some d) = true.
Proof. apply truthy_dict. Qed.

Lemma get_some (d : dict) (k : string) (v dflt : value) :
  d !! k = Some v -> get d k dflt = v.
Proof. intros H. unfold get. rewrite H. reflexivity. Qed.

Lemma get_none (d : dict) (k : string) (dflt : value) :
  d !! k = None -> get d k dflt = dflt.
Proof. intros H. unfold get. rewrite H. reflexivity. Qed.

Lemma index_some (d : dict) (k : string) (v : value) :
  d !! k = Some v -> index d k = Ok v.
Proof. intros H. unfold index. rewrite H. reflexivity. Qed.

(** Lookups through [insert] and [setdefault] at literal keys. *)
Ltac dict_lookup :=
  repeat first
    [ rewrite lookup_insert_eq
    | rewrite lookup_insert_ne by discriminate
    | rewrite setdefault_lookup
    | rewrite setdefault_lookup_ne by discriminate
    | rewrite lookup_empty ].

Ltac dict_lookup_in H :=
  repeat first
    [ rewrite lookup_insert_eq in H
    | rewrite lookup_insert_ne in H by discriminate
    | rewrite setdefault_lookup in H
    | rewrite setdefault_lookup_ne in H by discriminate
    | rewrite lookup_empty in H ].

(** ** Splitting at a code fence *)

Lemma append_cons (c : ascii) (s t : string) :
  String c s +:+ t = String c (s +:+ t).
Proof. reflexivity. Qed.

Lemma append_empty_r (s : string) : s +:+ EmptyString = s.
Proof.
  induction s as [|c s IH]; [reflexivity|].
  rewrite append_cons, IH. reflexivity.
Qed.

Lemma append_assoc (s t u : string) : (s +:+ t) +:+ u = s +:+ (t +:+ u).
Proof.
  induction s as [|c s IH]; [reflexivity|].
  rewrite !append_cons, IH. reflexivity.
Qed.

Lemma prefix_cons (a b : ascii) (s1 s2 : string) :
  String.prefix (String a s1) (String b s2)
  = if ascii_dec a b then String.prefix s1 s2 else false.
Proof. reflexivity. Qed.

Lemma prefix_other_head (sep' s : string) (c : ascii) :
  Ascii.eqb c "`" = false ->
  String.prefix (String "`" sep') (String c s) = false.
Proof.
  intros Hc. rewrite prefix_cons.
  destruct (ascii_dec "`" c) as [E|E]; [|reflexivity].
  subst c. discriminate Hc.
Qed.

Lemma prefix_append (t s : string) : String.prefix t (t +:+ s) = true.
Proof.
  induction t as [|a t IH].
  - destruct s; reflexivity.
  - change (String a t +:+ s) with (String a (t +:+ s)).
    rewrite prefix_cons. destruct (ascii_dec a a); [exact IH|congruence].
Qed.

Lemma split_from_nonempty (sep : string) (k : nat) (s : string) :
  exists p ps, split_from sep k s = p :: ps.
Proof.
  revert k. induction s as [|c s IH]; intros k; cbn [split_from].
  - eauto.
  - destruct k as [|k]; [|apply IH].
    destruct (String.prefix sep (String c s)); [eauto|].
    destruct (IH 0) as (p & ps & ->). eauto.
Qed.

Lemma split_from_skip (sep t s : string) :
  split_from sep (String.length t) (t +:+ s) = split_from sep 0 s.
Proof. induction t as [|a t IH]; simpl; [reflexivity|exact IH]. Qed.

Lemma split_from_sep (sep' s : string) :
  split_from (String "`" sep') 0 (String "`" sep' +:+ s)
  = EmptyString :: split_from (String "`" sep') 0 s.
Proof.
  rewrite append_cons. cbn [split_from]. rewrite <- append_cons.
  rewrite prefix_append.
  replace (String.length (String "`" sep') - 1) with (String.length sep')
    by (simpl; lia).
  rewrite split_from_skip. reflexivity.
Qed.

Lemma split_from_free (sep' pre s p : string) (ps : list string) :
  backtick_free pre = true ->
  split_from (String "`" sep') 0 s = p :: ps ->
  split_from (String "`" sep') 0 (pre +:+ s) = (pre +:+ p) :: ps.
Proof.
  intros Hfree Hs. induction pre as [|c pre IH].
  - exact Hs.
  - cbn [backtick_free] in Hfree.
    apply andb_prop in Hfree as [Hc Hfree].
    apply negb_true_iff in Hc.
    rewrite append_cons. cbn [split_from].
    rewrite (prefix_other_head sep' (pre +:+ s) c Hc).
    rewrite (IH Hfree). reflexivity.
Qed.

Lemma split_free_only (sep' s : string) :
  backtick_free s = true ->
  split (String "`" sep') s = [s].
Proof.
  intros Hfree. unfold split.
  pose proof (split_from_free sep' s EmptyString EmptyString [] Hfree eq_refl)
    as H.
  rewrite append_empty_r in H. exact H.
Qed.

Lemma contains_unfold (sub s : string) :
  contains sub s
  = String.prefix sub s
    || match s with
       | EmptyString => false
       | String _ s' => contains sub s'
       end.
Proof. destruct s; reflexivity. Qed.

Lemma contains_append (sep pre s : string) :
  contains sep (pre +:+ sep +:+ s) = true.
Proof.
  induction pre as [|c pre IH].
  - change (EmptyString +:+ sep +:+ s) with (sep +:+ s).
    rewrite contains_unfold, prefix_append. reflexivity.
  - rewrite append_cons, contains_unfold, IH. apply orb_true_r.
Qed.

(** The pieces of a text with one fence opened by [sep]. *)
Lemma split_at_fence (sep' pre s : string) :
  backtick_free pre = true ->
  split (String "`" sep') (pre +:+ String "`" sep' +:+ s)
  = pre :: split (String "`" sep') s.
Proof.
  intros Hpre. unfold split.
  rewrite (split_from_free sep' pre (String "`" sep' +:+ s) EmptyString
             (split_from (String "`" sep') 0 s) Hpre (split_from_sep sep' s)).
  rewrite append_empty_r. reflexivity.
Qed.

Lemma prefix_fence_json_2 (post : string) :
  backtick_free post = true ->
  String.prefix fence_json (String "`" (String "`" post)) = false.
Proof.
  intros Hpost. unfold fence_json. rewrite !prefix_cons.
  destruct (ascii_dec "`" "`"); [|reflexivity].
  destruct post as [|c post]; [reflexivity|].
  cbn [backtick_free] in Hpost. apply andb_prop in Hpost as [Hc _].
  apply negb_true_iff in Hc. rewrite prefix_cons.
  destruct (ascii_dec "`" c) as [E|E]; [|reflexivity].
  subst c. discriminate Hc.
Qed.

Lemma prefix_fence_json_1 (post : string) :
  backtick_free post = true ->
  String.prefix fence_json (String "`" post) = false.
Proof.
  intros Hpost. unfold fence_json. rewrite prefix_cons.
  destruct (ascii_dec "`" "`"); [|reflexivity].
  destruct post as [|c post]; [reflexivity|].
  cbn [backtick_free] in Hpost. apply andb_prop in Hpost as [Hc _].
  apply negb_true_iff in Hc. rewrite prefix_cons.
  destruct (ascii_dec "`" c) as [E|E]; [|reflexivity].
  subst c. discriminate Hc.
Qed.

(** After the body of a [```json] fence: either the closing fence is
    itself followed by [json], or no further [```json] occurs. *)
Lemma split_fence_json_tail (post : string) :
  backtick_free post = true ->
  (exists hs, split fence_json (fence +:+ post) = EmptyString :: hs)
  \/ split fence_json (fence +:+ post) = [fence +:+ post].
Proof.
  intros Hpost. unfold split.
  change (fence +:+ post) with (String "`" (String "`" (String "`" post))).
  cbn [split_from].
  destruct (String.prefix fence_json
              (String "`" (String "`" (String "`" post)))).
  - left. eauto.
  - right. rewrite (prefix_fence_json_2 post Hpost).
    rewrite (prefix_fence_json_1 post Hpost).
    pose proof (split_free_only "``json" post Hpost) as H.
    unfold split in H. fold fence_json in H. rewrite H. reflexivity.
Qed.

Lemma json_candidate_fence_json (pre body post : string) :
  backtick_free pre = true ->
  backtick_free body = true ->
  backtick_free post = true ->
  json_candidate (pre +:+ fence_json +:+ body +:+ fence +:+ post)
  = strip body.
Proof.
  intros Hpre Hbody Hpost. unfold json_candidate.
  rewrite contains_append.
  unfold fence_json at 1 2.
  rewrite (split_at_fence "``json" pre _ Hpre). fold fence_json.
  cbn [piece nth].
  destruct (split_from_nonempty fence_json 0 (fence +:+ post))
    as (h & hs & Hh).
  pose proof (split_from_free "``json" body (fence +:+ post) h hs
                Hbody Hh) as Hsplit.
  fold fence_json in Hsplit.
  unfold split at 2. rewrite Hsplit.
  destruct (split_fence_json_tail post Hpost) as [(hs' & Ht)|Ht];
    unfold split in Ht; rewrite Ht in Hh; injection Hh as <- <-.
  - rewrite append_empty_r. cbn [nth].
    unfold fence. rewrite (split_free_only "``" body Hbody). reflexivity.
  - cbn [nth]. unfold fence.
    rewrite (split_at_fence "``" body post Hbody). reflexivity.
Qed.

Lemma json_candidate_fence (pre body post : string) :
  backtick_free pre = true ->
  backtick_free body = true ->
  contains fence_json (pre +:+ fence +:+ body +:+ fence +:+ post) = false ->
  json_candidate (pre +:+ fence +:+ body +:+ fence +:+ post) = strip body.
Proof.
  intros Hpre Hbody Hno. unfold json_candidate.
  rewrite Hno, contains_append.
  unfold fence.
  rewrite (split_at_fence "``" pre _ Hpre).
  rewrite (split_at_fence "``" body post Hbody).
  cbn [piece nth].
  rewrite (split_free_only "``" body Hbody). reflexivity.
Qed.

(** ** The response parser *)

Section AgentFacts.

Variable rt : PyRuntime.

Lemma parse_bare (response : string) (v : value) :
  json_loads rt response = Decoded v ->
  _parse_json_response rt response = v.
Proof. intros H. unfold _parse_json_response. rewrite H. reflexivity. Qed.

Lemma parse_candidate (response e : string) (v : value) :
  json_loads rt response = JSONDecodeError e ->
  json_loads rt (json_candidate response) = Decoded v ->
  _parse_json_response rt response = v.
Proof.
  intros H1 H2. unfold _parse_json_response. rewrite H1, H2. reflexivity.
Qed.

Lemma parse_degraded (response e1 e2 : string) :
  json_loads rt response = JSONDecodeError e1 ->
  json_loads rt (json_candidate response) = JSONDecodeError e2 ->
  _parse_json_response rt response = VDict (degraded response e2).
Proof.
  intros H1 H2. unfold _parse_json_response. rewrite H1, H2. reflexivity.
Qed.

(** ** The risk analyst *)

Lemma analyze_risk_inv (tx : Transaction) (reply : outcome string) (ra : dict) :
  analyze_risk rt tx None reply = Ok ra ->
  exists response d,
    reply = Ok response /\
    _parse_json_response rt response = VDict d /\
    ra !! "risk_score" = Some (VFloat (heuristic_score rt tx)) /\
    ra !! "risk_level"
    = Some (get d "risk_level" (VStr (_score_to_level (heuristic_score rt tx)))) /\
    ra !! "patterns"
    = Some (VList (VStr <$> _identify_patterns tx (heuristic_score rt tx))) /\
    ra !! "explanation"
    = Some (VStr (_generate_explanation rt (heuristic_score rt tx)
                    (heuristic_breakdown rt tx)
                    (_identify_patterns tx (heuristic_score rt tx)))) /\
    ra !! "agent" = Some (VStr risk_analyst_name).
Proof.
  unfold analyze_risk, heuristic_score, heuristic_breakdown.
  destruct (_calculate_heuristic_risk rt tx) as [s b]. cbn [fst snd].
  destruct reply as [response|e]; [|discriminate]. cbn [bind].
  destruct (_parse_json_response rt response) as [| | | | | |d] eqn:Hp;
    try discriminate.
  intros [= <-]. exists response, d.
  repeat split; dict_lookup; first [exact Hp | reflexivity].
Qed.

(** ** The nodes *)

Lemma should_investigate_heuristic (ra : dict) (tx : Transaction) :
  ra !! "risk_score" = Some (VFloat (heuristic_score rt tx)) ->
  _should_investigate (Some ra)
  = Ok (if escalates rt tx then "investigate" else "approve").
Proof.
  intros H. unfold _should_investigate.
  rewrite (truthy_dict ra _ _ H), (get_some ra _ _ _ H). reflexivity.
Qed.

Lemma should_investigate_scored (ra : dict) (s : float) :
  ra !! "risk_score" = Some (VFloat s) ->
  _should_investigate (Some ra)
  = Ok (if (0.4 <? s)%float then "investigate" else "approve").
Proof.
  intros H. unfold _should_investigate.
  rewrite (truthy_dict ra _ _ H). unfold get. rewrite H. reflexivity.
Qed.

Lemma route_is_approve (b : bool) :
  String.eqb (if b then "investigate" else "approve") "approve" = negb b.
Proof. destruct b; reflexivity. Qed.

Lemma route_is_investigate (b : bool) :
  String.eqb (if b then "investigate" else "approve") "investigate" = b.
Proof. destruct b; reflexivity. Qed.

Lemma risk_analysis_try_ok (st : InvestigationState) (reply : outcome string)
    (ra : dict) :
  analyze_risk rt (st_transaction st) None reply = Ok ra ->
  exists reason msg,
    risk_analysis_try rt st reply
    = Ok (<["escalated" := VBool (escalates rt (st_transaction st))]>
            (<["routing_reason" := VStr reason]> ra), msg)
    /\ String.prefix "Risk Analyst: " msg = true.
Proof.
  intros Hra. destruct (analyze_risk_inv _ _ _ Hra)
    as (response & d & _ & _ & Hs & Hl & _).
  unfold risk_analysis_try. rewrite Hra. cbn [bind].
  rewrite (should_investigate_scored ra _ Hs). cbn [bind].
  unfold _get_routing_reason.
  rewrite (get_some ra _ _ _ Hs), (get_some ra _ _ _ Hl).
  rewrite route_is_approve, route_is_investigate.
  cbn [format_value bind]. fold (escalates rt (st_transaction st)).
  assert (Hidx : forall reason,
             index (<["escalated" := VBool (escalates rt (st_transaction st))]>
                      (<["routing_reason" := VStr reason]> ra)) "risk_level"
             = Ok (get d "risk_level"
                     (VStr (_score_to_level
                              (heuristic_score rt (st_transaction st)))))
             /\ index (<["escalated" := VBool (escalates rt (st_transaction st))]>
                         (<["routing_reason" := VStr reason]> ra)) "risk_score"
                = Ok (VFloat (heuristic_score rt (st_transaction st)))).
  { intros reason. split; apply index_some; dict_lookup; assumption. }
  destruct (negb (escalates rt (st_transaction st))); cbn [bind];
    match goal with
    | |- context [index (<[_ := _]> (<[_ := VStr ?r]> ra)) _] =>
        destruct (Hidx r) as [-> ->]
    end;
    cbn [bind format_value];
    eexists _, _; (split; [reflexivity|apply prefix_append]).
Qed.

Lemma risk_analysis_try_raise (st : InvestigationState)
    (reply : outcome string) (e : exn) :
  analyze_risk rt (st_transaction st) None reply = Raise e ->
  risk_analysis_try rt st reply = Raise e.
Proof. intros H. unfold risk_analysis_try. rewrite H. reflexivity. Qed.

Lemma risk_analysis_node_ok (st : InvestigationState) (reply : outcome string)
    (ra : dict) :
  analyze_risk rt (st_transaction st) None reply = Ok ra ->
  exists reason msg,
    let ra' := <["escalated" := VBool (escalates rt (st_transaction st))]>
                 (<["routing_reason" := VStr reason]> ra) in
    _risk_analysis_node rt st reply
    = ([agent_thinking "Risk Analyst" "Analyzing transaction risk...";
        agent_result "Risk Analyst" ra'],
       [set_risk_analysis ra'; set_steps (list_append (st_steps st) msg)])
    /\ String.prefix "Risk Analyst: " msg = true.
Proof.
  intros Hra. destruct (risk_analysis_try_ok st reply ra Hra)
    as (reason & msg & Htry & Hmsg).
  exists reason, msg. cbv zeta. unfold _risk_analysis_node.
  rewrite Htry. split; [reflexivity|exact Hmsg].
Qed.

Lemma risk_analysis_node_raise (st : InvestigationState)
    (reply : outcome string) (e : exn) :
  analyze_risk rt (st_transaction st) None reply = Raise e ->
  _risk_analysis_node rt st reply
  = ([agent_thinking "Risk Analyst" "Analyzing transaction risk..."],
     [set_error (str_exn e); set_status "error"]).
Proof.
  intros H. unfold _risk_analysis_node.
  rewrite (risk_analysis_try_raise st reply e H). reflexivity.
Qed.

(** ** Runs of the graph *)

(** Evaluation of the graph's bookkeeping, leaving dictionaries, nodes
    and the remaining run folded. *)
Ltac graph_eval :=
  cbn [merge foldl assign initial_state next_node bind fst snd
       st_transaction st_transaction_id st_timestamp st_steps
       st_risk_analysis st_fraud_investigation st_compliance_check
       st_final_decision st_decision_reason st_status st_error
       emitted visited final events path returned investigation_log
       run_of_state list_append app map default from_option id
       String.eqb Ascii.eqb Bool.eqb].

Lemma run_from_S (replies : Replies) (limit : nat) (n : node)
    (st : InvestigationState) :
  run_from rt replies (S limit) n st
  = let '(evs, r) := run_node rt replies n st in
    match r with
    | Raise e => {| emitted := evs; visited := [(n, st)]; final := Raise e |}
    | Ok update =>
        let st' := merge st update in
        match next_node n st' with
        | Raise e =>
            {| emitted := evs; visited := [(n, st)]; final := Raise e |}
        | Ok None =>
            {| emitted := evs; visited := [(n, st)]; final := Ok st' |}
        | Ok (Some n') =>
            let rest := run_from rt replies limit n' st' in
            {| emitted := (evs ++ emitted rest)%list;
               visited := (n, st) :: visited rest;
               final := final rest |}
        end
    end.
Proof. reflexivity. Qed.

(** On the scores the heuristic can produce, [<= 0.4] is the negation of
    [> 0.4]. *)
Lemma heuristic_score_le_iff (tx : Transaction) :
  (heuristic_score rt tx <=? 0.4)%float = negb (escalates rt tx).
Proof.
  unfold escalates, heuristic_score, _calculate_heuristic_risk.
  destruct (amount tx <? 1.0)%float; [|destruct (5000 <? amount tx)%float];
    destruct (int_in (hour tx) unusual_hours);
    destruct (str_in (location tx) suspicious_locations);
    destruct (str_in (merchant_category tx) high_risk_merchants);
    destruct (5 <? default 1%Z (velocity tx))%Z;
    reflexivity.
Qed.

Ltac prefix_through mid :=
  match goal with
  | |- String.prefix ?a (_ +:+ ?x) = true =>
      change (String.prefix a (a +:+ mid +:+ x) = true);
      apply prefix_append
  end.

Lemma fraud_node_shape (st : InvestigationState) (reply : outcome string) :
  exists fi msg evs v,
    _fraud_investigation_node rt st reply
    = (agent_thinking "Fraud Investigator"
         "Investigating suspicious activity..." :: evs,
       [set_fraud_investigation fi;
        set_steps (list_append (st_steps st) msg)])
    /\ (evs = [] \/ evs = [agent_result "Fraud Investigator" fi])
    /\ String.prefix "Fraud Investigator: " msg = true
    /\ fi !! "recommendation" = Some v.
Proof.
  unfold _fraud_investigation_node.
  destruct (fraud_investigation_try rt st reply) as [[fi msg]|e] eqn:Htry.
  - unfold fraud_investigation_try in Htry.
    destruct (investigate_transaction rt _ _ _ reply) as [fi'|e];
      [|discriminate]. cbn [bind] in Htry.
    unfold index in Htry.
    destruct (fi' !! "recommendation") as [v|] eqn:Hrec; [|discriminate].
    cbn [bind] in Htry.
    destruct (fi' !! "fraud_likelihood") as [l|]; [|discriminate].
    cbn [bind] in Htry. injection Htry as <- <-.
    exists fi'. eexists _, _, v. split; [reflexivity|].
    split; [right; reflexivity|]. split; [apply prefix_append|exact Hrec].
  - eexists _, _, _, _. split; [reflexivity|].
    split; [left; reflexivity|]. split; [prefix_through "Error - "|].
    dict_lookup. reflexivity.
Qed.

Lemma compliance_node_shape (st : InvestigationState)
    (reply : outcome string) :
  exists cc msg evs v,
    _compliance_check_node rt st reply
    = (agent_thinking "Compliance Officer"
         "Checking regulatory requirements..." :: evs,
       [set_compliance_check cc;
        set_steps (list_append (st_steps st) msg)])
    /\ (evs = [] \/ evs = [agent_result "Compliance Officer" cc])
    /\ String.prefix "Compliance Officer: " msg = true
    /\ cc !! "sar_required" = Some v.
Proof.
  unfold _compliance_check_node.
  destruct (compliance_check_try rt st reply) as [[cc msg]|e] eqn:Htry.
  - unfold compliance_check_try in Htry.
    destruct (check_compliance rt _ _ reply) as [cc'|e]; [|discriminate].
    cbn [bind] in Htry. unfold index in Htry.
    destruct (cc' !! "sar_required") as [v|] eqn:Hsar; [|discriminate].
    cbn [bind] in Htry. injection Htry as <- <-.
    exists cc'. eexists _, _, v. split; [reflexivity|].
    split; [right; reflexivity|]. split; [|exact Hsar].
    prefix_through "SAR ".
  - eexists _, _, _, _. split; [reflexivity|].
    split; [left; reflexivity|]. split; [prefix_through "Error - "|].
    dict_lookup. reflexivity.
Qed.

(** ** Finalizing *)

Lemma finalize_unassessed (st : InvestigationState) :
  st_fraud_investigation st = None ->
  st_risk_analysis st = None ->
  _finalize_node rt st
  = Ok [set_final_decision (VStr "REVIEW");
        set_decision_reason
          "Manual review required due to incomplete analysis.";
        set_status "completed";
        set_steps (list_append (st_steps st) "Final Decision: REVIEW")].
Proof.
  intros Hfi Hra. unfold _finalize_node. rewrite Hfi, Hra. reflexivity.
Qed.

Lemma finalize_skipped (st : InvestigationState) (ra : dict) (s : float) :
  st_fraud_investigation st = None ->
  st_risk_analysis st = Some ra ->
  ra !! "risk_score" = Some (VFloat s) ->
  (s <=? 0.4)%float = true ->
  _finalize_node rt st
  = Ok [set_final_decision (VStr "APPROVE");
        set_decision_reason
          ("Approved: Risk score " +:+ format_float rt ".0%" s
           +:+ " below threshold. "
           +:+ "No suspicious patterns detected. Standard transaction.");
        set_status "completed";
        set_steps (list_append (st_steps st) "Final Decision: APPROVE")].
Proof.
  intros Hfi Hra Hs Hle. unfold _finalize_node. rewrite Hfi, Hra.
  cbn [present default from_option id].
  rewrite (truthy_dict ra _ _ Hs), (get_some ra _ _ _ Hs).
  cbn [le_0_4 bind]. rewrite Hle. reflexivity.
Qed.

Lemma finalize_found (st : InvestigationState) (fi : dict) (v : value) :
  st_fraud_investigation st = Some fi ->
  fi !! "recommendation" = Some v ->
  _finalize_node rt st
  = (reason <-
       _build_decision_reason rt v (st_risk_analysis st) (Some fi)
         (st_compliance_check st) ;;
     Ok [set_final_decision v;
         set_decision_reason reason;
         set_status "completed";
         set_steps (list_append (st_steps st)
                      ("Final Decision: " +:+ py_str rt v))]).
Proof.
  intros Hfi Hrec. unfold _finalize_node. rewrite Hfi.
  cbn [present default from_option id].
  rewrite (truthy_dict fi _ _ Hrec), (get_some fi _ _ _ Hrec).
  destruct (_build_decision_reason rt v (st_risk_analysis st) (Some fi)
              (st_compliance_check st)); reflexivity.
Qed.

Lemma finalize_update_shape (st : InvestigationState)
    (update : list assignment) :
  _finalize_node rt st = Ok update ->
  exists decision reason,
    update = [set_final_decision decision;
              set_decision_reason reason;
              set_status "completed";
              set_steps (list_append (st_steps st)
                           ("Final Decision: " +:+ py_str rt decision))].
Proof.
  unfold _finalize_node.
  match goal with
  | |- bind ?x _ = _ -> _ => destruct x as [[decision reason]|e]
  end; cbn [bind]; [|discriminate].
  intros [= <-]. eauto.
Qed.

Lemma merge_finalize (st : InvestigationState) (decision : value)
    (reason : string) (l : list string) :
  run_of_state
    (merge st [set_final_decision decision; set_decision_reason reason;
               set_status "completed"; set_steps l])
  = {| run_transaction_id := st_transaction_id st;
       run_timestamp := st_timestamp st;
       steps := l;
       risk_analysis := st_risk_analysis st;
       fraud_investigation := st_fraud_investigation st;
       compliance_check := st_compliance_check st;
       final_decision := decision;
       decision_reason := reason;
       status := "completed" |}.
Proof. destruct st. reflexivity. Qed.

Variable replies : Replies.

Lemma run_finalize (limit : nat) (st : InvestigationState) :
  run_from rt replies (S limit) N_finalize st
  = {| emitted := [];
       visited := [(N_finalize, st)];
       final := update <- _finalize_node rt st ;; Ok (merge st update) |}.
Proof.
  rewrite run_from_S. cbn [run_node].
  destruct (_finalize_node rt st); reflexivity.
Qed.

Lemma run_compliance (limit : nat) (st : InvestigationState) :
  run_from rt replies (S (S limit)) N_check_compliance st
  = let n := _compliance_check_node rt st (compliance_reply replies) in
    let st' := merge st (snd n) in
    {| emitted := fst n;
       visited := [(N_check_compliance, st); (N_finalize, st')];
       final := update <- _finalize_node rt st' ;; Ok (merge st' update) |}.
Proof.
  rewrite run_from_S. cbn [run_node].
  destruct (_compliance_check_node rt st (compliance_reply replies))
    as [evs u].
  cbn [next_node fst snd]. rewrite run_finalize.
  cbn [emitted visited final]. rewrite app_nil_r. reflexivity.
Qed.

Lemma run_investigate (limit : nat) (st : InvestigationState) :
  run_from rt replies (S (S (S limit))) N_investigate_fraud st
  = let n := _fraud_investigation_node rt st (fraud_reply replies) in
    let st' := merge st (snd n) in
    let n' := _compliance_check_node rt st' (compliance_reply replies) in
    let st'' := merge st' (snd n') in
    {| emitted := (fst n ++ fst n')%list;
       visited := [(N_investigate_fraud, st); (N_check_compliance, st');
                   (N_finalize, st'')];
       final := update <- _finalize_node rt st'' ;; Ok (merge st'' update) |}.
Proof.
  rewrite run_from_S. cbn [run_node].
  destruct (_fraud_investigation_node rt st (fraud_reply replies))
    as [evs u].
  cbn [next_node fst snd]. rewrite run_compliance.
  cbn [emitted visited final]. reflexivity.
Qed.

Lemma run_analyze (limit : nat) (st : InvestigationState) :
  run_from rt replies (S (S (S (S limit)))) N_analyze_risk st
  = let n := _risk_analysis_node rt st (risk_reply replies) in
    let st1 := merge st (snd n) in
    match _should_investigate (st_risk_analysis st1) with
    | Raise e =>
        {| emitted := fst n; visited := [(N_analyze_risk, st)];
           final := Raise e |}
    | Ok route =>
        if String.eqb route "investigate" then
          let n2 := _fraud_investigation_node rt st1 (fraud_reply replies) in
          let st2 := merge st1 (snd n2) in
          let n3 :=
            _compliance_check_node rt st2 (compliance_reply replies) in
          let st3 := merge st2 (snd n3) in
          {| emitted := (fst n ++ fst n2 ++ fst n3)%list;
             visited := [(N_analyze_risk, st); (N_investigate_fraud, st1);
                         (N_check_compliance, st2); (N_finalize, st3)];
             final :=
               update <- _finalize_node rt st3 ;; Ok (merge st3 update) |}
        else
          {| emitted := fst n;
             visited := [(N_analyze_risk, st); (N_finalize, st1)];
             final :=
               update <- _finalize_node rt st1 ;; Ok (merge st1 update) |}
    end.
Proof.
  rewrite run_from_S. cbn [run_node].
  destruct (_risk_analysis_node rt st (risk_reply replies)) as [evs u].
  cbn [next_node fst snd].
  destruct (_should_investigate (st_risk_analysis (merge st u)))
    as [route|e]; cbn [bind]; [|reflexivity].
  destruct (String.eqb route "investigate").
  - rewrite run_investigate. reflexivity.
  - rewrite run_finalize. cbn [emitted visited final].
    rewrite app_nil_r. reflexivity.
Qed.

Lemma graph_invoke_eq (st : InvestigationState) :
  graph_invoke rt replies st
  = run_from rt replies (S (S (S (S 21)))) N_analyze_risk st.
Proof. reflexivity. Qed.

(** The run when the assessment raises. *)
Lemma run_unassessed (now : string) (log : list WorkflowRun)
    (tx : Transaction) (e : exn) :
  analyze_risk rt tx None (risk_reply replies) = Raise e ->
  let r := {| run_transaction_id := transaction_id tx;
              run_timestamp := now;
              steps := ["Final Decision: REVIEW"];
              risk_analysis := None;
              fraud_investigation := None;
              compliance_check := None;
              final_decision := VStr "REVIEW";
              decision_reason :=
                "Manual review required due to incomplete analysis.";
              status := "completed" |} in
  let inv := investigate_async rt now log tx replies in
  events inv
  = [investigation_start (transaction_id tx);
     agent_thinking "Risk Analyst" "Analyzing transaction risk...";
     investigation_complete r]
  /\ map fst (path inv) = [N_analyze_risk; N_finalize]
  /\ returned inv = Ok r
  /\ investigation_log inv = list_append log r.
Proof.
  intros H r inv. subst inv.
  unfold investigate_async. rewrite graph_invoke_eq, run_analyze.
  cbv zeta.
  rewrite (risk_analysis_node_raise (initial_state now tx) _ e H).
  graph_eval. cbn [_should_investigate]. graph_eval.
  rewrite finalize_unassessed by reflexivity.
  graph_eval. repeat split.
Qed.

(** The run when the assessment succeeds and the score is not above the
    threshold. *)
Lemma run_skipped (now : string) (log : list WorkflowRun)
    (tx : Transaction) (ra : dict) :
  analyze_risk rt tx None (risk_reply replies) = Ok ra ->
  escalates rt tx = false ->
  exists reason msg,
    let ra' := <["escalated" := VBool false]>
                 (<["routing_reason" := VStr reason]> ra) in
    let r := {| run_transaction_id := transaction_id tx;
                run_timestamp := now;
                steps := [msg; "Final Decision: APPROVE"];
                risk_analysis := Some ra';
                fraud_investigation := None;
                compliance_check := None;
                final_decision := VStr "APPROVE";
                decision_reason :=
                  "Approved: Risk score "
                  +:+ format_float rt ".0%" (heuristic_score rt tx)
                  +:+ " below threshold. "
                  +:+ "No suspicious patterns detected. Standard transaction.";
                status := "completed" |} in
    let inv := investigate_async rt now log tx replies in
    String.prefix "Risk Analyst: " msg = true
    /\ events inv
       = [investigation_start (transaction_id tx);
          agent_thinking "Risk Analyst" "Analyzing transaction risk...";
          agent_result "Risk Analyst" ra';
          investigation_complete r]
    /\ map fst (path inv) = [N_analyze_risk; N_finalize]
    /\ returned inv = Ok r
    /\ investigation_log inv = list_append log r.
Proof.
  intros Hra Hesc.
  destruct (risk_analysis_node_ok (initial_state now tx) _ ra Hra)
    as (reason & msg & Hnode & Hmsg).
  cbv zeta in Hnode. cbn [st_transaction initial_state] in Hnode.
  rewrite Hesc in Hnode.
  destruct (analyze_risk_inv _ _ _ Hra) as (_ & _ & _ & _ & Hs & _).
  exists reason, msg. cbv zeta. split; [exact Hmsg|].
  unfold investigate_async. rewrite graph_invoke_eq, run_analyze.
  cbv zeta. rewrite Hnode. graph_eval.
  rewrite (should_investigate_heuristic _ tx) by (dict_lookup; exact Hs).
  rewrite Hesc. graph_eval.
  erewrite finalize_skipped;
    [|reflexivity|reflexivity|dict_lookup; exact Hs
     |rewrite heuristic_score_le_iff, Hesc; reflexivity].
  graph_eval.
  repeat split.
Qed.

(** The run when the assessment succeeds and the score is above the
    threshold: the investigator and the reviewer run, each leaving a
    dictionary in the state, and the run ends as the rationale of the
    finding's recommendation [v] is built or fails to be. *)
Lemma run_escalated (now : string) (log : list WorkflowRun)
    (tx : Transaction) (ra : dict) :
  analyze_risk rt tx None (risk_reply replies) = Ok ra ->
  escalates rt tx = true ->
  exists reason msg fi m2 e2 v cc m3 e3 w,
    let ra' := <["escalated" := VBool true]>
                 (<["routing_reason" := VStr reason]> ra) in
    let st1 := merge (initial_state now tx)
                 [set_risk_analysis ra'; set_steps [msg]] in
    let st2 := merge st1 [set_fraud_investigation fi; set_steps [msg; m2]] in
    let st3 := merge st2 [set_compliance_check cc; set_steps [msg; m2; m3]] in
    let decided :=
      _build_decision_reason rt v (Some ra') (Some fi) (Some cc) in
    let run_with rationale :=
      {| run_transaction_id := transaction_id tx;
         run_timestamp := now;
         steps := [msg; m2; m3; "Final Decision: " +:+ py_str rt v];
         risk_analysis := Some ra';
         fraud_investigation := Some fi;
         compliance_check := Some cc;
         final_decision := v;
         decision_reason := rationale;
         status := "completed" |} in
    let inv := investigate_async rt now log tx replies in
    String.prefix "Risk Analyst: " msg = true
    /\ String.prefix "Fraud Investigator: " m2 = true
    /\ String.prefix "Compliance Officer: " m3 = true
    /\ (e2 = [] \/ e2 = [agent_result "Fraud Investigator" fi])
    /\ (e3 = [] \/ e3 = [agent_result "Compliance Officer" cc])
    /\ fi !! "recommendation" = Some v
    /\ cc !! "sar_required" = Some w
    /\ _fraud_investigation_node rt st1 (fraud_reply replies)
       = (agent_thinking "Fraud Investigator"
            "Investigating suspicious activity..." :: e2,
          [set_fraud_investigation fi; set_steps [msg; m2]])
    /\ _compliance_check_node rt st2 (compliance_reply replies)
       = (agent_thinking "Compliance Officer"
            "Checking regulatory requirements..." :: e3,
          [set_compliance_check cc; set_steps [msg; m2; m3]])
    /\ path inv
       = [(N_analyze_risk, initial_state now tx); (N_investigate_fraud, st1);
          (N_check_compliance, st2); (N_finalize, st3)]
    /\ events inv
       = (investigation_start (transaction_id tx)
          :: agent_thinking "Risk Analyst" "Analyzing transaction risk..."
          :: agent_result "Risk Analyst" ra'
          :: agent_thinking "Fraud Investigator"
               "Investigating suspicious activity..."
          :: e2
          ++ agent_thinking "Compliance Officer"
               "Checking regulatory requirements..."
          :: e3
          ++ match decided with
             | Ok rationale => [investigation_complete (run_with rationale)]
             | Raise _ => []
             end)%list
    /\ returned inv = (rationale <- decided ;; Ok (run_with rationale))
    /\ investigation_log inv
       = match decided with
         | Ok rationale => list_append log (run_with rationale)
         | Raise _ => log
         end.
Proof.
  intros Hra Hesc.
  destruct (risk_analysis_node_ok (initial_state now tx) _ ra Hra)
    as (reason & msg & Hnode & Hmsg).
  cbv zeta in Hnode. cbn [st_transaction initial_state] in Hnode.
  rewrite Hesc in Hnode.
  destruct (analyze_risk_inv _ _ _ Hra) as (_ & _ & _ & _ & Hs & _).
  set (ra' := <["escalated" := VBool true]>
                (<["routing_reason" := VStr reason]> ra)) in *.
  set (st1 := merge (initial_state now tx)
                [set_risk_analysis ra'; set_steps [msg]]).
  destruct (fraud_node_shape st1 (fraud_reply replies))
    as (fi & m2 & e2 & v & Hn2 & He2 & Hm2 & Hv).
  change (list_append (st_steps st1) m2) with [msg; m2] in Hn2.
  set (st2 := merge st1 [set_fraud_investigation fi; set_steps [msg; m2]]).
  destruct (compliance_node_shape st2 (compliance_reply replies))
    as (cc & m3 & e3 & w & Hn3 & He3 & Hm3 & Hw).
  change (list_append (st_steps st2) m3) with [msg; m2; m3] in Hn3.
  exists reason, msg, fi, m2, e2, v, cc, m3, e3, w. cbv zeta.
  fold ra' st1 st2.
  set (st3 := merge st2 [set_compliance_check cc; set_steps [msg; m2; m3]]).
  repeat (split; [assumption|]).
  unfold investigate_async. rewrite graph_invoke_eq, run_analyze.
  cbv zeta. rewrite Hnode.
  cbn [fst snd st_steps initial_state list_append app].
  fold st1.
  replace (_should_investigate (st_risk_analysis st1))
    with (Ok (A := string) "investigate").
  2:{ symmetry. subst st1. graph_eval.
      rewrite (should_investigate_heuristic _ tx)
        by (subst ra'; dict_lookup; exact Hs).
      rewrite Hesc. reflexivity. }
  cbn [String.eqb Ascii.eqb Bool.eqb].
  rewrite Hn2. cbn [fst snd]. fold st2.
  rewrite Hn3. cbn [fst snd]. fold st3.
  cbn [emitted visited final].
  rewrite (finalize_found st3 fi v eq_refl Hv).
  change (st_risk_analysis st3) with (Some ra').
  change (st_compliance_check st3) with (Some cc).
  destruct (_build_decision_reason rt v (Some ra') (Some fi) (Some cc))
    as [rationale|e]; cbn [bind];
    try rewrite merge_finalize;
    cbn [events path returned investigation_log];
    repeat split; try assumption.
  - cbn [app]. rewrite <- !app_assoc. reflexivity.
  - cbn [app]. rewrite app_nil_r. reflexivity.
Qed.

End AgentFacts.

(** * The claims *)

Lemma risk_analysis_try_inv (rt : PyRuntime) (now : string)
    (tx : Transaction) (reply : outcome string) (ra' : dict) (msg : string) :
  risk_analysis_try rt (initial_state now tx) reply = Ok (ra', msg) ->
  exists ra,
    analyze_risk rt tx None reply = Ok ra
    /\ ra' !! "risk_score" = Some (VFloat (heuristic_score rt tx)).
Proof.
  intros Htry.
  destruct (analyze_risk rt tx None reply) as [ra|e] eqn:Hra.
  - exists ra. split; [reflexivity|].
    destruct (risk_analysis_try_ok rt (initial_state now tx) reply ra Hra)
      as (reason & msg' & Htry' & _).
    rewrite Htry in Htry'. injection Htry' as -> _.
    destruct (analyze_risk_inv rt _ _ _ Hra) as (_ & _ & _ & _ & Hs & _).
    dict_lookup. exact Hs.
  - rewrite (risk_analysis_try_raise rt (initial_state now tx) reply e Hra)
      in Htry. discriminate.
Qed.

(** C3. In every run in which the Assessing stage succeeds with a
    recorded risk score [s]: if [s > 0.40] the graph runs Investigating
    and Reviewing before Finalizing, the state Finalizing receives holds a
    finding and a compliance outcome, and so does every run returned; if
    [s <= 0.40], exactly 0.40 included, the graph goes from Assessing
    straight to Finalizing and the run returned holds neither. *)
Theorem branch_correctness (rt : PyRuntime) (now : string)
    (log : list WorkflowRun) (tx : Transaction) (replies : Replies)
    (ra : dict) (msg : string) (s : float) :
  risk_analysis_try rt (initial_state now tx) (risk_reply replies)
  = Ok (ra, msg) ->
  ra !! "risk_score" = Some (VFloat s) ->
  let inv := investigate_async rt now log tx replies in
  ((0.4 <? s)%float = true ->
     map fst (path inv)
     = [N_analyze_risk; N_investigate_fraud; N_check_compliance; N_finalize]
     /\ (exists st fi cc,
           last (path inv) = Some (N_finalize, st)
           /\ st_fraud_investigation st = Some fi
           /\ st_compliance_check st = Some cc)
     /\ (forall r, returned inv = Ok r ->
           exists fi cc,
             fraud_investigation r = Some fi /\ compliance_check r = Some cc))
  /\ ((s <=? 0.4)%float = true ->
       map fst (path inv) = [N_analyze_risk; N_finalize]
       /\ exists r,
            returned inv = Ok r
            /\ fraud_investigation r = None
            /\ compliance_check r = None).
Proof.
  intros Htry Hscore inv.
  destruct (risk_analysis_try_inv rt now tx _ ra msg Htry) as (ra0 & Hra & Hs).
  rewrite Hscore in Hs. injection Hs as ->.
  split.
  - intros Habove.
    destruct (run_escalated rt replies now log tx ra0 Hra Habove)
      as (reason & msg1 & fi & m2 & e2 & v & cc & m3 & e3 & w & H).
    cbv zeta in H.
    destruct H as (_ & _ & _ & _ & _ & _ & _ & _ & _ & Hpath & _ & Hret & _).
    fold inv in Hpath, Hret. rewrite Hpath. split; [reflexivity|]. split.
    + eexists _, fi, cc. split; [reflexivity|]. split; reflexivity.
    + intros r Hr. rewrite Hr in Hret.
      match type of Hret with
      | _ = bind ?decided _ =>
          destruct decided as [rationale|e]; [|discriminate]
      end.
      cbn [bind] in Hret. injection Hret as ->.
      exists fi, cc. split; reflexivity.
  - intros Hbelow.
    assert (Hesc : escalates rt tx = false).
    { rewrite heuristic_score_le_iff in Hbelow.
      destruct (escalates rt tx); [discriminate|reflexivity]. }
    destruct (run_skipped rt replies now log tx ra0 Hra Hesc)
      as (reason & msg1 & H).
    cbv zeta in H. destruct H as (_ & _ & Hpath & Hret & _).
    fold inv in Hpath, Hret. split; [exact Hpath|].
    eexists. split; [exact Hret|]. split; reflexivity.
Qed.

Lemma branch_correctness_witness :
  map fst (path (investigate_async sample_runtime "2026-01-11T02:00:05" []
                   tx_a (all_reply "not json")))
  = [N_analyze_risk; N_investigate_fraud; N_check_compliance; N_finalize].
Proof.
  pose (p := value_of (∅, "")
               (risk_analysis_try sample_runtime
                  (initial_state "2026-01-11T02:00:05" tx_a)
                  (Ok "not json"))).
  refine (proj1 (proj1 (branch_correctness sample_runtime
                          "2026-01-11T02:00:05" [] tx_a (all_reply "not json")
                          (fst p) (snd p) 0.9 _ _) _)).
  - vm_cast_no_check (eq_refl (Ok (A := dict * string) (fst p, snd p))).
  - vm_cast_no_check (eq_refl (Some (VFloat 0.9))).
  - reflexivity.
Defined.

(** ** The score at the threshold *)

Section AtThreshold.

Variable rt : PyRuntime.
Variable tx : Transaction.

Hypothesis Hlarge : (5000 <? amount tx)%float = true.
Hypothesis Hnot_micro : (amount tx <? 1.0)%float = false.
Hypothesis Hhour : int_in (hour tx) unusual_hours = true.
Hypothesis Hlocation : str_in (location tx) suspicious_locations = false.
Hypothesis Hmerchant :
  str_in (merchant_category tx) high_risk_merchants = false.
Hypothesis Hvelocity : (5 <? default 1%Z (velocity tx))%Z = false.

Lemma threshold_heuristic :
  _calculate_heuristic_risk rt tx
  = (0.4%float,
     {| factors :=
          [ {| name := "Large transaction"; contribution := 0.2;
               reason := "High value $" +:+ format_float rt ",.2f" (amount tx)
                         +:+ " exceeds typical threshold" |};
            {| name := "Unusual hours"; contribution := 0.2;
               reason := "Transaction at " +:+ pretty (hour tx)
                         +:+ ":00 - high-risk time window" |} ];
        base_score := Some 0.0%float;
        total_score := 0.4;
        method := None |}).
Proof.
  unfold _calculate_heuristic_risk.
  rewrite Hnot_micro, Hlarge, Hhour, Hlocation, Hmerchant, Hvelocity.
  reflexivity.
Qed.

Lemma threshold_score : heuristic_score rt tx = 0.4%float.
Proof. unfold heuristic_score. rewrite threshold_heuristic. reflexivity. Qed.

Lemma threshold_explanation :
  exists text,
    _generate_explanation rt (heuristic_score rt tx)
      (heuristic_breakdown rt tx)
      (_identify_patterns tx (heuristic_score rt tx))
    = text +:+ ". Escalating for investigation."
    /\ String.prefix "Medium risk (" text = true.
Proof.
  rewrite threshold_score. unfold heuristic_breakdown.
  rewrite threshold_heuristic. cbn [snd factors].
  unfold _generate_explanation.
  change (_score_to_level 0.4) with "Medium".
  cbn [factors sorted_desc foldr insert_desc contribution].
  change (0.2 <? 0.2)%float with false. cbn [take fmap list_fmap reason].
  change (str_in "Medium" ["Low"]) with false.
  change (String.eqb "Medium" "Medium") with true. cbv iota.
  eexists. split.
  - rewrite <- !append_assoc. reflexivity.
  - rewrite !append_assoc.
    match goal with
    | |- String.prefix ?a (_ +:+ _ +:+ ?x) = true =>
        change (String.prefix a (a +:+ x) = true)
    end.
    apply prefix_append.
Qed.

End AtThreshold.

(** C10. A transaction above $5,000 at an unusual hour with no other
    factor has heuristic score exactly 0.40 (0.20 + 0.20).  Its level is
    Medium, the branch takes the approve path, and whenever the assessor
    returns, the explanation it records ends with "Escalating for
    investigation." although the run never reaches the investigator and
    ends with decision APPROVE. *)
Theorem medium_level_not_escalated (rt : PyRuntime) (now : string)
    (log : list WorkflowRun) (tx : Transaction) (replies : Replies)
    (ra : dict) :
  (5000 <? amount tx)%float = true ->
  (amount tx <? 1.0)%float = false ->
  int_in (hour tx) unusual_hours = true ->
  str_in (location tx) suspicious_locations = false ->
  str_in (merchant_category tx) high_risk_merchants = false ->
  (5 <? default 1%Z (velocity tx))%Z = false ->
  analyze_risk rt tx None (risk_reply replies) = Ok ra ->
  let inv := investigate_async rt now log tx replies in
  heuristic_score rt tx = 0.4%float
  /\ _score_to_level (heuristic_score rt tx) = "Medium"
  /\ _should_investigate (Some ra) = Ok "approve"
  /\ exists text ra' r,
       String.prefix "Medium risk (" text = true
       /\ ra' !! "explanation"
          = Some (VStr (text +:+ ". Escalating for investigation."))
       /\ returned inv = Ok r
       /\ risk_analysis r = Some ra'
       /\ fraud_investigation r = None
       /\ compliance_check r = None
       /\ final_decision r = VStr "APPROVE"
       /\ map fst (path inv) = [N_analyze_risk; N_finalize].
Proof.
  intros H1 H2 H3 H4 H5 H6 Hra inv.
  pose proof (threshold_score rt tx H1 H2 H3 H4 H5 H6) as Hscore.
  assert (Hesc : escalates rt tx = false)
    by (unfold escalates; rewrite Hscore; reflexivity).
  destruct (analyze_risk_inv rt _ _ _ Hra)
    as (_ & _ & _ & _ & Hs & _ & _ & Hexp & _).
  split; [exact Hscore|]. split; [rewrite Hscore; reflexivity|].
  split.
  { rewrite (should_investigate_heuristic rt ra tx Hs), Hesc. reflexivity. }
  destruct (threshold_explanation rt tx H1 H2 H3 H4 H5 H6)
    as (text & Htext & Hprefix).
  destruct (run_skipped rt replies now log tx ra Hra Hesc)
    as (reason & msg & H).
  cbv zeta in H. destruct H as (_ & _ & Hpath & Hret & _).
  fold inv in Hpath, Hret.
  exists text. eexists _, _. split; [exact Hprefix|].
  split; [|split; [exact Hret|]].
  2:{ cbn [risk_analysis fraud_investigation compliance_check
           final_decision].
      repeat split. exact Hpath. }
  dict_lookup. rewrite Hexp, Htext. reflexivity.
Qed.

Lemma medium_level_not_escalated_witness :
  heuristic_score sample_runtime tx_e = 0.4%float
  /\ _score_to_level (heuristic_score sample_runtime tx_e) = "Medium"
  /\ exists r,
       returned (investigate_async sample_runtime "2026-01-11T02:00:05" []
                   tx_e (all_reply "{}")) = Ok r
       /\ fraud_investigation r = None
       /\ final_decision r = VStr "APPROVE".
Proof.
  pose (ra := value_of ∅ (analyze_risk sample_runtime tx_e None (Ok "{}"))).
  assert (Hra : analyze_risk sample_runtime tx_e None
                  (risk_reply (all_reply "{}")) = Ok ra)
    by (vm_cast_no_check (eq_refl (Ok ra))).
  destruct (medium_level_not_escalated sample_runtime "2026-01-11T02:00:05"
              [] tx_e (all_reply "{}") ra
              eq_refl eq_refl eq_refl eq_refl eq_refl eq_refl Hra)
    as (Hs & Hl & _ & text & ra' & r & _ & _ & Hr & _ & Hfi & _ & Hd & _).
  split; [exact Hs|]. split; [exact Hl|].
  exists r. split; [exact Hr|]. split; [exact Hfi|exact Hd].
Defined.

(** ** A failure of the Assessing stage *)

(** C2 as stated fails: when the capability raises, [analyze_risk] does
    not return an assessment, and the run holds none. *)
Lemma assessor_raises_with_capability :
  ~ returns (analyze_risk sample_runtime tx_a None (risk_reply all_raise))
  /\ exists r,
       returned (investigate_async sample_runtime "2026-01-11T02:00:05" []
                   tx_a all_raise) = Ok r
       /\ risk_analysis r = None.
Proof.
  split.
  - intros [ra Hra]. discriminate Hra.
  - destruct (run_unassessed sample_runtime all_raise "2026-01-11T02:00:05"
                [] tx_a (CapabilityError "Read timeout") eq_refl)
      as (_ & _ & Hret & _).
    eexists. split; [exact Hret|reflexivity].
Qed.

(** C2, amended.  When the capability raises on every call, the run
    still completes: it is returned with status completed, never error,
    with the decision REVIEW and the rationale of an incomplete analysis.
    Its fields are defaults only, none comes from the heuristic scorer:
    the assessor itself fails, whatever the learned scorer does; it
    passes the exception on and returns no assessment.  The Assessing
    node catches that, so the run is not failed, and it carries no
    assessment, no finding and no compliance outcome. *)
Theorem capability_down_run (rt : PyRuntime) (now : string)
    (log : list WorkflowRun) (tx : Transaction) (e1 e2 e3 : exn) :
  let replies := {| risk_reply := Raise e1; fraud_reply := Raise e2;
                    compliance_reply := Raise e3 |} in
  let inv := investigate_async rt now log tx replies in
  (forall gnn, analyze_risk rt tx gnn (Raise e1) = Raise e1)
  /\ exists r,
       returned inv = Ok r
       /\ status r = "completed"
       /\ status r <> "error"
       /\ final_decision r = VStr "REVIEW"
       /\ decision_reason r
          = "Manual review required due to incomplete analysis."
       /\ steps r = ["Final Decision: REVIEW"]
       /\ risk_analysis r = None
       /\ fraud_investigation r = None
       /\ compliance_check r = None
       /\ last (events inv) = Some (investigation_complete r)
       /\ investigation_log inv = list_append log r.
Proof.
  intros replies inv. split.
  { intros gnn. unfold analyze_risk.
    destruct gnn as [[s|e]|]; try destruct (_calculate_heuristic_risk rt tx);
      reflexivity. }
  assert (Hra : analyze_risk rt tx None (risk_reply replies) = Raise e1)
    by reflexivity.
  destruct (run_unassessed rt replies now log tx e1 Hra)
    as (Hev & _ & Hret & Hlog).
  eexists. split; [exact Hret|].
  split; [reflexivity|]. split; [discriminate|].
  split; [reflexivity|]. split; [reflexivity|]. split; [reflexivity|].
  split; [reflexivity|]. split; [reflexivity|]. split; [reflexivity|].
  split; [|exact Hlog].
  unfold inv. rewrite Hev. reflexivity.
Qed.

(** ** The investigator and its fallbacks *)

Section InvestigatorFacts.

Variable rt : PyRuntime.

Lemma setdefault_none (k : string) (v : value) (d : dict) :
  d !! k = None -> setdefault k v d = <[k := v]> d.
Proof. intros H. unfold setdefault. rewrite H. reflexivity. Qed.

Lemma strings_of_fmap (l : list string) : strings_of (VStr <$> l) = Some l.
Proof.
  induction l as [|x l IH]; [reflexivity|].
  cbn [fmap list_fmap strings_of]. fold (fmap (M := list) VStr l).
  rewrite IH. reflexivity.
Qed.

(** The prompt of the investigator can be built from what the assessor
    records. *)
Lemma prompt_fields_ok (s : float) (patterns : list string) :
  investigation_prompt_fields rt (VFloat s) (VList (VStr <$> patterns))
  = Ok tt.
Proof.
  unfold investigation_prompt_fields. cbn [format_value bind].
  destruct (truthy (VList (VStr <$> patterns))); [|reflexivity].
  unfold joinable, join_value. rewrite strings_of_fmap. reflexivity.
Qed.

Lemma investigate_unparsable (tx : Transaction) (s : float)
    (patterns : list string) (response e1 e2 : string) :
  json_loads rt response = JSONDecodeError e1 ->
  json_loads rt (json_candidate response) = JSONDecodeError e2 ->
  investigate_transaction rt tx (VFloat s) (VList (VStr <$> patterns))
    (Ok response)
  = Ok (parse_failure_finding response e2).
Proof.
  intros H1 H2. unfold investigate_transaction.
  rewrite prompt_fields_ok. cbn [bind].
  rewrite (parse_degraded rt response e1 e2 H1 H2).
  unfold parse_failure_finding, degraded.
  repeat (rewrite setdefault_none by (dict_lookup; reflexivity)).
  reflexivity.
Qed.

Lemma investigate_raise (tx : Transaction) (s : float)
    (patterns : list string) (e : exn) :
  investigate_transaction rt tx (VFloat s) (VList (VStr <$> patterns))
    (Raise e)
  = Raise e.
Proof.
  unfold investigate_transaction. rewrite prompt_fields_ok. reflexivity.
Qed.

(** The rationale of a decision that is neither APPROVE nor DECLINE is
    built without formatting anything of the finding. *)
Lemma build_decision_reason_review (v : value) (ra : dict) (s : float)
    (fi cc : option dict) :
  is_str "APPROVE" v = false ->
  is_str "DECLINE" v = false ->
  ra !! "risk_score" = Some (VFloat s) ->
  exists reason, _build_decision_reason rt v (Some ra) fi cc = Ok reason.
Proof.
  intros Ha Hd Hs. unfold _build_decision_reason. rewrite Ha, Hd.
  cbn [present default from_option id].
  rewrite (truthy_dict ra _ _ Hs), (get_some ra _ _ _ Hs).
  cbn [format_value bind]. eauto.
Qed.

End InvestigatorFacts.

(** ** A failing investigator *)

Section InvestigatorRuns.

Variable rt : PyRuntime.
Variable replies : Replies.
Variable now : string.
Variable log : list WorkflowRun.
Variable tx : Transaction.
Variable ra : dict.

Hypothesis Hra : analyze_risk rt tx None (risk_reply replies) = Ok ra.
Hypothesis Hesc : escalates rt tx = true.

Lemma fraud_try_inputs (st : InvestigationState) (ra' : dict) (s : float)
    (ps : list string) (reply : outcome string) :
  st_risk_analysis st = Some ra' ->
  ra' !! "risk_score" = Some (VFloat s) ->
  ra' !! "patterns" = Some (VList (VStr <$> ps)) ->
  fraud_investigation_try rt st reply
  = (fi <- investigate_transaction rt (st_transaction st) (VFloat s)
             (VList (VStr <$> ps)) reply ;;
     recommendation <- index fi "recommendation" ;;
     likelihood <- index fi "fraud_likelihood" ;;
     Ok (fi,
         "Fraud Investigator: " +:+ py_str rt recommendation +:+ " ("
         +:+ py_str rt likelihood +:+ " likelihood)")).
Proof.
  intros Hst Hs Hp. unfold fraud_investigation_try. rewrite Hst.
  cbn [default from_option id].
  rewrite (get_some ra' _ _ _ Hs), (get_some ra' _ _ _ Hp). reflexivity.
Qed.

(** The run when the investigator's call raises. *)
Lemma run_investigator_failed (e : exn) :
  investigate_transaction rt tx (VFloat (heuristic_score rt tx))
    (VList (VStr <$> _identify_patterns tx (heuristic_score rt tx)))
    (fraud_reply replies)
  = Raise e ->
  exists r,
    returned (investigate_async rt now log tx replies) = Ok r
    /\ fraud_investigation r = Some (investigation_error_finding e)
    /\ final_decision r = VStr "REVIEW"
    /\ status r = "completed".
Proof.
  intros Hreply.
  destruct (run_escalated rt replies now log tx ra Hra Hesc)
    as (reason & msg & fi & m2 & e2 & v & cc & m3 & e3 & w & H).
  cbv zeta in H.
  destruct H as (_ & _ & _ & _ & _ & Hv & _ & Hn2 & _ & _ & _ & Hret & _).
  destruct (analyze_risk_inv rt _ _ _ Hra)
    as (_ & _ & _ & _ & Hs & _ & Hp & _).
  unfold _fraud_investigation_node in Hn2.
  erewrite fraud_try_inputs in Hn2;
    [|reflexivity|dict_lookup; exact Hs|dict_lookup; exact Hp].
  cbn [st_transaction merge foldl assign initial_state] in Hn2.
  rewrite Hreply in Hn2. cbn [bind] in Hn2.
  injection Hn2 as _ <- _.
  unfold investigation_error_finding in Hv. dict_lookup_in Hv.
  injection Hv as <-.
  destruct (build_decision_reason_review rt (VStr "REVIEW") _
              (heuristic_score rt tx)
              (Some (investigation_error_finding e)) (Some cc)
              eq_refl eq_refl
              (ltac:(dict_lookup; exact Hs)
                : (<["escalated" := VBool true]>
                     (<["routing_reason" := VStr reason]> ra))
                  !! "risk_score" = _))
    as (rationale & Hdec).
  rewrite Hdec in Hret. cbn [bind] in Hret.
  eexists. split; [exact Hret|]. repeat split.
Qed.

(** The run when the investigator's reply is not JSON. *)
Lemma run_investigator_unparsable (response e1 e2 : string) :
  fraud_reply replies = Ok response ->
  json_loads rt response = JSONDecodeError e1 ->
  json_loads rt (json_candidate response) = JSONDecodeError e2 ->
  exists r,
    returned (investigate_async rt now log tx replies) = Ok r
    /\ fraud_investigation r = Some (parse_failure_finding response e2)
    /\ final_decision r = VStr "REVIEW"
    /\ status r = "completed".
Proof.
  intros Hreply H1 H2.
  destruct (run_escalated rt replies now log tx ra Hra Hesc)
    as (reason & msg & fi & m2 & e2' & v & cc & m3 & e3 & w & H).
  cbv zeta in H.
  destruct H as (_ & _ & _ & _ & _ & Hv & _ & Hn2 & _ & _ & _ & Hret & _).
  destruct (analyze_risk_inv rt _ _ _ Hra)
    as (_ & _ & _ & _ & Hs & _ & Hp & _).
  unfold _fraud_investigation_node in Hn2.
  erewrite fraud_try_inputs in Hn2;
    [|reflexivity|dict_lookup; exact Hs|dict_lookup; exact Hp].
  rewrite Hreply, (investigate_unparsable rt _ _ _ response e1 e2 H1 H2)
    in Hn2.
  cbn [bind] in Hn2.
  rewrite (index_some (parse_failure_finding response e2) "recommendation"
             (VStr "REVIEW")) in Hn2
    by (unfold parse_failure_finding; dict_lookup; reflexivity).
  cbn [bind] in Hn2.
  rewrite (index_some (parse_failure_finding response e2) "fraud_likelihood"
             (VStr "Unknown")) in Hn2
    by (unfold parse_failure_finding; dict_lookup; reflexivity).
  cbn [bind] in Hn2. injection Hn2 as _ <- _.
  unfold parse_failure_finding in Hv. dict_lookup_in Hv.
  injection Hv as <-.
  destruct (build_decision_reason_review rt (VStr "REVIEW") _
              (heuristic_score rt tx)
              (Some (parse_failure_finding response e2)) (Some cc)
              eq_refl eq_refl
              (ltac:(dict_lookup; exact Hs)
                : (<["escalated" := VBool true]>
                     (<["routing_reason" := VStr reason]> ra))
                  !! "risk_score" = _))
    as (rationale & Hdec).
  rewrite Hdec in Hret. cbn [bind] in Hret.
  eexists. split; [exact Hret|]. repeat split.
Qed.

End InvestigatorRuns.

(** C6 as stated fails: when the investigator's call raises, the finding
    recorded for the run has no confidence and no indicator or action
    list, so it is not the documented fallback, whatever its text. *)
Lemma error_finding_is_not_documented_fallback :
  exists r fi,
    returned (investigate_async sample_runtime "2026-01-11T02:00:05" []
                tx_a investigator_down) = Ok r
    /\ fraud_investigation r = Some fi
    /\ forall text, ~ documented_fallback text fi.
Proof.
  pose (ra := value_of ∅ (analyze_risk sample_runtime tx_a None (Ok "{}"))).
  assert (Hra : analyze_risk sample_runtime tx_a None
                  (risk_reply investigator_down) = Ok ra)
    by (vm_cast_no_check (eq_refl (Ok ra))).
  destruct (run_investigator_failed sample_runtime investigator_down
              "2026-01-11T02:00:05" [] tx_a ra Hra eq_refl
              (CapabilityError "Read timeout")
              (investigate_raise sample_runtime tx_a _ _ _))
    as (r & Hr & Hfi & _).
  exists r, (investigation_error_finding (CapabilityError "Read timeout")).
  split; [exact Hr|]. split; [exact Hfi|].
  intros text (_ & _ & _ & Hconf & _).
  unfold investigation_error_finding in Hconf. dict_lookup_in Hconf.
  discriminate Hconf.
Qed.

(** C6, amended.  In an escalated run: when the investigator's reply is
    not JSON, the finding recorded is the documented fallback, with the
    raw reply as explanation; when the investigator raises (as it does
    when the capability's call raises), the finding recorded has
    likelihood Unknown, recommendation REVIEW and the error text as
    explanation, and no confidence, indicator or action entry.  In both
    cases the run returns, with decision REVIEW. *)
Theorem investigator_fallback_findings (rt : PyRuntime) (replies : Replies)
    (now : string) (log : list WorkflowRun) (tx : Transaction) (ra : dict) :
  analyze_risk rt tx None (risk_reply replies) = Ok ra ->
  escalates rt tx = true ->
  let inv := investigate_async rt now log tx replies in
  let investigated :=
    investigate_transaction rt tx (VFloat (heuristic_score rt tx))
      (VList (VStr <$> _identify_patterns tx (heuristic_score rt tx)))
      (fraud_reply replies) in
  (forall response e1 e2,
      fraud_reply replies = Ok response ->
      json_loads rt response = JSONDecodeError e1 ->
      json_loads rt (json_candidate response) = JSONDecodeError e2 ->
      documented_fallback response (parse_failure_finding response e2)
      /\ exists r,
           returned inv = Ok r
           /\ fraud_investigation r
              = Some (parse_failure_finding response e2)
           /\ final_decision r = VStr "REVIEW")
  /\ (forall e, fraud_reply replies = Raise e -> investigated = Raise e)
  /\ (forall e,
        investigated = Raise e ->
        let fi := investigation_error_finding e in
        fi !! "fraud_likelihood" = Some (VStr "Unknown")
        /\ fi !! "recommendation" = Some (VStr "REVIEW")
        /\ fi !! "explanation"
           = Some (VStr ("Investigation error: " +:+ str_exn e))
        /\ fi !! "confidence" = None
        /\ fi !! "fraud_indicators" = None
        /\ fi !! "suggested_actions" = None
        /\ exists r,
             returned inv = Ok r
             /\ fraud_investigation r = Some fi
             /\ final_decision r = VStr "REVIEW").
Proof.
  intros Hra Hesc inv investigated. split; [|split].
  - intros response e1 e2 Hreply H1 H2. split.
    + unfold documented_fallback, parse_failure_finding.
      repeat split; dict_lookup; reflexivity.
    + destruct (run_investigator_unparsable rt replies now log tx ra Hra
                  Hesc response e1 e2 Hreply H1 H2) as (r & Hr & Hfi & Hd & _).
      exists r. auto.
  - intros e Hreply. unfold investigated. rewrite Hreply.
    apply investigate_raise.
  - intros e Hinv fi. unfold fi, investigation_error_finding.
    repeat (split; [dict_lookup; reflexivity|]).
    destruct (run_investigator_failed rt replies now log tx ra Hra Hesc
                e Hinv) as (r & Hr & Hfi & Hd & _).
    exists r. auto.
Qed.

Lemma investigator_fallback_findings_witness :
  exists r,
    returned (investigate_async sample_runtime "2026-01-11T02:00:05" []
                tx_a investigator_down) = Ok r
    /\ fraud_investigation r
       = Some (investigation_error_finding (CapabilityError "Read timeout"))
    /\ final_decision r = VStr "REVIEW".
Proof.
  pose (ra := value_of ∅ (analyze_risk sample_runtime tx_a None (Ok "{}"))).
  assert (Hra : analyze_risk sample_runtime tx_a None
                  (risk_reply investigator_down) = Ok ra)
    by (vm_cast_no_check (eq_refl (Ok ra))).
  destruct (investigator_fallback_findings sample_runtime investigator_down
              "2026-01-11T02:00:05" [] tx_a ra Hra eq_refl)
    as (_ & Hraise & Hfailed).
  destruct (Hfailed _ (Hraise _ eq_refl)) as (_ & _ & _ & _ & _ & _ & Hrun).
  exact Hrun.
Defined.

(** ** The result of a run *)

Section RunResult.

Variable rt : PyRuntime.
Variable replies : Replies.
Variable now : string.
Variable log : list WorkflowRun.
Variable tx : Transaction.

(** Every run returned is completed, and its decision is the finding's
    recommendation when there is a finding, APPROVE when there is only an
    assessment, REVIEW when there is neither. *)
Lemma returned_run_decision (r : WorkflowRun) :
  returned (investigate_async rt now log tx replies) = Ok r ->
  status r = "completed"
  /\ match fraud_investigation r with
     | Some fi =>
         exists v, fi !! "recommendation" = Some v /\ final_decision r = v
     | None =>
         match risk_analysis r with
         | Some _ => final_decision r = VStr "APPROVE"
         | None => final_decision r = VStr "REVIEW"
         end
     end.
Proof.
  intros Hr.
  destruct (analyze_risk rt tx None (risk_reply replies)) as [ra|e] eqn:Hra.
  - destruct (escalates rt tx) eqn:Hesc.
    + destruct (run_escalated rt replies now log tx ra Hra Hesc)
        as (reason & msg & fi & m2 & e2 & v & cc & m3 & e3 & w & H).
      cbv zeta in H.
      destruct H as (_ & _ & _ & _ & _ & Hv & _ & _ & _ & _ & _ & Hret & _).
      rewrite Hr in Hret.
      match type of Hret with
      | _ = bind ?decided _ =>
          destruct decided as [rationale|e]; [|discriminate]
      end.
      cbn [bind] in Hret. injection Hret as ->.
      split; [reflexivity|]. cbn [fraud_investigation final_decision].
      exists v. split; [exact Hv|reflexivity].
    + destruct (run_skipped rt replies now log tx ra Hra Hesc)
        as (reason & msg & H).
      cbv zeta in H. destruct H as (_ & _ & _ & Hret & _).
      rewrite Hr in Hret. injection Hret as ->.
      split; reflexivity.
  - destruct (run_unassessed rt replies now log tx e Hra)
      as (_ & _ & Hret & _).
    rewrite Hr in Hret. injection Hret as ->.
    split; reflexivity.
Qed.

(** A run that raises does so in Finalizing, on a finding that
    recommends APPROVE or DECLINE. *)
Lemma raising_run (e : exn) :
  returned (investigate_async rt now log tx replies) = Raise e ->
  exists st fi v,
    last (path (investigate_async rt now log tx replies))
    = Some (N_finalize, st)
    /\ st_fraud_investigation st = Some fi
    /\ fi !! "recommendation" = Some v
    /\ (is_str "APPROVE" v || is_str "DECLINE" v) = true.
Proof.
  intros Hr.
  destruct (analyze_risk rt tx None (risk_reply replies)) as [ra|e'] eqn:Hra.
  - destruct (escalates rt tx) eqn:Hesc.
    + destruct (run_escalated rt replies now log tx ra Hra Hesc)
        as (reason & msg & fi & m2 & e2 & v & cc & m3 & e3 & w & H).
      cbv zeta in H.
      destruct H
        as (_ & _ & _ & _ & _ & Hv & _ & _ & _ & Hpath & _ & Hret & _).
      rewrite Hpath. eexists _, fi, v.
      split; [reflexivity|]. split; [reflexivity|]. split; [exact Hv|].
      destruct (is_str "APPROVE" v) eqn:Ha; [reflexivity|].
      destruct (is_str "DECLINE" v) eqn:Hd; [reflexivity|].
      destruct (analyze_risk_inv rt _ _ _ Hra) as (_ & _ & _ & _ & Hs & _).
      destruct (build_decision_reason_review rt v
                  (<["escalated" := VBool true]>
                     (<["routing_reason" := VStr reason]> ra))
                  (heuristic_score rt tx) (Some fi) (Some cc) Ha Hd
                  ltac:(dict_lookup; exact Hs))
        as (rationale & Hdec).
      rewrite Hdec, Hr in Hret. discriminate Hret.
    + destruct (run_skipped rt replies now log tx ra Hra Hesc)
        as (reason & msg & H).
      cbv zeta in H. destruct H as (_ & _ & _ & Hret & _).
      rewrite Hr in Hret. discriminate Hret.
  - destruct (run_unassessed rt replies now log tx e' Hra)
      as (_ & _ & Hret & _).
    rewrite Hr in Hret. discriminate Hret.
Qed.

End RunResult.

(** C5, as claimed, fails: the capability answers the investigator
    with [{"recommendation": "BLOCK"}] and the run is returned completed
    with the decision BLOCK, which is none of APPROVE, DECLINE, REVIEW. *)
Lemma decision_outside_documented_set :
  exists r,
    returned (investigate_async sample_runtime "2026-01-11T02:00:05" []
                tx_a investigator_says_block) = Ok r
    /\ status r = "completed"
    /\ final_decision r = VStr "BLOCK"
    /\ ~ valid_decision (final_decision r).
Proof.
  pose (r := value_of no_run
               (returned (investigate_async sample_runtime
                            "2026-01-11T02:00:05" [] tx_a
                            investigator_says_block))).
  assert (Hd : final_decision r = VStr "BLOCK")
    by (vm_cast_no_check (eq_refl (VStr "BLOCK"))).
  exists r. split; [vm_cast_no_check (eq_refl (Ok r))|].
  split; [vm_cast_no_check (eq_refl "completed")|].
  split; [exact Hd|].
  rewrite Hd. intros [H|[H|H]]; discriminate H.
Qed.

(** C5, amended: every run ends, with a returned run or with an
    exception.  A returned run has status completed, and its decision is
    the recommendation of its finding as the capability or the fallback gave
    it when there is a finding, APPROVE when there is an assessment and no
    finding, REVIEW when there is neither.  An exception leaves the
    workflow only from Finalizing, and only on a finding that recommends
    APPROVE or DECLINE. *)
Theorem run_result_decision (rt : PyRuntime) (replies : Replies)
    (now : string) (log : list WorkflowRun) (tx : Transaction) :
  let inv := investigate_async rt now log tx replies in
  (forall r, returned inv = Ok r ->
     status r = "completed"
     /\ match fraud_investigation r with
        | Some fi =>
            exists v, fi !! "recommendation" = Some v /\ final_decision r = v
        | None =>
            match risk_analysis r with
            | Some _ => final_decision r = VStr "APPROVE"
            | None => final_decision r = VStr "REVIEW"
            end
        end)
  /\ (forall e, returned inv = Raise e ->
        exists st fi v,
          last (path inv) = Some (N_finalize, st)
          /\ st_fraud_investigation st = Some fi
          /\ fi !! "recommendation" = Some v
          /\ (is_str "APPROVE" v || is_str "DECLINE" v) = true).
Proof.
  cbv zeta. split.
  - intros r. apply returned_run_decision.
  - intros e. apply raising_run.
Qed.

Lemma run_result_decision_witness :
  exists r,
    returned (investigate_async sample_runtime "2026-01-11T02:00:05" []
                tx_a investigator_says_block) = Ok r
    /\ status r = "completed".
Proof.
  pose (r := value_of no_run
               (returned (investigate_async sample_runtime
                            "2026-01-11T02:00:05" [] tx_a
                            investigator_says_block))).
  assert (Hr : returned (investigate_async sample_runtime
                           "2026-01-11T02:00:05" [] tx_a
                           investigator_says_block) = Ok r)
    by (vm_cast_no_check (eq_refl (Ok r))).
  exists r. split; [exact Hr|].
  exact (proj1 (proj1 (run_result_decision sample_runtime
                         investigator_says_block "2026-01-11T02:00:05" []
                         tx_a) r Hr)).
Defined.

(** ** The compliance review *)

Section ComplianceFacts.

Variable rt : PyRuntime.

Lemma apply_ctr_rule_flags (tx : Transaction) (d d' : dict) :
  apply_ctr_rule tx d = Ok d' ->
  d' !! "ctr_required"
  = (if (10000 <? amount tx)%float then Some (VBool true)
     else d !! "ctr_required")
  /\ d' !! "sar_required" = d !! "sar_required".
Proof.
  unfold apply_ctr_rule.
  destruct (10000 <? amount tx)%float.
  - destruct (py_in "ctr_required"
                (get (<["ctr_required" := VBool true]> d)
                   "regulatory_actions" (VList []))) as [listed|e];
      cbn [bind]; [|discriminate].
    destruct listed; cbn [negb].
    + intros [= <-]. split; dict_lookup; reflexivity.
    + destruct (<["ctr_required" := VBool true]> d !! "regulatory_actions")
        as [[| | | | |l|]|]; try discriminate;
        intros [= <-]; split; dict_lookup; reflexivity.
  - intros [= <-]. split; reflexivity.
Qed.

Lemma apply_sar_rule_flags (tx : Transaction) (fi d : dict) :
  apply_sar_rule rt tx fi d !! "sar_required"
  = (if sar_rule_fires tx fi then Some (VBool true) else d !! "sar_required")
  /\ apply_sar_rule rt tx fi d !! "ctr_required" = d !! "ctr_required".
Proof.
  unfold apply_sar_rule.
  destruct (sar_rule_fires tx fi); split; dict_lookup; reflexivity.
Qed.

(** The two flags of a returned outcome: true where the rule fires, the
    capability's own entry otherwise, false when it gave none. *)
Lemma check_compliance_flags (tx : Transaction) (fi : dict)
    (reply : outcome string) (out : dict) :
  check_compliance rt tx fi reply = Ok out ->
  exists response d,
    reply = Ok response
    /\ _parse_json_response rt response = VDict d
    /\ out !! "ctr_required"
       = Some (if (10000 <? amount tx)%float then VBool true
               else get d "ctr_required" (VBool false))
    /\ out !! "sar_required"
       = Some (if sar_rule_fires tx fi then VBool true
               else get d "sar_required" (VBool false)).
Proof.
  unfold check_compliance.
  destruct reply as [response|e]; cbn [bind]; [|discriminate].
  destruct (_parse_json_response rt response) as [| | | | | |d] eqn:Hp;
    try (destruct (_ || _); discriminate).
  destruct (apply_ctr_rule tx d) as [d'|e] eqn:Hctr; cbn [bind];
    [|discriminate].
  destruct (apply_ctr_rule_flags _ _ _ Hctr) as [Hc Hs].
  destruct (apply_sar_rule_flags tx fi d') as [Hs' Hc'].
  match goal with
  | |- bind ?summary _ = _ -> _ =>
      destruct summary as [text|e]; cbn [bind]; [|discriminate]
  end.
  intros [= <-]. exists response, d.
  split; [reflexivity|]. split; [exact Hp|].
  split; dict_lookup.
  - rewrite Hc', Hc. unfold get.
    destruct (10000 <? amount tx)%float; reflexivity.
  - rewrite Hs', Hs. unfold get.
    destruct (sar_rule_fires tx fi); reflexivity.
Qed.

Lemma sar_rule_fires_iff (tx : Transaction) (fi : dict) :
  sar_rule_fires tx fi = true <->
  (5000 <? amount tx)%float = true
  /\ (fi !! "fraud_likelihood" = Some (VStr "Medium")
      \/ fi !! "fraud_likelihood" = Some (VStr "High")).
Proof.
  unfold sar_rule_fires, get. cbn [existsb].
  rewrite andb_true_iff, !orb_true_iff.
  split.
  - intros [Ha Hl]. split; [exact Ha|].
    destruct (fi !! "fraud_likelihood") as [[| | | |t| |]|];
      cbn [default from_option id is_str] in Hl;
      try (destruct Hl as [Hl|[Hl|Hl]]; discriminate Hl).
    destruct Hl as [Hl|[Hl|Hl]]; try discriminate Hl;
      apply String.eqb_eq in Hl; subst t; [left|right]; reflexivity.
  - intros [Ha [Hl|Hl]]; (split; [exact Ha|]); rewrite Hl;
      cbn [default from_option id is_str]; [left|right; left]; reflexivity.
Qed.

Lemma generate_compliance_summary_returns (result : dict) (tx : Transaction)
    (fi : dict) (n m : nat) :
  py_len (get result "aml_violations" (VList [])) = Ok n ->
  py_len (get result "kyc_flags" (VList [])) = Ok m ->
  returns (_generate_compliance_summary rt result tx fi).
Proof.
  intros Hn Hm. unfold _generate_compliance_summary.
  rewrite Hn, Hm. cbn [bind]. eexists. reflexivity.
Qed.

(** The review returns on every answer that parses to a dictionary
    without action, violation or flag lists of its own, as the degraded
    payload is. *)
Lemma check_compliance_returns (tx : Transaction) (fi : dict)
    (response : string) (d : dict) :
  _parse_json_response rt response = VDict d ->
  d !! "regulatory_actions" = None ->
  d !! "aml_violations" = None ->
  d !! "kyc_flags" = None ->
  returns (check_compliance rt tx fi (Ok response)).
Proof.
  intros Hp Hr Ha Hk.
  unfold check_compliance. cbn [bind]. rewrite Hp.
  assert (Hctr : exists d', apply_ctr_rule tx d = Ok d'
                            /\ d' !! "aml_violations" = None
                            /\ d' !! "kyc_flags" = None).
  { unfold apply_ctr_rule.
    destruct (10000 <? amount tx)%float.
    - unfold get. rewrite lookup_insert_ne by discriminate. rewrite Hr.
      cbn [default from_option id py_in existsb bind negb].
      eexists. split; [reflexivity|]. split; dict_lookup; assumption.
    - exists d. split; [reflexivity|]. split; assumption. }
  destruct Hctr as (d' & -> & Ha' & Hk'). cbn [bind].
  assert (Hsar : apply_sar_rule rt tx fi d' !! "aml_violations" = None
                 /\ apply_sar_rule rt tx fi d' !! "kyc_flags" = None).
  { unfold apply_sar_rule.
    destruct (sar_rule_fires tx fi); split; dict_lookup; assumption. }
  destruct Hsar as [Ha'' Hk''].
  match goal with
  | |- returns (bind (_generate_compliance_summary _ ?result _ _) _) =>
      destruct (generate_compliance_summary_returns result tx fi 0 0)
        as [text ->]
  end.
  - unfold get. dict_lookup. rewrite Ha''. reflexivity.
  - unfold get. dict_lookup. rewrite Hk''. reflexivity.
  - cbn [bind]. eexists. reflexivity.
Qed.

Lemma degraded_lookup (response e k : string) :
  k <> "raw_response" -> k <> "parse_error" ->
  degraded response e !! k = None.
Proof.
  intros H1 H2. unfold degraded.
  rewrite lookup_insert_ne by congruence.
  rewrite lookup_insert_ne by congruence.
  apply lookup_empty.
Qed.

End ComplianceFacts.

(** X18: in every outcome that [check_compliance] itself returns,
    [ctr_required] is true whenever the amount is greater than 10000, and
    [sar_required] is true whenever the amount is greater than 5000 and
    the fraud likelihood of the finding is Medium or High; and it does
    return an outcome on every answer that is not JSON. *)
Theorem statutory_rules (rt : PyRuntime) (tx : Transaction) (fi : dict) :
  (forall reply out,
     check_compliance rt tx fi reply = Ok out ->
     ((10000 <? amount tx)%float = true ->
      out !! "ctr_required" = Some (VBool true))
     /\ ((5000 <? amount tx)%float = true ->
         fi !! "fraud_likelihood" = Some (VStr "Medium")
         \/ fi !! "fraud_likelihood" = Some (VStr "High") ->
         out !! "sar_required" = Some (VBool true)))
  /\ (forall response e1 e2,
        json_loads rt response = JSONDecodeError e1 ->
        json_loads rt (json_candidate response) = JSONDecodeError e2 ->
        returns (check_compliance rt tx fi (Ok response))).
Proof.
  split.
  - intros reply out Hout.
    destruct (check_compliance_flags rt _ _ _ _ Hout)
      as (response & d & _ & _ & Hctr & Hsar).
    split.
    + intros Ha. rewrite Hctr, Ha. reflexivity.
    + intros Ha Hl.
      assert (Hf : sar_rule_fires tx fi = true)
        by (apply sar_rule_fires_iff; split; assumption).
      rewrite Hsar, Hf. reflexivity.
  - intros response e1 e2 H1 H2.
    apply (check_compliance_returns rt tx fi response (degraded response e2)).
    + apply (parse_degraded rt _ _ _ H1 H2).
    + apply degraded_lookup; discriminate.
    + apply degraded_lookup; discriminate.
    + apply degraded_lookup; discriminate.
Qed.

Lemma statutory_rules_witness :
  exists out,
    check_compliance sample_runtime tx_c finding_high (Ok "not json") = Ok out
    /\ out !! "ctr_required" = Some (VBool true)
    /\ out !! "sar_required" = Some (VBool true).
Proof.
  destruct (statutory_rules sample_runtime tx_c finding_high) as [Hflags Hret].
  destruct (Hret "not json" _ _ eq_refl eq_refl) as [out Hout].
  exists out. split; [exact Hout|].
  destruct (Hflags _ _ Hout) as [Hctr Hsar].
  split.
  - apply Hctr. reflexivity.
  - apply Hsar; [reflexivity|]. right. reflexivity.
Defined.

(** C4, evaluated on the code.  When the capability answers the reviewer
    with an object whose [regulatory_actions] is null and the amount is
    over 10000, the review raises at the membership test of the CTR rule
    and returns no outcome, whatever the finding; the Reviewing node then
    records its error outcome, in which [sar_required] is false and
    [ctr_required] is missing. *)
Theorem null_actions_defeat_the_rules (rt : PyRuntime) (tx : Transaction)
    (response : string) (d : dict) :
  _parse_json_response rt response = VDict d ->
  d !! "regulatory_actions" = Some VNone ->
  (10000 <? amount tx)%float = true ->
  (forall fi, exists msg,
      check_compliance rt tx fi (Ok response) = Raise (TypeError msg))
  /\ forall st,
       st_transaction st = tx ->
       exists e,
         _compliance_check_node rt st (Ok response)
         = ([agent_thinking "Compliance Officer"
               "Checking regulatory requirements..."],
            [set_compliance_check (compliance_error_outcome e);
             set_steps (list_append (st_steps st)
                          ("Compliance Officer: Error - " +:+ str_exn e))])
         /\ compliance_error_outcome e !! "ctr_required" = None
         /\ compliance_error_outcome e !! "sar_required" = Some (VBool false).
Proof.
  intros Hp Hd Hamount.
  assert (Hraise : forall fi, exists msg,
             check_compliance rt tx fi (Ok response) = Raise (TypeError msg)).
  { intros fi. unfold check_compliance. cbn [bind]. rewrite Hp.
    unfold apply_ctr_rule. rewrite Hamount. unfold get.
    rewrite lookup_insert_ne by discriminate. rewrite Hd.
    cbn [default from_option id py_in bind]. eexists. reflexivity. }
  split; [exact Hraise|].
  intros st Htx.
  unfold _compliance_check_node, compliance_check_try. rewrite Htx.
  match goal with
  | |- context [check_compliance rt tx ?fi (Ok response)] =>
      destruct (Hraise fi) as [msg ->]
  end.
  cbn [bind]. eexists. split; [reflexivity|].
  unfold compliance_error_outcome. split; dict_lookup; reflexivity.
Qed.

Lemma null_actions_defeat_the_rules_witness :
  exists msg,
    check_compliance review_runtime tx_c finding_high (Ok json_null_actions)
    = Raise (TypeError msg).
Proof.
  assert (Hp : _parse_json_response review_runtime json_null_actions
               = VDict (<["regulatory_actions" := VNone]> ∅))
    by (vm_cast_no_check
          (eq_refl (VDict (<["regulatory_actions" := VNone]> ∅)))).
  exact (proj1 (null_actions_defeat_the_rules review_runtime tx_c
                  json_null_actions _ Hp (lookup_insert_eq _ _ _) eq_refl)
           finding_high).
Defined.

(** The run of such a review: an amount of 12000 and a finding of High
    likelihood, and the run is returned with a compliance outcome that
    requires neither filing. *)
Lemma null_actions_run :
  exists r fi cc,
    returned (investigate_async review_runtime "2026-01-11T02:00:05" []
                tx_f reviewer_hears_null_actions) = Ok r
    /\ status r = "completed"
    /\ fraud_investigation r = Some fi
    /\ fi !! "fraud_likelihood" = Some (VStr "High")
    /\ compliance_check r = Some cc
    /\ cc !! "ctr_required" = None
    /\ cc !! "sar_required" = Some (VBool false).
Proof.
  pose (r := value_of no_run
               (returned (investigate_async review_runtime
                            "2026-01-11T02:00:05" [] tx_f
                            reviewer_hears_null_actions))).
  pose (fi := default ∅ (fraud_investigation r)).
  pose (cc := default ∅ (compliance_check r)).
  exists r, fi, cc.
  split; [vm_cast_no_check (eq_refl (Ok r))|].
  split; [vm_cast_no_check (eq_refl "completed")|].
  split; [vm_cast_no_check (eq_refl (Some fi))|].
  split; [vm_cast_no_check (eq_refl (Some (VStr "High")))|].
  split; [vm_cast_no_check (eq_refl (Some cc))|].
  split; [vm_cast_no_check (eq_refl (@None value))|].
  vm_cast_no_check (eq_refl (Some (VBool false))).
Qed.




(** ** Answers that are not JSON *)

Section Unparsable.

Variable rt : PyRuntime.
Variables response e1 e2 : string.
Hypothesis Hbare : json_loads rt response = JSONDecodeError e1.
Hypothesis Hcandidate :
  json_loads rt (json_candidate response) = JSONDecodeError e2.

Lemma analyze_risk_unparsable (tx : Transaction) :
  exists ra,
    analyze_risk rt tx None (Ok response) = Ok ra
    /\ ra !! "raw_response" = Some (VStr response)
    /\ ra !! "parse_error" = Some (VStr e2)
    /\ ra !! "risk_score" = Some (VFloat (heuristic_score rt tx))
    /\ ra !! "risk_level"
       = Some (VStr (_score_to_level (heuristic_score rt tx)))
    /\ ra !! "risk_factors" = Some (VList [])
    /\ ra !! "monitoring_actions" = Some (VList [])
    /\ ra !! "prevention_strategies" = Some (VList []).
Proof.
  unfold analyze_risk, heuristic_score.
  destruct (_calculate_heuristic_risk rt tx) as [s b]. cbn [fst snd bind].
  rewrite (parse_degraded rt response e1 e2 Hbare Hcandidate).
  eexists. split; [reflexivity|]. unfold degraded.
  repeat split; dict_lookup; reflexivity.
Qed.

Lemma check_compliance_unparsable (tx : Transaction) (fi : dict) :
  exists out,
    check_compliance rt tx fi (Ok response) = Ok out
    /\ out !! "raw_response" = Some (VStr response)
    /\ out !! "parse_error" = Some (VStr e2)
    /\ out !! "sar_required" = Some (VBool (sar_rule_fires tx fi))
    /\ out !! "ctr_required" = Some (VBool (10000 <? amount tx)%float)
    /\ out !! "aml_violations" = Some (VList [])
    /\ out !! "kyc_flags" = Some (VList [])
    /\ out !! "compliance_notes" = Some (VStr "")
    /\ out !! "risk_rating" = Some (VStr "Low").
Proof.
  unfold check_compliance. cbn [bind].
  rewrite (parse_degraded rt response e1 e2 Hbare Hcandidate).
  unfold apply_ctr_rule, apply_sar_rule, get, degraded.
  destruct (10000 <? amount tx)%float;
    [dict_lookup; cbn [default from_option id py_in existsb negb bind]|];
    cbn [bind]; destruct (sar_rule_fires tx fi);
    (match goal with
     | |- context [bind (_generate_compliance_summary _ ?result _ _) _] =>
         destruct (generate_compliance_summary_returns rt result tx fi 0 0)
           as [text ->];
         [unfold get; dict_lookup; reflexivity
         |unfold get; dict_lookup; reflexivity
         |]
     end);
    cbn [bind]; (eexists; split; [reflexivity|]);
    repeat split; dict_lookup; reflexivity.
Qed.

End Unparsable.

(** C8: the parsing step takes the capability's text as bare JSON,
    as JSON inside a [```json] fence and as JSON inside a plain fence, and
    turns every other text into the degraded payload that carries the raw
    text and the decoder's message; it is a total function, so it raises
    nothing.  On such a text each component returns its outcome with the
    payload's two entries and its required fields at their defaults. *)
Theorem parsing_is_tolerant (rt : PyRuntime) :
  (forall response v,
     json_loads rt response = Decoded v ->
     _parse_json_response rt response = v)
  /\ (forall pre body post e v,
        backtick_free pre = true ->
        backtick_free body = true ->
        backtick_free post = true ->
        json_loads rt (pre +:+ fence_json +:+ body +:+ fence +:+ post)
        = JSONDecodeError e ->
        json_loads rt (strip body) = Decoded v ->
        _parse_json_response rt
          (pre +:+ fence_json +:+ body +:+ fence +:+ post) = v)
  /\ (forall pre body post e v,
        backtick_free pre = true ->
        backtick_free body = true ->
        contains fence_json (pre +:+ fence +:+ body +:+ fence +:+ post)
        = false ->
        json_loads rt (pre +:+ fence +:+ body +:+ fence +:+ post)
        = JSONDecodeError e ->
        json_loads rt (strip body) = Decoded v ->
        _parse_json_response rt (pre +:+ fence +:+ body +:+ fence +:+ post)
        = v)
  /\ (forall response e1 e2,
        json_loads rt response = JSONDecodeError e1 ->
        json_loads rt (json_candidate response) = JSONDecodeError e2 ->
        _parse_json_response rt response = VDict (degraded response e2)
        /\ degraded response e2 !! "raw_response" = Some (VStr response)
        /\ degraded response e2 !! "parse_error" = Some (VStr e2)
        /\ (forall tx, exists ra,
              analyze_risk rt tx None (Ok response) = Ok ra
              /\ ra !! "raw_response" = Some (VStr response)
              /\ ra !! "parse_error" = Some (VStr e2)
              /\ ra !! "risk_score" = Some (VFloat (heuristic_score rt tx))
              /\ ra !! "risk_level"
                 = Some (VStr (_score_to_level (heuristic_score rt tx)))
              /\ ra !! "risk_factors" = Some (VList [])
              /\ ra !! "monitoring_actions" = Some (VList [])
              /\ ra !! "prevention_strategies" = Some (VList []))
        /\ (forall tx s patterns, exists fi,
              investigate_transaction rt tx (VFloat s)
                (VList (VStr <$> patterns)) (Ok response) = Ok fi
              /\ fi !! "raw_response" = Some (VStr response)
              /\ fi !! "parse_error" = Some (VStr e2)
              /\ documented_fallback response fi)
        /\ (forall tx fi, exists out,
              check_compliance rt tx fi (Ok response) = Ok out
              /\ out !! "raw_response" = Some (VStr response)
              /\ out !! "parse_error" = Some (VStr e2)
              /\ out !! "sar_required" = Some (VBool (sar_rule_fires tx fi))
              /\ out !! "ctr_required"
                 = Some (VBool (10000 <? amount tx)%float)
              /\ out !! "aml_violations" = Some (VList [])
              /\ out !! "kyc_flags" = Some (VList [])
              /\ out !! "compliance_notes" = Some (VStr "")
              /\ out !! "risk_rating" = Some (VStr "Low"))).
Proof.
  split; [|split; [|split]].
  - intros response v. apply parse_bare.
  - intros pre body post e v Hpre Hbody Hpost Hwhole Hinner.
    apply (parse_candidate rt _ e v Hwhole).
    rewrite json_candidate_fence_json by assumption. exact Hinner.
  - intros pre body post e v Hpre Hbody Hplain Hwhole Hinner.
    apply (parse_candidate rt _ e v Hwhole).
    rewrite json_candidate_fence by assumption. exact Hinner.
  - intros response e1 e2 H1 H2.
    split; [apply (parse_degraded rt _ _ _ H1 H2)|].
    split; [unfold degraded; dict_lookup; reflexivity|].
    split; [unfold degraded; dict_lookup; reflexivity|].
    split; [|split].
    + intros tx. apply (analyze_risk_unparsable rt response e1 e2 H1 H2).
    + intros tx s patterns. exists (parse_failure_finding response e2).
      split; [apply (investigate_unparsable rt _ _ _ _ e1 e2 H1 H2)|].
      unfold documented_fallback, parse_failure_finding, degraded.
      repeat split; dict_lookup; reflexivity.
    + intros tx fi.
      apply (check_compliance_unparsable rt response e1 e2 H1 H2).
Qed.

Lemma parsing_is_tolerant_witness :
  _parse_json_response sample_runtime
    ("Here is my analysis: " +:+ fence_json +:+ " {} " +:+ fence +:+ " Done.")
  = VDict ∅.
Proof.
  apply (proj1 (proj2 (parsing_is_tolerant sample_runtime))
           "Here is my analysis: " " {} " " Done."
           "Expecting value: line 1 column 1 (char 0)");
    reflexivity.
Defined.

(** ** The order of events *)

Section EventOrder.

Variable rt : PyRuntime.
Variable replies : Replies.
Variable now : string.
Variable log : list WorkflowRun.
Variable tx : Transaction.

Lemma stage_events_thinking (agent message : string) :
  stage_events agent [agent_thinking agent message].
Proof. right. exists message. left. reflexivity. Qed.

Lemma stage_events_result (agent message : string) (result : dict) :
  stage_events agent [agent_thinking agent message; agent_result agent result].
Proof. right. exists message. right. exists result. reflexivity. Qed.

Lemma stage_events_either (agent message : string) (result : dict)
    (evs : list event) :
  evs = [] \/ evs = [agent_result agent result] ->
  stage_events agent (agent_thinking agent message :: evs).
Proof.
  intros [->| ->]; [apply stage_events_thinking|apply stage_events_result].
Qed.

Lemma stage_steps_one (agent entry : string) :
  String.prefix (agent +:+ ": ") entry = true ->
  stage_steps agent [entry].
Proof. intros H. right. exists entry. split; [reflexivity|exact H]. Qed.

(** C9: the events of every run are [investigation_start], then the
    assessor's [agent_thinking] and [agent_result], then, only in an
    escalated run, the investigator's and after them the reviewer's, then
    one [investigation_complete] that carries the returned run; the step
    log of the returned run has its entries in the same order of stages and
    ends with the decision.  An agent that failed has no [agent_result],
    and the terminal event is there exactly when the workflow returns. *)
Theorem events_in_stage_order :
  let inv := investigate_async rt now log tx replies in
  exists assessor investigator reviewer,
    events inv
    = (investigation_start (transaction_id tx)
       :: assessor ++ investigator ++ reviewer
       ++ match returned inv with
          | Ok r => [investigation_complete r]
          | Raise _ => []
          end)%list
    /\ assessor <> []
    /\ stage_events "Risk Analyst" assessor
    /\ stage_events "Fraud Investigator" investigator
    /\ stage_events "Compliance Officer" reviewer
    /\ (investigator <> [] \/ reviewer <> [] -> escalates rt tx = true)
    /\ (forall ra,
          analyze_risk rt tx None (risk_reply replies) = Ok ra ->
          escalates rt tx = true ->
          investigator <> [] /\ reviewer <> [])
    /\ (forall r,
          returned inv = Ok r ->
          investigation_log inv = list_append log r
          /\ exists assessed investigated reviewed decision,
               steps r
               = (assessed ++ investigated ++ reviewed
                  ++ ["Final Decision: " +:+ decision])%list
               /\ stage_steps "Risk Analyst" assessed
               /\ stage_steps "Fraud Investigator" investigated
               /\ stage_steps "Compliance Officer" reviewed
               /\ (investigated <> [] \/ reviewed <> [] ->
                   investigator <> [] /\ reviewer <> [])).
Proof.
  cbv zeta.
  destruct (analyze_risk rt tx None (risk_reply replies)) as [ra|e] eqn:Hra.
  - destruct (escalates rt tx) eqn:Hesc.
    + destruct (run_escalated rt replies now log tx ra Hra Hesc)
        as (reason & msg & fi & m2 & e2 & v & cc & m3 & e3 & w & H).
      cbv zeta in H.
      destruct H as (Hp1 & Hp2 & Hp3 & He2 & He3 & _ & _ & _ & _ & _
                     & Hev & Hret & Hlog).
      rewrite Hev, Hret, Hlog.
      eexists [agent_thinking "Risk Analyst" _; agent_result "Risk Analyst" _],
        (agent_thinking "Fraud Investigator" _ :: e2),
        (agent_thinking "Compliance Officer" _ :: e3).
      split.
      { match goal with
        | |- context [bind ?decided _] => destruct decided
        end; cbn [bind]; rewrite <- !app_comm_cons; rewrite <- ?app_assoc;
          reflexivity. }
      split; [discriminate|].
      split; [apply stage_events_result|].
      split; [apply (stage_events_either _ _ fi); exact He2|].
      split; [apply (stage_events_either _ _ cc); exact He3|].
      split; [reflexivity|].
      split; [intros _ _ _; split; discriminate|].
      intros r.
      match goal with
      | |- context [bind ?decided _] => destruct decided as [rationale|e]
      end; cbn [bind]; [|discriminate].
      intros [= <-]. split; [reflexivity|]. cbn [steps].
      exists [msg], [m2], [m3], (py_str rt v).
      split; [reflexivity|].
      split; [apply stage_steps_one; exact Hp1|].
      split; [apply stage_steps_one; exact Hp2|].
      split; [apply stage_steps_one; exact Hp3|].
      intros _. split; discriminate.
    + destruct (run_skipped rt replies now log tx ra Hra Hesc)
        as (reason & msg & H).
      cbv zeta in H. destruct H as (Hp1 & Hev & _ & Hret & Hlog).
      rewrite Hev, Hret, Hlog.
      eexists [agent_thinking "Risk Analyst" _; agent_result "Risk Analyst" _],
        [], [].
      split; [reflexivity|].
      split; [discriminate|].
      split; [apply stage_events_result|].
      split; [left; reflexivity|].
      split; [left; reflexivity|].
      split; [intros [H|H]; contradiction H; reflexivity|].
      split; [intros ra0 _ H; discriminate H|].
      intros r [= <-]. split; [reflexivity|]. cbn [steps].
      exists [msg], [], [], "APPROVE".
      split; [reflexivity|].
      split; [apply stage_steps_one; exact Hp1|].
      split; [left; reflexivity|].
      split; [left; reflexivity|].
      intros [H|H]; contradiction H; reflexivity.
  - destruct (run_unassessed rt replies now log tx e Hra)
      as (Hev & _ & Hret & Hlog).
    rewrite Hev, Hret, Hlog.
    eexists [agent_thinking "Risk Analyst" _], [], [].
    split; [reflexivity|].
    split; [discriminate|].
    split; [apply stage_events_thinking|].
    split; [left; reflexivity|].
    split; [left; reflexivity|].
    split; [intros [H|H]; contradiction H; reflexivity|].
    split; [intros ra0 H; discriminate H|].
    intros r [= <-]. split; [reflexivity|]. cbn [steps].
    exists [], [], [], "REVIEW".
    split; [reflexivity|].
    split; [left; reflexivity|].
    split; [left; reflexivity|].
    split; [left; reflexivity|].
    intros [H|H]; contradiction H; reflexivity.
Qed.

End EventOrder.

(** The run in which Finalizing raises: the capability answers the
    investigator with [{"recommendation": "DECLINE", "confidence": "high"}],
    the rationale cannot format the confidence as a percentage, and the
    workflow ends with that exception, no [investigation_complete] and
    nothing logged. *)
Lemma finalizing_failure_emits_no_completion :
  returned (investigate_async sample_runtime "2026-01-11T02:00:05" []
              tx_a investigator_says_decline)
  = Raise (ValueError "Unknown format code for object of type 'str'")
  /\ filter is_complete
       (events (investigate_async sample_runtime "2026-01-11T02:00:05" []
                  tx_a investigator_says_decline)) = []
  /\ length (events (investigate_async sample_runtime "2026-01-11T02:00:05"
                       [] tx_a investigator_says_decline)) = 7
  /\ investigation_log
       (investigate_async sample_runtime "2026-01-11T02:00:05" []
          tx_a investigator_says_decline) = [].
Proof.
  split; [vm_cast_no_check
            (eq_refl (Raise (A := WorkflowRun)
                        (ValueError
                           "Unknown format code for object of type 'str'")))|].
  split; [vm_cast_no_check (eq_refl (@nil event))|].
  split; [vm_cast_no_check (eq_refl 7)|].
  vm_cast_no_check (eq_refl (@nil WorkflowRun)).
Qed.

(** * Further properties of the code *)

(** ** The heuristic scorer and the levels *)

(** X1: the heuristic score of every transaction lies between 0 and
    1, it is the [total_score] of the breakdown, at most five factors
    contribute, and the score is 0 exactly when no factor does. *)
Theorem heuristic_score_range (rt : PyRuntime) (tx : Transaction) :
  (0 <=? heuristic_score rt tx)%float = true
  /\ (heuristic_score rt tx <=? 1)%float = true
  /\ total_score (snd (_calculate_heuristic_risk rt tx))
     = heuristic_score rt tx
  /\ length (factors (snd (_calculate_heuristic_risk rt tx))) <= 5
  /\ ((heuristic_score rt tx =? 0)%float = true
      <-> factors (snd (_calculate_heuristic_risk rt tx)) = []).
Proof.
  unfold heuristic_score.
  destruct (_calculate_heuristic_risk rt tx) as [s b] eqn:E.
  cbn [fst snd]. unfold _calculate_heuristic_risk in E.
  destruct (amount tx <? 1.0)%float; [|destruct (5000 <? amount tx)%float];
    destruct (int_in (hour tx) unusual_hours);
    destruct (str_in (location tx) suspicious_locations);
    destruct (str_in (merchant_category tx) high_risk_merchants);
    destruct (5 <? default 1%Z (velocity tx))%Z;
    injection E as <- <-;
    (split; [reflexivity|]); (split; [reflexivity|]);
    (split; [reflexivity|]); (split; [apply Nat.leb_le; reflexivity|]);
    (split; [intros H|intros H]);
    first [reflexivity | discriminate H | vm_compute in H; discriminate H].
Qed.

(** Strictly above a threshold is also at or above it. *)
Lemma float_ltb_leb (x y : float) :
  (x <? y)%float = true -> (x <=? y)%float = true.
Proof.
  rewrite ltb_spec, leb_spec. unfold SFltb, SFleb.
  destruct (SFcompare (Prim2SF x) (Prim2SF y)) as [[| |]|];
    intros H; first [reflexivity | discriminate H].
Qed.

(** X2: the level and the branch agree on which side of 0.4 a score
    is, except at 0.4 itself: a score the branch sends to Investigating
    has level Medium, High or Critical, and a score of level Low takes
    the approve path. *)
Theorem escalated_score_is_not_low (ra : dict) (s : float) :
  ra !! "risk_score" = Some (VFloat s) ->
  (_should_investigate (Some ra) = Ok "investigate" ->
   _score_to_level s = "Medium" \/ _score_to_level s = "High"
   \/ _score_to_level s = "Critical")
  /\ (_score_to_level s = "Low" ->
      _should_investigate (Some ra) = Ok "approve").
Proof.
  intros Hs. rewrite (should_investigate_scored ra s Hs).
  unfold _score_to_level.
  destruct (0.4 <? s)%float eqn:Hgt.
  - rewrite (float_ltb_leb _ _ Hgt).
    split.
    + intros _. destruct (0.8 <=? s)%float; [right; right; reflexivity|].
      destruct (0.6 <=? s)%float; [right; left|left]; reflexivity.
    + destruct (0.8 <=? s)%float; [discriminate|].
      destruct (0.6 <=? s)%float; discriminate.
  - split; [discriminate|reflexivity].
Qed.

Lemma escalated_score_is_not_low_witness :
  _score_to_level 0.75 = "Medium" \/ _score_to_level 0.75 = "High"
  \/ _score_to_level 0.75 = "Critical".
Proof.
  apply (proj1 (escalated_score_is_not_low
                  (<["risk_score" := VFloat 0.75]> ∅) 0.75
                  (lookup_insert_eq _ _ _))).
  reflexivity.
Defined.

(** ** The assessment *)

(** X3: whatever object the capability answers, the assessment
    holds the scorer's score (the learned scorer's when it returns one,
    else the heuristic's), the patterns found at that score and the agent
    name, in place of any entry of the answer under these names; the
    level and the three advice lists are the answer's own when it has
    them, and every other entry of the answer is kept. *)
Theorem assessment_keeps_the_score (rt : PyRuntime) (tx : Transaction)
    (gnn : option (outcome float)) (response : string) (d : dict) :
  _parse_json_response rt response = VDict d ->
  let score :=
    match gnn with
    | Some (Ok s) => s
    | _ => heuristic_score rt tx
    end in
  exists ra,
    analyze_risk rt tx gnn (Ok response) = Ok ra
    /\ ra !! "risk_score" = Some (VFloat score)
    /\ ra !! "patterns" = Some (VList (VStr <$> _identify_patterns tx score))
    /\ ra !! "agent" = Some (VStr "Risk Analyst")
    /\ (exists b,
          ra !! "score_breakdown" = Some (breakdown_value b)
          /\ total_score b = score
          /\ ra !! "explanation"
             = Some (VStr (_generate_explanation rt score b
                             (_identify_patterns tx score))))
    /\ ra !! "risk_level"
       = Some (get d "risk_level" (VStr (_score_to_level score)))
    /\ ra !! "risk_factors" = Some (get d "risk_factors" (VList []))
    /\ ra !! "monitoring_actions"
       = Some (get d "monitoring_actions" (VList []))
    /\ ra !! "prevention_strategies"
       = Some (get d "prevention_strategies" (VList []))
    /\ forall k,
         ~ In k ["risk_score"; "patterns"; "score_breakdown"; "risk_level";
                 "risk_factors"; "monitoring_actions";
                 "prevention_strategies"; "agent"; "explanation"] ->
         ra !! k = d !! k.
Proof.
  intros Hp. cbv zeta.
  assert (Htotal : total_score (snd (_calculate_heuristic_risk rt tx))
                   = heuristic_score rt tx)
    by (unfold heuristic_score, _calculate_heuristic_risk; reflexivity).
  unfold analyze_risk, heuristic_score in *.
  destruct gnn as [[s|e]|];
    [|destruct (_calculate_heuristic_risk rt tx) as [s b]..];
    cbn [fst snd bind] in *; rewrite Hp;
    (eexists; split; [reflexivity|]);
    (split; [dict_lookup; reflexivity|]);
    (split; [dict_lookup; reflexivity|]);
    (split; [dict_lookup; reflexivity|]);
    (split;
     [eexists; split; [dict_lookup; reflexivity|];
      split; [|dict_lookup; reflexivity];
      first [reflexivity | exact Htotal]|]);
    (split; [dict_lookup; reflexivity|]);
    (split; [dict_lookup; reflexivity|]);
    (split; [dict_lookup; reflexivity|]);
    (split; [dict_lookup; reflexivity|]);
    intros k Hk;
    repeat first
      [ rewrite lookup_insert_ne
          by (intros E; apply Hk; rewrite <- E; cbn; tauto)
      | rewrite setdefault_lookup_ne
          by (intros E; apply Hk; rewrite <- E; cbn; tauto) ];
    reflexivity.
Qed.

Lemma assessment_keeps_the_score_witness :
  exists ra,
    analyze_risk sample_runtime tx_a (Some (Ok 0.9%float)) (Ok "{}") = Ok ra
    /\ ra !! "risk_score" = Some (VFloat 0.9).
Proof.
  destruct (assessment_keeps_the_score sample_runtime tx_a
              (Some (Ok 0.9%float)) "{}" ∅ eq_refl)
    as (ra & Hra & Hscore & _).
  exists ra. split; [exact Hra|exact Hscore].
Defined.

(** ** The graph *)

Section GraphFacts.

Variable rt : PyRuntime.
Variable replies : Replies.
Variable now : string.
Variable log : list WorkflowRun.
Variable tx : Transaction.

(** X4: every run visits the nodes of one of two paths, each node
    once and Finalizing last: Assessing then Finalizing, or Assessing,
    Investigating, Reviewing then Finalizing; it takes the long one
    exactly when the assessor returns an assessment and the heuristic
    score is above 0.4.  The recursion limit is never reached. *)
Theorem graph_paths :
  let inv := investigate_async rt now log tx replies in
  let escalated :=
    returns (analyze_risk rt tx None (risk_reply replies))
    /\ escalates rt tx = true in
  (map fst (path inv) = [N_analyze_risk; N_finalize] /\ ~ escalated)
  \/ (map fst (path inv)
      = [N_analyze_risk; N_investigate_fraud; N_check_compliance;
         N_finalize]
      /\ escalated).
Proof.
  cbv zeta.
  destruct (analyze_risk rt tx None (risk_reply replies)) as [ra|e] eqn:Hra.
  - destruct (escalates rt tx) eqn:Hesc.
    + right.
      destruct (run_escalated rt replies now log tx ra Hra Hesc)
        as (reason & msg & fi & m2 & e2 & v & cc & m3 & e3 & w & H).
      cbv zeta in H.
      destruct H as (_ & _ & _ & _ & _ & _ & _ & _ & _ & Hpath & _).
      rewrite Hpath. split; [reflexivity|].
      split; [exists ra; reflexivity|reflexivity].
    + left.
      destruct (run_skipped rt replies now log tx ra Hra Hesc)
        as (reason & msg & H).
      cbv zeta in H. destruct H as (_ & _ & Hpath & _).
      split; [exact Hpath|]. intros [_ H]. discriminate H.
  - left.
    destruct (run_unassessed rt replies now log tx e Hra) as (_ & Hpath & _).
    split; [exact Hpath|]. intros [[ra H] _]. discriminate H.
Qed.

(** X5: in a returned run, the assessment says [escalated] exactly
    when the run holds a finding, a run holds a finding exactly when it
    holds a compliance outcome, and a run without an assessment holds
    neither. *)
Theorem escalated_flag_matches_run (r : WorkflowRun) :
  returned (investigate_async rt now log tx replies) = Ok r ->
  match risk_analysis r with
  | Some ra =>
      ra !! "escalated"
      = Some (VBool match fraud_investigation r with
                    | Some _ => true
                    | None => false
                    end)
      /\ (exists reason, ra !! "routing_reason" = Some (VStr reason))
      /\ match fraud_investigation r, compliance_check r with
         | Some _, Some _ | None, None => True
         | _, _ => False
         end
  | None => fraud_investigation r = None /\ compliance_check r = None
  end.
Proof.
  intros Hr.
  destruct (analyze_risk rt tx None (risk_reply replies)) as [ra|e] eqn:Hra.
  - destruct (escalates rt tx) eqn:Hesc.
    + destruct (run_escalated rt replies now log tx ra Hra Hesc)
        as (reason & msg & fi & m2 & e2 & v & cc & m3 & e3 & w & H).
      cbv zeta in H.
      destruct H as (_ & _ & _ & _ & _ & _ & _ & _ & _ & _ & _ & Hret & _).
      rewrite Hr in Hret.
      match type of Hret with
      | _ = bind ?decided _ =>
          destruct decided as [rationale|e]; [|discriminate]
      end.
      cbn [bind] in Hret. injection Hret as ->.
      cbn [risk_analysis fraud_investigation compliance_check].
      split; [dict_lookup; reflexivity|].
      split; [exists reason; dict_lookup; reflexivity|exact I].
    + destruct (run_skipped rt replies now log tx ra Hra Hesc)
        as (reason & msg & H).
      cbv zeta in H. destruct H as (_ & _ & _ & Hret & _).
      rewrite Hr in Hret. injection Hret as ->.
      cbn [risk_analysis fraud_investigation compliance_check].
      split; [dict_lookup; reflexivity|].
      split; [exists reason; dict_lookup; reflexivity|exact I].
  - destruct (run_unassessed rt replies now log tx e Hra)
      as (_ & _ & Hret & _).
    rewrite Hr in Hret. injection Hret as ->.
    split; reflexivity.
Qed.

End GraphFacts.

Lemma escalated_flag_matches_run_witness :
  exists r ra,
    returned (investigate_async sample_runtime "2026-01-11T02:00:05" []
                tx_a investigator_says_block) = Ok r
    /\ risk_analysis r = Some ra
    /\ ra !! "escalated" = Some (VBool true).
Proof.
  pose (r := value_of no_run
               (returned (investigate_async sample_runtime
                            "2026-01-11T02:00:05" [] tx_a
                            investigator_says_block))).
  pose (ra := default ∅ (risk_analysis r)).
  assert (Hr : returned (investigate_async sample_runtime
                           "2026-01-11T02:00:05" [] tx_a
                           investigator_says_block) = Ok r)
    by (vm_cast_no_check (eq_refl (Ok r))).
  assert (Hra : risk_analysis r = Some ra)
    by (vm_cast_no_check (eq_refl (Some ra))).
  assert (Hfi : match fraud_investigation r with
                | Some _ => true
                | None => false
                end = true)
    by (vm_cast_no_check (eq_refl true)).
  pose proof (escalated_flag_matches_run sample_runtime
                investigator_says_block "2026-01-11T02:00:05" [] tx_a r Hr)
    as H.
  rewrite Hra, Hfi in H.
  exists r, ra. split; [exact Hr|]. split; [exact Hra|exact (proj1 H)].
Defined.

(** ** The finding *)

Ltac other_key Hk :=
  repeat first
    [ rewrite lookup_insert_ne
        by (intros E; apply Hk; rewrite <- E; cbn; tauto)
    | rewrite setdefault_lookup_ne
        by (intros E; apply Hk; rewrite <- E; cbn; tauto) ].

Section DecisionReason.

Variable rt : PyRuntime.

(** The rationale is built for every decision when the score and the
    confidence are floats and the indicators a list that starts with
    strings. *)
Lemma build_decision_reason_returns (v : value) (ra fi : dict)
    (cc : option dict) (s c : float) (l : list value) (ss : list string) :
  ra !! "risk_score" = Some (VFloat s) ->
  fi !! "confidence" = Some (VFloat c) ->
  fi !! "fraud_indicators" = Some (VList l) ->
  strings_of (take 2 l) = Some ss ->
  returns (_build_decision_reason rt v (Some ra) (Some fi) cc).
Proof.
  intros Hs Hc Hl Hss. unfold _build_decision_reason.
  cbn [present default from_option id].
  rewrite (truthy_dict ra _ _ Hs), (truthy_dict fi _ _ Hc).
  rewrite (get_some ra _ _ _ Hs), (get_some fi _ _ _ Hc).
  rewrite (get_some fi _ _ _ Hl).
  cbn [format_value bind andb].
  destruct (is_str "APPROVE" v).
  - destruct (is_str "Low" _); cbn [bind]; eexists; reflexivity.
  - destruct (is_str "DECLINE" v); [|cbn [bind]; eexists; reflexivity].
    destruct (truthy (VList l)); [|cbn [bind]; eexists; reflexivity].
    rewrite (index_some fi _ _ Hl). cbn [bind slice2 join_value].
    rewrite Hss. cbn [bind]. eexists. reflexivity.
Qed.

Lemma investigate_transaction_fields (tx : Transaction) (s : float)
    (patterns : list string) (response : string) (d : dict) :
  _parse_json_response rt response = VDict d ->
  exists fi,
    investigate_transaction rt tx (VFloat s) (VList (VStr <$> patterns))
      (Ok response) = Ok fi
    /\ fi !! "fraud_likelihood"
       = Some (get d "fraud_likelihood" (VStr "Unknown"))
    /\ fi !! "recommendation" = Some (get d "recommendation" (VStr "REVIEW"))
    /\ fi !! "fraud_indicators" = Some (get d "fraud_indicators" (VList []))
    /\ fi !! "confidence" = Some (get d "confidence" (VFloat 0.5)).
Proof.
  intros Hp. unfold investigate_transaction.
  rewrite prompt_fields_ok. cbn [bind]. rewrite Hp.
  eexists. split; [reflexivity|].
  repeat split; dict_lookup; reflexivity.
Qed.

End DecisionReason.

(** X6: whatever object the capability answers, the finding holds
    under each required name the answer's own entry, of whatever type,
    and the default only where the answer has none (the explanation
    defaults to the raw answer); the agent name is written over the
    answer's, and every other entry of the answer is kept. *)
Theorem finding_keeps_the_answer (rt : PyRuntime) (tx : Transaction)
    (s : float) (patterns : list string) (response : string) (d : dict) :
  _parse_json_response rt response = VDict d ->
  exists fi,
    investigate_transaction rt tx (VFloat s) (VList (VStr <$> patterns))
      (Ok response) = Ok fi
    /\ fi !! "fraud_likelihood"
       = Some (get d "fraud_likelihood" (VStr "Unknown"))
    /\ fi !! "recommendation" = Some (get d "recommendation" (VStr "REVIEW"))
    /\ fi !! "fraud_indicators" = Some (get d "fraud_indicators" (VList []))
    /\ fi !! "explanation" = Some (get d "explanation" (VStr response))
    /\ fi !! "confidence" = Some (get d "confidence" (VFloat 0.5))
    /\ fi !! "suggested_actions"
       = Some (get d "suggested_actions" (VList []))
    /\ fi !! "agent" = Some (VStr "Fraud Investigator")
    /\ forall k,
         ~ In k ["fraud_likelihood"; "recommendation"; "fraud_indicators";
                 "explanation"; "confidence"; "suggested_actions"; "agent"] ->
         fi !! k = d !! k.
Proof.
  intros Hp. unfold investigate_transaction.
  rewrite prompt_fields_ok. cbn [bind]. rewrite Hp.
  eexists. split; [reflexivity|].
  repeat (split; [dict_lookup; reflexivity|]).
  intros k Hk. other_key Hk. reflexivity.
Qed.

Lemma finding_keeps_the_answer_witness :
  exists fi,
    investigate_transaction sample_runtime tx_a (VFloat 0.75)
      (VList (VStr <$> ["Unusual transaction time"])) (Ok json_block) = Ok fi
    /\ fi !! "recommendation" = Some (VStr "BLOCK")
    /\ fi !! "confidence" = Some (VFloat 0.5).
Proof.
  destruct (finding_keeps_the_answer sample_runtime tx_a 0.75
              ["Unusual transaction time"] json_block
              (<["recommendation" := VStr "BLOCK"]> ∅) eq_refl)
    as (fi & Hfi & _ & Hrec & _ & _ & Hconf & _).
  exists fi. split; [exact Hfi|]. split.
  - rewrite Hrec. unfold get. rewrite lookup_insert_eq. reflexivity.
  - rewrite Hconf. unfold get.
    rewrite lookup_insert_ne by discriminate. reflexivity.
Defined.

(** ** Answers that are JSON and no object *)

(** X7: when the capability's answer is JSON that is not an object
    (a list, a number, a string, null), the assessor raises a TypeError,
    the investigator an AttributeError, the compliance review returns
    nothing either; the Investigating and Reviewing nodes then record
    their error finding and error outcome, and the Assessing node
    records an error and no assessment. *)
Theorem non_object_answer_raises (rt : PyRuntime) (tx : Transaction)
    (response : string) (v : value) :
  json_loads rt response = Decoded v ->
  (forall d, v <> VDict d) ->
  (forall gnn, exists msg,
      analyze_risk rt tx gnn (Ok response) = Raise (TypeError msg))
  /\ (forall s patterns, exists msg,
        investigate_transaction rt tx (VFloat s) (VList (VStr <$> patterns))
          (Ok response) = Raise (AttributeError msg))
  /\ (forall fi, ~ returns (check_compliance rt tx fi (Ok response)))
  /\ (forall st, exists e,
        _risk_analysis_node rt st (Ok response)
        = ([agent_thinking "Risk Analyst" "Analyzing transaction risk..."],
           [set_error (str_exn e); set_status "error"]))
  /\ (forall st, exists e,
        snd (_fraud_investigation_node rt st (Ok response))
        = [set_fraud_investigation (investigation_error_finding e);
           set_steps (list_append (st_steps st)
                        ("Fraud Investigator: Error - " +:+ str_exn e))])
  /\ (forall st, exists e,
        snd (_compliance_check_node rt st (Ok response))
        = [set_compliance_check (compliance_error_outcome e);
           set_steps (list_append (st_steps st)
                        ("Compliance Officer: Error - " +:+ str_exn e))]).
Proof.
  intros Hload Hv.
  assert (Hp : _parse_json_response rt response = v)
    by (apply parse_bare; exact Hload).
  split; [|split; [|split; [|split; [|split]]]].
  - intros gnn. unfold analyze_risk.
    destruct gnn as [[s|e]|];
      [|destruct (_calculate_heuristic_risk rt tx) as [s b]..];
      cbn [bind]; rewrite Hp;
      destruct v as [| | | | | |d]; try (eexists; reflexivity);
      destruct (Hv d eq_refl).
  - intros s patterns. unfold investigate_transaction.
    rewrite prompt_fields_ok. cbn [bind]. rewrite Hp.
    destruct v as [| | | | | |d]; try (eexists; reflexivity).
    destruct (Hv d eq_refl).
  - intros fi [out Hout]. unfold check_compliance in Hout.
    cbn [bind] in Hout. rewrite Hp in Hout.
    destruct v as [| | | | | |d];
      try (destruct (_ || _); discriminate Hout).
    destruct (Hv d eq_refl).
  - intros st.
    assert (H : exists e, analyze_risk rt (st_transaction st) None
                            (Ok response) = Raise e).
    { unfold analyze_risk.
      destruct (_calculate_heuristic_risk rt (st_transaction st)) as [s b].
      cbn [bind]. rewrite Hp.
      destruct v as [| | | | | |d]; try (eexists; reflexivity).
      destruct (Hv d eq_refl). }
    destruct H as [e He]. exists e.
    unfold _risk_analysis_node, risk_analysis_try.
    rewrite He. reflexivity.
  - intros st.
    assert (H : exists e, fraud_investigation_try rt st (Ok response)
                          = Raise e).
    { unfold fraud_investigation_try, investigate_transaction.
      destruct (investigation_prompt_fields rt _ _) as [[]|e];
        cbn [bind]; [|eexists; reflexivity].
      rewrite Hp.
      destruct v as [| | | | | |d]; try (eexists; reflexivity).
      destruct (Hv d eq_refl). }
    destruct H as [e He]. exists e.
    unfold _fraud_investigation_node. rewrite He. reflexivity.
  - intros st.
    assert (H : exists e, compliance_check_try rt st (Ok response)
                          = Raise e).
    { unfold compliance_check_try, check_compliance. cbn [bind].
      rewrite Hp.
      destruct v as [| | | | | |d];
        try (destruct (_ || _); eexists; reflexivity).
      destruct (Hv d eq_refl). }
    destruct H as [e He]. exists e.
    unfold _compliance_check_node. rewrite He. reflexivity.
Qed.

Lemma non_object_answer_raises_witness :
  exists msg,
    investigate_transaction sample_runtime tx_a (VFloat 0.75)
      (VList (VStr <$> ["Unusual transaction time"])) (Ok "[]")
    = Raise (AttributeError msg).
Proof.
  apply (proj1 (proj2 (non_object_answer_raises sample_runtime tx_a "[]"
                         (VList []) eq_refl
                         (fun d H => match H with end)))).
Defined.

(** ** The compliance outcome *)

Section ComplianceOutcome.

Variable rt : PyRuntime.

Lemma apply_sar_rule_other (tx : Transaction) (fi d : dict) (k : string) :
  k <> "sar_required" -> k <> "sar_reason" ->
  apply_sar_rule rt tx fi d !! k = d !! k.
Proof.
  intros H1 H2. unfold apply_sar_rule.
  destruct (sar_rule_fires tx fi); [|reflexivity].
  rewrite setdefault_lookup_ne by congruence.
  rewrite lookup_insert_ne by congruence. reflexivity.
Qed.

Lemma ok_inj {A : Type} (a b : A) : Ok a = Ok b -> a = b.
Proof. intros [= H]. exact H. Qed.

Lemma check_compliance_inv (tx : Transaction) (fi : dict)
    (reply : outcome string) (out : dict) :
  check_compliance rt tx fi reply = Ok out ->
  exists response d d' text,
    reply = Ok response
    /\ _parse_json_response rt response = VDict d
    /\ apply_ctr_rule tx d = Ok d'
    /\ out
       = <["compliance_summary" := VStr text]>
         (<["agent" := VStr compliance_officer_name]>
          (setdefault "risk_rating" (VStr "Low")
           (setdefault "compliance_notes" (VStr "")
            (setdefault "regulatory_actions" (VList [])
             (setdefault "kyc_flags" (VList [])
              (setdefault "aml_violations" (VList [])
               (setdefault "sar_reason" (VStr "")
                (setdefault "ctr_required" (VBool false)
                 (setdefault "sar_required" (VBool false)
                    (apply_sar_rule rt tx fi d')))))))))).
Proof.
  unfold check_compliance.
  destruct reply as [response|e]; cbn [bind]; [|discriminate].
  destruct (_parse_json_response rt response) as [| | | | | |d] eqn:Hp;
    try (destruct (_ || _); discriminate).
  destruct (apply_ctr_rule tx d) as [d'|e] eqn:Hctr; cbn [bind];
    [|discriminate].
  match goal with
  | |- bind ?summary _ = _ -> _ =>
      destruct summary as [text|e]; cbn [bind]; [|discriminate]
  end.
  intros Hout. apply ok_inj in Hout. exists response, d, d', text.
  split; [reflexivity|]. split; [exact Hp|]. split; [exact Hctr|].
  symmetry. exact Hout.
Qed.

(** X8: every outcome the compliance review returns has the two
    flags, the reason, the violation, flag and action entries, the notes
    and the rating, whatever the capability answered; its agent is the
    compliance officer and its summary a text, also when the answer has
    entries of these names. *)
Theorem compliance_outcome_is_complete (tx : Transaction) (fi : dict)
    (reply : outcome string) (out : dict) :
  check_compliance rt tx fi reply = Ok out ->
  Forall (fun k => is_Some (out !! k))
    ["sar_required"; "ctr_required"; "sar_reason"; "aml_violations";
     "kyc_flags"; "regulatory_actions"; "compliance_notes"; "risk_rating"]
  /\ out !! "agent" = Some (VStr "Compliance Officer")
  /\ exists text, out !! "compliance_summary" = Some (VStr text).
Proof.
  intros Hout.
  destruct (check_compliance_inv _ _ _ _ Hout)
    as (response & d & d' & text & _ & _ & _ & ->).
  split; [|split].
  - repeat (apply Forall_cons; split; [dict_lookup; eexists; reflexivity|]).
    apply Forall_nil. exact I.
  - dict_lookup. reflexivity.
  - exists text. dict_lookup. reflexivity.
Qed.

(** X9: when the amount is over 10000, the review appends the CTR
    filing action to the capability's list of regulatory actions unless
    that list holds the text [ctr_required]: also when the list already
    names the action, which is then listed twice.  It starts the list
    when the answer has none, and leaves it as it is when the amount is
    not over 10000. *)
Theorem ctr_action_is_appended (tx : Transaction) (fi : dict)
    (response : string) (d out : dict) :
  _parse_json_response rt response = VDict d ->
  check_compliance rt tx fi (Ok response) = Ok out ->
  ((10000 <? amount tx)%float = true ->
   (forall l,
      d !! "regulatory_actions" = Some (VList l) ->
      existsb (is_str "ctr_required") l = false ->
      out !! "regulatory_actions"
      = Some (VList (l ++ [VStr ctr_action])))
   /\ (d !! "regulatory_actions" = None ->
       out !! "regulatory_actions" = Some (VList [VStr ctr_action])))
  /\ ((10000 <? amount tx)%float = false ->
      out !! "regulatory_actions"
      = Some (get d "regulatory_actions" (VList []))).
Proof.
  intros Hp Hout.
  destruct (check_compliance_inv _ _ _ _ Hout)
    as (response' & d0 & d' & text & [= <-] & Hp' & Hctr & ->).
  rewrite Hp in Hp'. injection Hp' as <-.
  assert (Hout' : forall x,
             d' !! "regulatory_actions" = x ->
             <["compliance_summary" := VStr text]>
               (<["agent" := VStr compliance_officer_name]>
                (setdefault "risk_rating" (VStr "Low")
                 (setdefault "compliance_notes" (VStr "")
                  (setdefault "regulatory_actions" (VList [])
                   (setdefault "kyc_flags" (VList [])
                    (setdefault "aml_violations" (VList [])
                     (setdefault "sar_reason" (VStr "")
                      (setdefault "ctr_required" (VBool false)
                       (setdefault "sar_required" (VBool false)
                          (apply_sar_rule rt tx fi d'))))))))))
             !! "regulatory_actions"
             = Some (default (VList []) x)).
  { intros x <-. dict_lookup.
    rewrite apply_sar_rule_other by discriminate. reflexivity. }
  unfold apply_ctr_rule in Hctr.
  split.
  - intros Ha. rewrite Ha in Hctr. unfold get in Hctr.
    rewrite lookup_insert_ne in Hctr by discriminate.
    split.
    + intros l Hl Hin. rewrite Hl in Hctr.
      cbn [default from_option id py_in bind] in Hctr.
      rewrite Hin in Hctr. cbn [negb] in Hctr.
      injection Hctr as <-.
      rewrite (Hout' (Some (VList (l ++ [VStr ctr_action]))));
        [reflexivity|].
      rewrite lookup_insert_eq. reflexivity.
    + intros Hnone. rewrite Hnone in Hctr.
      cbn [default from_option id py_in bind existsb negb] in Hctr.
      injection Hctr as <-.
      rewrite (Hout' (Some (VList [VStr ctr_action]))); [reflexivity|].
      rewrite lookup_insert_eq. reflexivity.
  - intros Ha. rewrite Ha in Hctr. injection Hctr as <-.
    rewrite (Hout' (d !! "regulatory_actions") eq_refl). reflexivity.
Qed.

End ComplianceOutcome.

Lemma compliance_outcome_is_complete_witness :
  exists out,
    check_compliance sample_runtime tx_c finding_high (Ok "{}") = Ok out
    /\ out !! "agent" = Some (VStr "Compliance Officer").
Proof.
  pose (out := value_of ∅
                 (check_compliance sample_runtime tx_c finding_high
                    (Ok "{}"))).
  assert (Hout : check_compliance sample_runtime tx_c finding_high
                   (Ok "{}") = Ok out)
    by (vm_cast_no_check (eq_refl (Ok out))).
  exists out. split; [exact Hout|].
  exact (proj1 (proj2 (compliance_outcome_is_complete sample_runtime tx_c
                         finding_high (Ok "{}") out Hout))).
Defined.

Lemma ctr_action_is_appended_witness :
  exists out,
    check_compliance sample_runtime tx_c finding_high (Ok "{}") = Ok out
    /\ out !! "regulatory_actions" = Some (VList [VStr ctr_action]).
Proof.
  pose (out := value_of ∅
                 (check_compliance sample_runtime tx_c finding_high
                    (Ok "{}"))).
  assert (Hout : check_compliance sample_runtime tx_c finding_high
                   (Ok "{}") = Ok out)
    by (vm_cast_no_check (eq_refl (Ok out))).
  exists out. split; [exact Hout|].
  apply (proj1 (ctr_action_is_appended sample_runtime tx_c finding_high
                  "{}" ∅ out eq_refl Hout) eq_refl).
  apply lookup_empty.
Defined.

(** ** Runs with a failing reviewer, and runs that return *)


Section EscalatedRuns.

Variable rt : PyRuntime.
Variable replies : Replies.
Variable now : string.
Variable log : list WorkflowRun.
Variable tx : Transaction.
Variable ra : dict.

Hypothesis Hra : analyze_risk rt tx None (risk_reply replies) = Ok ra.
Hypothesis Hesc : escalates rt tx = true.

(** X10: when the capability raises at the reviewer's call of an
    escalated run, the compliance outcome of the returned run is the
    error outcome: [sar_required] false, the error text as notes, and no
    [ctr_required] entry, whatever the amount and the finding are; the
    statutory rules are not applied to it. *)
Theorem failed_review_skips_the_rules (e : exn) (r : WorkflowRun) :
  compliance_reply replies = Raise e ->
  returned (investigate_async rt now log tx replies) = Ok r ->
  compliance_check r = Some (compliance_error_outcome e)
  /\ compliance_error_outcome e !! "sar_required" = Some (VBool false)
  /\ compliance_error_outcome e !! "ctr_required" = None
  /\ compliance_error_outcome e !! "compliance_notes"
     = Some (VStr ("Compliance check error: " +:+ str_exn e)).
Proof.
  intros Hreply Hr.
  destruct (run_escalated rt replies now log tx ra Hra Hesc)
    as (reason & msg & fi & m2 & e2 & v & cc & m3 & e3 & w & H).
  cbv zeta in H.
  destruct H as (_ & _ & _ & _ & _ & _ & _ & _ & Hn3 & _ & _ & Hret & _).
  rewrite Hreply in Hn3.
  unfold _compliance_check_node, compliance_check_try, check_compliance
    in Hn3.
  cbn [bind] in Hn3. injection Hn3 as _ <- _.
  rewrite Hr in Hret.
  match type of Hret with
  | _ = bind ?decided _ =>
      destruct decided as [rationale|e']; [|discriminate]
  end.
  cbn [bind] in Hret. injection Hret as ->.
  split; [reflexivity|]. unfold compliance_error_outcome.
  repeat split; dict_lookup; reflexivity.
Qed.

(** X11: an escalated run returns, completed, whenever the
    capability answers the investigator with an object whose confidence
    is a float or missing and whose indicators are a list that starts
    with strings or are missing; the run holds the finding made of that
    answer and decides what the answer recommends, REVIEW when it
    recommends nothing. *)
Theorem well_formed_finding_returns (response : string) (d : dict) :
  fraud_reply replies = Ok response ->
  _parse_json_response rt response = VDict d ->
  (d !! "confidence" = None
   \/ exists c, d !! "confidence" = Some (VFloat c)) ->
  (d !! "fraud_indicators" = None
   \/ exists l ss,
        d !! "fraud_indicators" = Some (VList l)
        /\ strings_of (take 2 l) = Some ss) ->
  exists r fi,
    returned (investigate_async rt now log tx replies) = Ok r
    /\ investigate_transaction rt tx (VFloat (heuristic_score rt tx))
         (VList (VStr <$> _identify_patterns tx (heuristic_score rt tx)))
         (Ok response) = Ok fi
    /\ fraud_investigation r = Some fi
    /\ final_decision r = get d "recommendation" (VStr "REVIEW")
    /\ status r = "completed".
Proof.
  intros Hreply Hp Hconf Hind.
  destruct (run_escalated rt replies now log tx ra Hra Hesc)
    as (reason & msg & fi & m2 & e2 & v & cc & m3 & e3 & w & H).
  cbv zeta in H.
  destruct H as (_ & _ & _ & _ & _ & Hv & _ & Hn2 & _ & _ & _ & Hret & _).
  destruct (analyze_risk_inv rt _ _ _ Hra)
    as (_ & _ & _ & _ & Hs & _ & Hpat & _).
  destruct (investigate_transaction_fields rt tx (heuristic_score rt tx)
              (_identify_patterns tx (heuristic_score rt tx)) response d Hp)
    as (fi' & Hfi & Hlik & Hrec & Hin & Hc).
  unfold _fraud_investigation_node in Hn2.
  erewrite fraud_try_inputs in Hn2;
    [|reflexivity|dict_lookup; exact Hs|dict_lookup; exact Hpat].
  cbn [st_transaction merge foldl assign initial_state] in Hn2.
  rewrite Hreply, Hfi in Hn2. cbn [bind] in Hn2.
  rewrite (index_some fi' _ _ Hrec) in Hn2. cbn [bind] in Hn2.
  rewrite (index_some fi' _ _ Hlik) in Hn2. cbn [bind] in Hn2.
  injection Hn2 as _ <- _.
  rewrite Hrec in Hv. injection Hv as <-.
  assert (Hc' : exists c, fi' !! "confidence" = Some (VFloat c)).
  { rewrite Hc. unfold get.
    destruct Hconf as [->|[c ->]]; eexists; reflexivity. }
  assert (Hin' : exists l ss,
             fi' !! "fraud_indicators" = Some (VList l)
             /\ strings_of (take 2 l) = Some ss).
  { rewrite Hin. unfold get.
    destruct Hind as [->|(l & ss & -> & Hss)].
    - exists [], []. split; reflexivity.
    - exists l, ss. split; [reflexivity|exact Hss]. }
  destruct Hc' as [c Hc']. destruct Hin' as (l & ss & Hl & Hss).
  destruct (build_decision_reason_returns rt
              (get d "recommendation" (VStr "REVIEW"))
              (<["escalated" := VBool true]>
                 (<["routing_reason" := VStr reason]> ra))
              fi' (Some cc) (heuristic_score rt tx) c l ss
              ltac:(dict_lookup; exact Hs) Hc' Hl Hss)
    as (rationale & Hdec).
  rewrite Hdec in Hret. cbn [bind] in Hret.
  eexists _, fi'. split; [exact Hret|]. repeat split. exact Hfi.
Qed.

End EscalatedRuns.

Lemma failed_review_skips_the_rules_witness :
  exists r,
    returned (investigate_async sample_runtime "2026-01-11T02:00:05" []
                tx_f reviewer_down) = Ok r
    /\ compliance_check r
       = Some (compliance_error_outcome (CapabilityError "Read timeout")).
Proof.
  pose (ra := value_of ∅ (analyze_risk sample_runtime tx_f None (Ok "{}"))).
  pose (r := value_of no_run
               (returned (investigate_async sample_runtime
                            "2026-01-11T02:00:05" [] tx_f reviewer_down))).
  assert (Hra : analyze_risk sample_runtime tx_f None
                  (risk_reply reviewer_down) = Ok ra)
    by (vm_cast_no_check (eq_refl (Ok ra))).
  assert (Hr : returned (investigate_async sample_runtime
                           "2026-01-11T02:00:05" [] tx_f reviewer_down)
               = Ok r)
    by (vm_cast_no_check (eq_refl (Ok r))).
  exists r. split; [exact Hr|].
  exact (proj1 (failed_review_skips_the_rules sample_runtime reviewer_down
                  "2026-01-11T02:00:05" [] tx_f ra Hra eq_refl
                  (CapabilityError "Read timeout") r eq_refl Hr)).
Defined.

Lemma well_formed_finding_returns_witness :
  exists r,
    returned (investigate_async sample_runtime "2026-01-11T02:00:05" []
                tx_a investigator_says_block) = Ok r
    /\ final_decision r = VStr "BLOCK".
Proof.
  pose (ra := value_of ∅ (analyze_risk sample_runtime tx_a None (Ok "{}"))).
  pose (d := <["recommendation" := VStr "BLOCK"]> (∅ : dict)).
  assert (Hra : analyze_risk sample_runtime tx_a None
                  (risk_reply investigator_says_block) = Ok ra)
    by (vm_cast_no_check (eq_refl (Ok ra))).
  assert (Hesc : escalates sample_runtime tx_a = true)
    by (vm_cast_no_check (eq_refl true)).
  assert (Hp : _parse_json_response sample_runtime json_block = VDict d)
    by (vm_cast_no_check (eq_refl (VDict d))).
  assert (Hc : d !! "confidence" = None)
    by (apply lookup_insert_None; split; [apply lookup_empty|discriminate]).
  assert (Hi : d !! "fraud_indicators" = None)
    by (apply lookup_insert_None; split; [apply lookup_empty|discriminate]).
  destruct (well_formed_finding_returns sample_runtime
              investigator_says_block "2026-01-11T02:00:05" [] tx_a ra
              Hra Hesc json_block d eq_refl Hp (or_introl Hc) (or_introl Hi))
    as (r & fi & Hr & _ & _ & Hd & _).
  exists r. split; [exact Hr|].
  rewrite Hd. unfold get, d. rewrite lookup_insert_eq. reflexivity.
Defined.

(** ** The connection manager *)

Section Connections.

Implicit Types (m : ConnectionManager) (w c : WebSocket)
  (l : list WebSocket).

Lemma ws_in_true w l : ws_in w l = true <-> w ∈ l.
Proof.
  unfold ws_in. rewrite existsb_exists. split.
  - intros (c & Hc & E). apply Nat.eqb_eq in E. subst c.
    apply list_elem_of_In. exact Hc.
  - intros H. exists w. split; [apply list_elem_of_In; exact H|].
    apply Nat.eqb_refl.
Qed.

Lemma ws_in_false w l : ws_in w l = false <-> w ∉ l.
Proof.
  rewrite <- ws_in_true. destruct (ws_in w l); split; congruence.
Qed.

Lemma remove_if_in_absent w l : w ∉ l -> remove_if_in w l = l.
Proof.
  induction l as [|c l IH]; [reflexivity|].
  intros H. apply not_elem_of_cons in H as [Hc Hl]. cbn [remove_if_in].
  destruct (Nat.eqb_spec w c) as [E|_]; [contradiction|].
  rewrite (IH Hl). reflexivity.
Qed.

Lemma remove_if_in_first w l :
  w ∈ l ->
  exists l1 l2,
    l = (l1 ++ w :: l2)%list /\ (w ∉ l1)
    /\ remove_if_in w l = (l1 ++ l2)%list.
Proof.
  induction l as [|c l IH]; [intros H; inversion H|].
  intros H. cbn [remove_if_in].
  destruct (Nat.eqb_spec w c) as [<-|Hne].
  - exists [], l. repeat split. apply not_elem_of_nil.
  - apply elem_of_cons in H as [E|H]; [contradiction|].
    destruct (IH H) as (l1 & l2 & -> & Hl1 & ->).
    exists (c :: l1), l2. repeat split.
    apply not_elem_of_cons. split; assumption.
Qed.

Lemma remove_if_in_other w c l : c <> w -> c ∈ remove_if_in w l <-> c ∈ l.
Proof.
  intros Hne. induction l as [|x l IH]; [reflexivity|].
  cbn [remove_if_in]. destruct (Nat.eqb_spec w x) as [<-|_].
  - rewrite elem_of_cons. split; [right; assumption|].
    intros [E|H]; [contradiction|exact H].
  - rewrite !elem_of_cons, IH. reflexivity.
Qed.

Lemma remove_if_in_nodup w l :
  NoDup l -> NoDup (remove_if_in w l) /\ w ∉ remove_if_in w l.
Proof.
  induction 1 as [|c l Hc Hl IH]; cbn [remove_if_in].
  - split; [constructor|apply not_elem_of_nil].
  - destruct (Nat.eqb_spec w c) as [->|Hne]; [split; assumption|].
    destruct IH as [IH1 IH2]. split.
    + constructor; [|exact IH1].
      rewrite remove_if_in_other by congruence. exact Hc.
    + apply not_elem_of_cons. split; assumption.
Qed.

Lemma remove_if_in_filter w l :
  NoDup l ->
  remove_if_in w l = List.filter (fun c => negb (Nat.eqb w c)) l.
Proof.
  induction 1 as [|c l Hc Hl IH]; [reflexivity|].
  cbn [remove_if_in List.filter]. destruct (Nat.eqb_spec w c) as [->|Hne].
  - cbn [negb]. rewrite <- IH. symmetry. apply remove_if_in_absent. exact Hc.
  - cbn [negb]. rewrite IH. reflexivity.
Qed.

Lemma foldl_disconnect_active m (ws : list WebSocket) :
  active_connections (foldl disconnect m ws)
  = foldl (fun l w => remove_if_in w l) (active_connections m) ws.
Proof.
  revert m. induction ws as [|w ws IH]; intros m; [reflexivity|].
  cbn [foldl]. rewrite IH. reflexivity.
Qed.

Lemma foldl_disconnect_subscribers m (ws : list WebSocket) (tid : string) :
  investigation_subscribers (foldl disconnect m ws) !! tid
  = (fun l => foldl (fun l w => remove_if_in w l) l ws) <$>
      investigation_subscribers m !! tid.
Proof.
  revert m. induction ws as [|w ws IH]; intros m.
  - cbn [foldl]. destruct (investigation_subscribers m !! tid); reflexivity.
  - cbn [foldl]. rewrite IH. cbn [disconnect investigation_subscribers].
    rewrite lookup_fmap.
    destruct (investigation_subscribers m !! tid); reflexivity.
Qed.

Lemma foldl_remove_other c (ws : list WebSocket) l :
  c ∉ ws -> c ∈ foldl (fun l w => remove_if_in w l) l ws <-> c ∈ l.
Proof.
  revert l. induction ws as [|w ws IH]; intros l Hc; [reflexivity|].
  apply not_elem_of_cons in Hc as [Hne Hc].
  cbn [foldl]. rewrite (IH _ Hc). apply remove_if_in_other. exact Hne.
Qed.

Lemma foldl_remove_nodup (ws : list WebSocket) l :
  NoDup l ->
  NoDup (foldl (fun l w => remove_if_in w l) l ws)
  /\ foldl (fun l w => remove_if_in w l) l ws
     = List.filter (fun c => negb (ws_in c ws)) l.
Proof.
  revert l. induction ws as [|w ws IH]; intros l Hl.
  - cbn [foldl ws_in existsb negb]. split; [exact Hl|].
    induction l as [|c l IHl]; [reflexivity|].
    cbn [List.filter]. rewrite <- IHl by (inversion Hl; assumption).
    reflexivity.
  - cbn [foldl].
    destruct (remove_if_in_nodup w l Hl) as [Hnd _].
    destruct (IH _ Hnd) as [IH1 IH2]. split; [exact IH1|].
    rewrite IH2, (remove_if_in_filter w l Hl).
    clear. induction l as [|c l IHl]; [reflexivity|].
    cbn [List.filter ws_in existsb].
    rewrite (Nat.eqb_sym c w).
    destruct (Nat.eqb w c); cbn [negb orb List.filter]; rewrite IHl;
      reflexivity.
Qed.

Lemma filter_filter_raises (send_json : WebSocket -> outcome unit) l :
  List.filter
    (fun c => negb (ws_in c (List.filter (send_raises send_json) l))) l
  = List.filter (fun c => negb (send_raises send_json c)) l.
Proof.
  apply List.filter_ext_in. intros c Hc. f_equal.
  destruct (send_raises send_json c) eqn:Hr.
  - apply ws_in_true, list_elem_of_In, List.filter_In. split; assumption.
  - apply ws_in_false. intros H.
    apply list_elem_of_In, List.filter_In in H as [_ H]. congruence.
Qed.

Lemma ws_in_app_self w l : ws_in w (list_append l w) = true.
Proof.
  apply ws_in_true, elem_of_app. right.
  apply list_elem_of_singleton. reflexivity.
Qed.

Lemma remove_if_in_twice w l :
  w ∈ remove_if_in w (list_append (list_append l w) w).
Proof.
  unfold list_append. induction l as [|c l IH]; cbn [app remove_if_in].
  - rewrite Nat.eqb_refl. apply list_elem_of_here.
  - destruct (Nat.eqb_spec w c) as [_|_].
    + apply elem_of_app. right. apply list_elem_of_here.
    + apply list_elem_of_further. exact IH.
Qed.

(** X12: subscribing registers the socket for the transaction, at
    the end of the list and once: a second subscription changes nothing.
    It touches neither the connections nor the other transactions, it
    does not ask that the socket be connected, and lists without
    repetition stay so. *)
Theorem subscribe_is_idempotent m w (tid : string) :
  let m' := subscribe_investigation m w tid in
  let before := default [] (investigation_subscribers m !! tid) in
  investigation_subscribers m' !! tid
  = Some (if ws_in w before then before else (before ++ [w])%list)
  /\ w ∈ default [] (investigation_subscribers m' !! tid)
  /\ subscribe_investigation m' w tid = m'
  /\ active_connections m' = active_connections m
  /\ (forall tid', tid' <> tid ->
        investigation_subscribers m' !! tid'
        = investigation_subscribers m !! tid')
  /\ (NoDup before ->
      NoDup (default [] (investigation_subscribers m' !! tid))).
Proof.
  cbv zeta.
  assert (Hlook : investigation_subscribers (subscribe_investigation m w tid)
                  !! tid
                  = Some (if ws_in w (default [] (investigation_subscribers m
                                                    !! tid))
                          then default [] (investigation_subscribers m !! tid)
                          else (default [] (investigation_subscribers m
                                              !! tid) ++ [w])%list)).
  { unfold subscribe_investigation. cbn [investigation_subscribers].
    destruct (investigation_subscribers m !! tid) as [l|] eqn:Hl.
    - rewrite Hl. cbn [default from_option id].
      destruct (ws_in w l); [exact Hl|apply lookup_insert_eq].
    - rewrite lookup_insert_eq. cbn [default from_option id ws_in existsb].
      apply lookup_insert_eq. }
  assert (Hin : w ∈ default [] (investigation_subscribers
                                  (subscribe_investigation m w tid) !! tid)).
  { rewrite Hlook. cbn [default from_option id].
    destruct (ws_in w _) eqn:E; [apply ws_in_true; exact E|].
    apply elem_of_app. right. apply list_elem_of_singleton. reflexivity. }
  split; [exact Hlook|]. split; [exact Hin|].
  split; [|split; [reflexivity|split]].
  - unfold subscribe_investigation. cbn [investigation_subscribers
                                          active_connections].
    destruct (investigation_subscribers m !! tid) as [l|] eqn:Hl.
    + rewrite Hl. cbn [default from_option id].
      destruct (ws_in w l) eqn:E.
      * repeat (rewrite Hl; cbn [default from_option id]).
        rewrite E. reflexivity.
      * rewrite !lookup_insert_eq. cbn [default from_option id].
        rewrite ws_in_app_self. reflexivity.
    + rewrite !lookup_insert_eq. cbn [default from_option id ws_in existsb].
      rewrite !lookup_insert_eq.
      cbn [default from_option id list_append app existsb].
      change [w] with (list_append [] w) at 1.
      rewrite ws_in_app_self. reflexivity.
  - intros tid' Hne. clear Hlook Hin. unfold subscribe_investigation.
    cbn [investigation_subscribers].
    destruct (investigation_subscribers m !! tid) as [l|] eqn:Hl.
    + repeat (rewrite Hl; cbn [default from_option id]).
      destruct (ws_in w l); [reflexivity|].
      apply lookup_insert_ne. congruence.
    + rewrite lookup_insert_eq. cbn [default from_option id ws_in existsb].
      rewrite !lookup_insert_ne by congruence. reflexivity.
  - intros Hnd. rewrite Hlook. cbn [default from_option id].
    destruct (ws_in w _) eqn:E; [exact Hnd|].
    apply NoDup_app. split; [exact Hnd|]. split.
    + intros c Hc Hw. apply list_elem_of_singleton in Hw. subst c.
      apply ws_in_false in E. contradiction.
    + apply NoDup_singleton.
Qed.

(** X13: disconnecting takes the first occurrence of the socket out
    of the connections and out of every transaction's subscribers and
    leaves the rest in place; a transaction keeps its entry, empty or
    not.  A socket registered once is gone afterwards; one that was
    connected twice is still connected. *)
Theorem disconnect_removes_one m w :
  let m' := disconnect m w in
  (w ∉ active_connections m ->
   active_connections m' = active_connections m)
  /\ (w ∈ active_connections m ->
      exists l1 l2,
        active_connections m = (l1 ++ w :: l2)%list /\ (w ∉ l1)
        /\ active_connections m' = (l1 ++ l2)%list)
  /\ (NoDup (active_connections m) -> w ∉ active_connections m')
  /\ (forall c, c <> w ->
        c ∈ active_connections m' <-> c ∈ active_connections m)
  /\ (forall tid,
        investigation_subscribers m' !! tid
        = remove_if_in w <$> investigation_subscribers m !! tid)
  /\ (forall tid l,
        investigation_subscribers m !! tid = Some l -> NoDup l ->
        w ∉ default [] (investigation_subscribers m' !! tid))
  /\ (forall accept1 accept2 m1 m2,
        connect m w accept1 = Ok m1 ->
        connect m1 w accept2 = Ok m2 ->
        w ∈ active_connections (disconnect m2 w)).
Proof.
  cbv zeta. cbn [disconnect active_connections investigation_subscribers].
  split; [apply remove_if_in_absent|].
  split; [apply remove_if_in_first|].
  split; [intros H; apply (remove_if_in_nodup w _ H)|].
  split; [intros c Hc; apply remove_if_in_other; exact Hc|].
  split; [intros tid; apply lookup_fmap|].
  split.
  - intros tid l Hl Hnd. rewrite lookup_fmap, Hl.
    cbn [fmap option_fmap option_map default from_option id].
    apply (remove_if_in_nodup w l Hnd).
  - intros accept1 accept2 m1 m2 H1 H2. unfold connect in H1, H2.
    destruct accept1; [|discriminate]. destruct accept2; [|discriminate].
    cbn [bind] in H1, H2. injection H1 as <-. injection H2 as <-.
    cbn [active_connections]. apply remove_if_in_twice.
Qed.

(** X14: a send to a list of connections never unregisters one
    whose send went through; among connections without repetition it
    leaves exactly those, in their order, and they are the ones the
    message reached.  After a broadcast the connections are the ones that
    received it. *)
Theorem send_and_clean_up_keeps_the_working m (connections : list WebSocket)
    (send_json : WebSocket -> outcome unit) :
  let delivered := fst (send_and_clean_up m connections send_json) in
  let m' := snd (send_and_clean_up m connections send_json) in
  delivered
  = List.filter (fun c => negb (send_raises send_json c)) connections
  /\ (forall c, send_raises send_json c = false ->
        (c ∈ active_connections m' <-> c ∈ active_connections m)
        /\ forall tid,
             c ∈ default [] (investigation_subscribers m' !! tid)
             <-> c ∈ default [] (investigation_subscribers m !! tid))
  /\ (NoDup (active_connections m) ->
      forall c, c ∈ connections -> send_raises send_json c = true ->
                c ∉ active_connections m')
  /\ (NoDup (active_connections m) ->
      active_connections (snd (broadcast m send_json))
      = fst (broadcast m send_json))
  /\ (forall tid l,
        investigation_subscribers m !! tid = Some l -> NoDup l ->
        investigation_subscribers
          (snd (send_to_investigation_subscribers m tid send_json)) !! tid
        = Some (fst (send_to_investigation_subscribers m tid send_json))).
Proof.
  cbv zeta.
  unfold send_to_investigation_subscribers, broadcast, send_and_clean_up.
  cbn [fst snd].
  split; [reflexivity|].
  assert (Hnot : forall c, send_raises send_json c = false ->
                           c ∉ List.filter (send_raises send_json) connections).
  { intros c Hc H. apply list_elem_of_In, List.filter_In in H as [_ H].
    congruence. }
  split; [|split; [|split]].
  - intros c Hc. split.
    + rewrite foldl_disconnect_active.
      apply foldl_remove_other, Hnot, Hc.
    + intros tid. rewrite foldl_disconnect_subscribers.
      destruct (investigation_subscribers m !! tid) as [l|];
        [|reflexivity].
      cbn [fmap option_fmap option_map default from_option id].
      apply foldl_remove_other, Hnot, Hc.
  - intros Hnd c Hc Hr. rewrite foldl_disconnect_active.
    destruct (foldl_remove_nodup
                (List.filter (send_raises send_json) connections) _ Hnd)
      as [_ ->].
    intros H. apply list_elem_of_In, List.filter_In in H as [_ H].
    apply negb_true_iff, ws_in_false in H. apply H.
    apply list_elem_of_In, List.filter_In.
    split; [apply list_elem_of_In; exact Hc|exact Hr].
  - intros Hnd. rewrite foldl_disconnect_active.
    destruct (foldl_remove_nodup
                (List.filter (send_raises send_json) (active_connections m))
                _ Hnd) as [_ ->].
    apply filter_filter_raises.
  - intros tid l Hl Hnd. rewrite foldl_disconnect_subscribers, Hl.
    cbn [fmap option_fmap option_map default from_option id].
    destruct (foldl_remove_nodup
                (List.filter (send_raises send_json) l) _ Hnd) as [_ ->].
    rewrite filter_filter_raises. reflexivity.
Qed.

End Connections.

(** ** The statutory rules in the run *)

Lemma join_snoc (sep : string) (l : list string) (x : string) :
  exists pre, join sep (list_append l x) = pre +:+ x.
Proof.
  unfold join, list_append. induction l as [|a l IH].
  - exists "". reflexivity.
  - destruct IH as [pre IH]. destruct l as [|b l].
    + exists (a +:+ sep). cbn [app String.concat].
      rewrite append_assoc. reflexivity.
    + exists (a +:+ sep +:+ pre).
      change (String.concat sep ((a :: b :: l) ++ [x]))
        with (a +:+ sep +:+ String.concat sep ((b :: l) ++ [x])).
      rewrite IH, !append_assoc. reflexivity.
Qed.

Section RulesInTheRun.

Variable rt : PyRuntime.

(** The rationale ends with the CTR note when the compliance outcome
    requires a CTR. *)
Lemma build_decision_reason_ctr (v : value) (ra fi : option dict)
    (cc : dict) (reason : string) :
  _build_decision_reason rt v ra fi (Some cc) = Ok reason ->
  cc !! "ctr_required" = Some (VBool true) ->
  exists pre, reason = pre +:+ "CTR required (>$10K).".
Proof.
  intros Hreason Hctr. unfold _build_decision_reason in Hreason.
  match type of Hreason with
  | bind ?first _ = _ => destruct first as [parts|e]; [|discriminate]
  end.
  cbn [bind present default from_option id] in Hreason.
  rewrite (truthy_dict cc _ _ Hctr), (get_some cc _ _ _ Hctr) in Hreason.
  cbn [truthy] in Hreason. injection Hreason as <-.
  apply join_snoc.
Qed.

Variable replies : Replies.
Variable now : string.
Variable log : list WorkflowRun.
Variable tx : Transaction.
Variable ra : dict.

Hypothesis Hra : analyze_risk rt tx None (risk_reply replies) = Ok ra.
Hypothesis Hesc : escalates rt tx = true.

(** X15: in a returned escalated run over 10000 whose reviewer
    hears an object without action, violation or flag lists of its own,
    the compliance outcome of the run requires a CTR and the decision
    reason ends with the CTR note, whatever the finding and the decision
    are. *)
Theorem large_amount_run_reports_ctr (response : string) (d : dict)
    (r : WorkflowRun) :
  (10000 <? amount tx)%float = true ->
  compliance_reply replies = Ok response ->
  _parse_json_response rt response = VDict d ->
  d !! "regulatory_actions" = None ->
  d !! "aml_violations" = None ->
  d !! "kyc_flags" = None ->
  returned (investigate_async rt now log tx replies) = Ok r ->
  exists cc pre,
    compliance_check r = Some cc
    /\ cc !! "ctr_required" = Some (VBool true)
    /\ cc !! "agent" = Some (VStr "Compliance Officer")
    /\ decision_reason r = pre +:+ "CTR required (>$10K).".
Proof.
  intros Hamount Hreply Hp Hreg Haml Hkyc Hr.
  destruct (run_escalated rt replies now log tx ra Hra Hesc)
    as (reason & msg & fi & m2 & e2 & v & cc & m3 & e3 & w & H).
  cbv zeta in H.
  destruct H as (_ & _ & _ & _ & _ & Hv & _ & _ & Hn3 & _ & _ & Hret & _).
  destruct (check_compliance_returns rt tx fi response d Hp Hreg Haml Hkyc)
    as [out Hout].
  destruct (check_compliance_flags rt _ _ _ _ Hout)
    as (response1 & d1 & _ & _ & Hctr & Hsar).
  rewrite Hamount in Hctr.
  destruct (check_compliance_inv rt _ _ _ _ Hout)
    as (response2 & d2 & d' & text & _ & _ & _ & Hshape).
  assert (Hagent : out !! "agent" = Some (VStr "Compliance Officer"))
    by (rewrite Hshape; dict_lookup; reflexivity).
  clear Hshape.
  unfold _compliance_check_node, compliance_check_try in Hn3.
  cbn [st_transaction st_fraud_investigation merge foldl assign
       initial_state present default from_option id] in Hn3.
  rewrite (truthy_dict fi _ _ Hv), Hreply, Hout in Hn3.
  cbn [bind] in Hn3.
  rewrite (index_some out _ _ Hsar) in Hn3. cbn [bind] in Hn3.
  injection Hn3 as _ Hcc _. subst cc.
  rewrite Hr in Hret.
  match type of Hret with
  | _ = bind ?decided _ =>
      destruct decided as [rationale|e] eqn:Hdec; [|discriminate]
  end.
  cbn [bind] in Hret. injection Hret as ->.
  destruct (build_decision_reason_ctr _ _ _ _ _ Hdec Hctr) as [pre Hpre].
  exists out, pre. split; [reflexivity|]. split; [exact Hctr|].
  split; [exact Hagent|exact Hpre].
Qed.

End RulesInTheRun.

Lemma large_amount_run_reports_ctr_witness :
  exists r cc pre,
    returned (investigate_async sample_runtime "2026-01-11T02:00:05" []
                tx_f (all_reply "{}")) = Ok r
    /\ compliance_check r = Some cc
    /\ cc !! "ctr_required" = Some (VBool true)
    /\ decision_reason r = pre +:+ "CTR required (>$10K).".
Proof.
  pose (ra := value_of ∅ (analyze_risk sample_runtime tx_f None (Ok "{}"))).
  pose (r := value_of no_run
               (returned (investigate_async sample_runtime
                            "2026-01-11T02:00:05" [] tx_f
                            (all_reply "{}")))).
  assert (Hra : analyze_risk sample_runtime tx_f None
                  (risk_reply (all_reply "{}")) = Ok ra)
    by (vm_cast_no_check (eq_refl (Ok ra))).
  assert (Hesc : escalates sample_runtime tx_f = true)
    by (vm_cast_no_check (eq_refl true)).
  assert (Hr : returned (investigate_async sample_runtime
                           "2026-01-11T02:00:05" [] tx_f (all_reply "{}"))
               = Ok r)
    by (vm_cast_no_check (eq_refl (Ok r))).
  assert (Hp : _parse_json_response sample_runtime "{}" = VDict ∅)
    by (vm_cast_no_check (eq_refl (VDict ∅))).
  destruct (large_amount_run_reports_ctr sample_runtime (all_reply "{}")
              "2026-01-11T02:00:05" [] tx_f ra Hra Hesc "{}" ∅ r
              eq_refl eq_refl Hp (lookup_empty _) (lookup_empty _)
              (lookup_empty _) Hr)
    as (cc & pre & Hcc & Hctr & _ & Hpre).
  exists r, cc, pre. split; [exact Hr|]. split; [exact Hcc|].
  split; [exact Hctr|exact Hpre].
Defined.

(** ** The SAR report and the compliance summary *)

(** X16: the SAR report is the capability's answer with the agent,
    the report type SAR and the transaction id written over its entries
    of these names, and nothing else of it is checked: an answer that is
    not JSON still gives a report, which holds the raw text and the
    decoder's message and no SAR field.  What the capability raises is
    passed on. *)
Theorem sar_report_is_labelled (rt : PyRuntime) (tx : Transaction)
    (investigation : dict) (response : string) :
  (forall d,
     _parse_json_response rt response = VDict d ->
     exists report,
       generate_sar_report rt tx investigation (Ok response) = Ok report
       /\ report !! "agent" = Some (VStr "Compliance Officer")
       /\ report !! "report_type" = Some (VStr "SAR")
       /\ report !! "transaction_id" = Some (VStr (transaction_id tx))
       /\ forall k,
            ~ In k ["agent"; "report_type"; "transaction_id"] ->
            report !! k = d !! k)
  /\ (forall e1 e2,
        json_loads rt response = JSONDecodeError e1 ->
        json_loads rt (json_candidate response) = JSONDecodeError e2 ->
        exists report,
          generate_sar_report rt tx investigation (Ok response) = Ok report
          /\ report !! "raw_response" = Some (VStr response)
          /\ report !! "parse_error" = Some (VStr e2)
          /\ forall k,
               is_Some (report !! k) ->
               In k ["agent"; "report_type"; "transaction_id";
                     "raw_response"; "parse_error"])
  /\ (forall e,
        generate_sar_report rt tx investigation (Raise e) = Raise e).
Proof.
  split; [|split].
  - intros d Hp. unfold generate_sar_report. cbn [bind]. rewrite Hp.
    eexists. split; [reflexivity|].
    repeat (split; [dict_lookup; reflexivity|]).
    intros k Hk. other_key Hk. reflexivity.
  - intros e1 e2 H1 H2. unfold generate_sar_report. cbn [bind].
    rewrite (parse_degraded rt _ _ _ H1 H2).
    eexists. split; [reflexivity|]. unfold degraded.
    split; [dict_lookup; reflexivity|].
    split; [dict_lookup; reflexivity|].
    intros k [x Hx].
    destruct (decide (k = "transaction_id")) as [->|N1]; [cbn; tauto|].
    destruct (decide (k = "report_type")) as [->|N2]; [cbn; tauto|].
    destruct (decide (k = "agent")) as [->|N3]; [cbn; tauto|].
    destruct (decide (k = "raw_response")) as [->|N4]; [cbn; tauto|].
    destruct (decide (k = "parse_error")) as [->|N5]; [cbn; tauto|].
    rewrite !lookup_insert_ne in Hx by congruence.
    rewrite lookup_empty in Hx. discriminate Hx.
  - intros e. reflexivity.
Qed.

Lemma sar_report_is_labelled_witness :
  exists report,
    generate_sar_report sample_runtime tx_c finding_high (Ok "not json")
    = Ok report
    /\ report !! "raw_response" = Some (VStr "not json").
Proof.
  destruct (proj1 (proj2 (sar_report_is_labelled sample_runtime tx_c
                            finding_high "not json"))
              _ _ eq_refl eq_refl)
    as (report & Hreport & Hraw & _).
  exists report. split; [exact Hreport|exact Hraw].
Defined.

Lemma quiet_summary (rt : PyRuntime) (result : dict) (tx : Transaction)
    (fi : dict) :
  truthy (get result "ctr_required" VNone) = false ->
  truthy (get result "sar_required" VNone) = false ->
  py_len (get result "aml_violations" (VList [])) = Ok 0 ->
  py_len (get result "kyc_flags" (VList [])) = Ok 0 ->
  _generate_compliance_summary rt result tx fi
  = Ok (if (5000 <? amount tx)%float
        then "SAR not required: Transaction $"
             +:+ format_float rt ",.2f" (amount tx)
             +:+ " reviewed, no suspicious indicators confirmed."
        else "All compliance checks passed. "
             +:+ "No regulatory filings required.").
Proof.
  intros Hc Hs Ha Hk. unfold _generate_compliance_summary.
  rewrite Hc, Hs, Ha, Hk. cbn [bind Nat.ltb Nat.leb].
  destruct (5000 <? amount tx)%float; reflexivity.
Qed.

(** X17: when no rule fires and the capability's answer has neither
    flags nor lists of its own, the outcome has both flags false, no
    action, and the summary that all checks passed; with an amount over
    5000 the summary says instead that no SAR is required. *)
Theorem quiet_review_summary (rt : PyRuntime) (tx : Transaction)
    (fi : dict) (response : string) (d : dict) :
  _parse_json_response rt response = VDict d ->
  (10000 <? amount tx)%float = false ->
  sar_rule_fires tx fi = false ->
  d !! "ctr_required" = None ->
  d !! "sar_required" = None ->
  d !! "regulatory_actions" = None ->
  d !! "aml_violations" = None ->
  d !! "kyc_flags" = None ->
  exists out,
    check_compliance rt tx fi (Ok response) = Ok out
    /\ out !! "ctr_required" = Some (VBool false)
    /\ out !! "sar_required" = Some (VBool false)
    /\ out !! "regulatory_actions" = Some (VList [])
    /\ out !! "compliance_summary"
       = Some (VStr (if (5000 <? amount tx)%float
                     then "SAR not required: Transaction $"
                          +:+ format_float rt ",.2f" (amount tx)
                          +:+ " reviewed, no suspicious indicators confirmed."
                     else "All compliance checks passed. "
                          +:+ "No regulatory filings required.")).
Proof.
  intros Hp Hamount Hsar Hc Hs Hr Ha Hk.
  unfold check_compliance. cbn [bind]. rewrite Hp.
  unfold apply_ctr_rule, apply_sar_rule. rewrite Hamount, Hsar.
  cbn [bind].
  rewrite (quiet_summary rt).
  - cbn [bind]. eexists. split; [reflexivity|].
    split; [dict_lookup; rewrite Hc; reflexivity|].
    split; [dict_lookup; rewrite Hs; reflexivity|].
    split; [dict_lookup; rewrite Hr; reflexivity|].
    dict_lookup. reflexivity.
  - unfold get. dict_lookup. rewrite Hc. reflexivity.
  - unfold get. dict_lookup. rewrite Hs. reflexivity.
  - unfold get. dict_lookup. rewrite Ha. reflexivity.
  - unfold get. dict_lookup. rewrite Hk. reflexivity.
Qed.

Lemma quiet_review_summary_witness :
  exists out,
    check_compliance sample_runtime tx_b ∅ (Ok "{}") = Ok out
    /\ out !! "compliance_summary"
       = Some (VStr ("All compliance checks passed. "
                     +:+ "No regulatory filings required.")).
Proof.
  assert (Hp : _parse_json_response sample_runtime "{}" = VDict ∅)
    by (vm_cast_no_check (eq_refl (VDict ∅))).
  destruct (quiet_review_summary sample_runtime tx_b ∅ "{}" ∅ Hp
              eq_refl eq_refl (lookup_empty _) (lookup_empty _)
              (lookup_empty _) (lookup_empty _) (lookup_empty _))
    as (out & Hout & _ & _ & _ & Hsum).
  exists out. split; [exact Hout|exact Hsum].
Defined.

(** ** A failing assessor *)

(** X19: the Assessing node's own steps never raise: what its try
    block raises, the assessor has raised.  When the assessor raises, the
    node records the error text and the status error in the state, the
    graph still runs Finalizing, and the run is returned completed, with
    the decision REVIEW and the rationale of an incomplete analysis. *)
Theorem assessing_failure_is_finalized (rt : PyRuntime) (replies : Replies)
    (now : string) (log : list WorkflowRun) (tx : Transaction) :
  let inv := investigate_async rt now log tx replies in
  (forall st e,
     risk_analysis_try rt st (risk_reply replies) = Raise e ->
     analyze_risk rt (st_transaction st) None (risk_reply replies) = Raise e)
  /\ forall e,
       analyze_risk rt tx None (risk_reply replies) = Raise e ->
       _risk_analysis_node rt (initial_state now tx) (risk_reply replies)
       = ([agent_thinking "Risk Analyst" "Analyzing transaction risk..."],
          [set_error (str_exn e); set_status "error"])
       /\ map fst (path inv) = [N_analyze_risk; N_finalize]
       /\ returned inv
          = Ok {| run_transaction_id := transaction_id tx;
                  run_timestamp := now;
                  steps := ["Final Decision: REVIEW"];
                  risk_analysis := None;
                  fraud_investigation := None;
                  compliance_check := None;
                  final_decision := VStr "REVIEW";
                  decision_reason :=
                    "Manual review required due to incomplete analysis.";
                  status := "completed" |}.
Proof.
  cbv zeta. split.
  - intros st e Htry.
    destruct (analyze_risk rt (st_transaction st) None (risk_reply replies))
      as [ra|e'] eqn:Hra.
    + destruct (risk_analysis_try_ok rt st _ ra Hra)
        as (reason & msg & Hok & _).
      rewrite Hok in Htry. discriminate Htry.
    + rewrite (risk_analysis_try_raise rt st _ e' Hra) in Htry.
      injection Htry as ->. reflexivity.
  - intros e Hra. split.
    + exact (risk_analysis_node_raise rt (initial_state now tx) _ e Hra).
    + destruct (run_unassessed rt replies now log tx e Hra)
        as (_ & Hpath & Hret & _).
      split; [exact Hpath|exact Hret].
Qed.

Lemma assessing_failure_is_finalized_witness :
  exists r,
    returned (investigate_async sample_runtime "2026-01-11T02:00:05" []
                tx_a all_raise) = Ok r
    /\ status r = "completed".
Proof.
  eexists. split.
  - exact (proj2 (proj2 (proj2 (assessing_failure_is_finalized
                                   sample_runtime all_raise
                                   "2026-01-11T02:00:05" [] tx_a)
                           (CapabilityError "Read timeout") eq_refl))).
  - reflexivity.
Defined.
